(** * Anchor TypeScript SDK: request pipeline, error classifier and
      domain normalizers

    A shallow embedding of [typescript-sdk/src/http.ts],
    [typescript-sdk/src/exceptions.ts] and the five namespace modules
    ([agents], [config], [data], [checkpoints], [audit]), with the
    properties of the specification stated and proved on it. *)

From Stdlib Require Import String Ascii ZArith QArith Qabs Qminmax List Bool Lia DecimalString.
Import ListNotations.
Open Scope string_scope.
Open Scope Z_scope.

Set Warnings "-register-all".

(** ** JavaScript values as the SDK sees them

    Everything the SDK reads off the wire went through [JSON.parse], so the
    dynamic values are JSON values.  [undefined] is not a JSON value: a
    property read that may yield [undefined] has type [option json].
    Numbers are rationals (every finite double is one); a number is falsy
    exactly when it is zero. *)

Inductive json : Type :=
| JNull
| JBool (b : bool)
| JNum (q : Q)
| JStr (s : string)
| JArr (items : list json)
| JObj (fields : list (string * json)).

(** A [Record<string, any>]: an object, as its list of own properties. *)
Definition Record := list (string * json).

Definition empty_object : json := JObj [].

(** ToBoolean. *)
Definition truthy (v : json) : bool :=
  match v with
  | JNull => false
  | JBool b => b
  | JNum q => negb (Qnum q =? 0)
  | JStr s => negb (s =? "")%string
  | JArr _ => true
  | JObj _ => true
  end.

(** ToBoolean of a value that may be [undefined]. *)
Definition truthy_opt (o : option json) : bool :=
  match o with
  | Some v => truthy v
  | None => false
  end.

(** [a || b] where both sides may be [undefined]. *)
Definition js_or (a b : option json) : option json :=
  if truthy_opt a then a else b.

(** [a || d] where [d] is a literal. *)
Definition or_else (a : option json) (d : json) : json :=
  match a with
  | Some v => if truthy v then v else d
  | None => d
  end.

(** Own-property lookup in an object. *)
Fixpoint lookup (k : string) (fields : Record) : option json :=
  match fields with
  | [] => None
  | (k', v) :: rest => if (k =? k')%string then Some v else lookup k rest
  end.

(** [data?.k]: [undefined] on [null] and on a value without that property.
    None of the property names the SDK reads exists on the prototypes of
    strings, numbers, booleans or arrays, so only objects answer. *)
Definition prop (data : json) (k : string) : option json :=
  match data with
  | JObj fields => lookup k fields
  | _ => None
  end.

(** The template literal [`${n}`] for an integer. *)
Definition string_of_Z (n : Z) : string := NilZero.string_of_int (Z.to_int n).

(** Whether a value has a primitive conversion, as [String(v)], a template
    literal and [new Date(v)] ask for.  After [JSON.parse] no property of an
    object is callable, so an own [toString] property hides
    [Object.prototype.toString] and the conversion throws [TypeError] (the
    inherited [valueOf] returns the object itself, and an own one is not
    callable either); an array converts by joining the conversions of its
    elements, [null] giving the empty string. *)
Fixpoint convertible (v : json) : bool :=
  match v with
  | JArr items => forallb convertible items
  | JObj fields =>
      match lookup "toString" fields with
      | Some _ => false
      | None => true
      end
  | _ => true
  end.

(** ** exceptions.ts

    One constructor per exception class, holding the arguments of the class
    constructor in their order.  [JsException] stands for the built-in
    exceptions of the language ([TypeError], [RangeError]), which are not
    part of the hierarchy. *)

Inductive Error : Type :=
| AnchorAPIError (message : json) (statusCode : Z) (response : json)
| AuthenticationError (message : json) (statusCode : Z) (response : json)
| AuthorizationError (message : json) (statusCode : Z) (response : json)
    (requiredPermission : option json)
| NotFoundError (message : json) (statusCode : Z) (response : json)
| ValidationError (message : json) (statusCode : Z) (response : json)
    (field : option json)
| PolicyViolationError (message : json) (policyName : json) (statusCode : Z)
    (response : json)
| RateLimitError (message : json) (statusCode : Z) (response : json)
    (retryAfter : option json)
| ServerError (message : json) (statusCode : Z) (response : json)
| NetworkError (message : string)
| JsException (name : string) (message : string).

(** [this.code] as each constructor sets it; the built-in exceptions have
    none. *)
Definition code (e : Error) : option string :=
  match e with
  | AnchorAPIError _ _ _ => Some "api_error"
  | AuthenticationError _ _ _ => Some "authentication_error"
  | AuthorizationError _ _ _ _ => Some "authorization_error"
  | NotFoundError _ _ _ => Some "not_found"
  | ValidationError _ _ _ _ => Some "validation_error"
  | PolicyViolationError _ _ _ _ => Some "policy_violation"
  | RateLimitError _ _ _ _ => Some "rate_limit"
  | ServerError _ _ _ => Some "server_error"
  | NetworkError _ => Some "network_error"
  | JsException _ _ => None
  end.

(** [e instanceof AnchorAPIError]. *)
Definition instanceof_AnchorAPIError (e : Error) : bool :=
  match e with
  | NetworkError _ | JsException _ _ => false
  | _ => true
  end.

(** [e instanceof NotFoundError]. *)
Definition instanceof_NotFoundError (e : Error) : bool :=
  match e with
  | NotFoundError _ _ _ => true
  | _ => false
  end.

(** [e instanceof NetworkError]. *)
Definition instanceof_NetworkError (e : Error) : bool :=
  match e with
  | NetworkError _ => true
  | _ => false
  end.

(** [this.statusCode] of an API error. *)
Definition statusCode_of (e : Error) : option Z :=
  match e with
  | AnchorAPIError _ c _ | AuthenticationError _ c _
  | AuthorizationError _ c _ _ | NotFoundError _ c _
  | ValidationError _ c _ _ | PolicyViolationError _ _ c _
  | RateLimitError _ c _ _ | ServerError _ c _ => Some c
  | NetworkError _ | JsException _ _ => None
  end.

(** [this.response = response || {}] of an API error. *)
Definition response_of (e : Error) : option json :=
  match e with
  | AnchorAPIError _ _ r | AuthenticationError _ _ r
  | AuthorizationError _ _ r _ | NotFoundError _ _ r
  | ValidationError _ _ r _ | PolicyViolationError _ _ _ r
  | RateLimitError _ _ r _ | ServerError _ _ r =>
      Some (or_else (Some r) empty_object)
  | NetworkError _ | JsException _ _ => None
  end.

(** The [message] argument an API error was built with. *)
Definition message_argument (e : Error) : option json :=
  match e with
  | AnchorAPIError m _ _ | AuthenticationError m _ _
  | AuthorizationError m _ _ _ | NotFoundError m _ _
  | ValidationError m _ _ _ | PolicyViolationError m _ _ _
  | RateLimitError m _ _ _ | ServerError m _ _ => Some m
  | NetworkError _ | JsException _ _ => None
  end.

(** The [TypeError] of a conversion to a primitive that fails. *)
Definition TypeError_primitive : Error :=
  JsException "TypeError" "Cannot convert object to primitive value".

(** What [throw new C(message, ...)] throws.  Every class of the API
    hierarchy reaches [super(`${statusCode}: ${message}`)] in
    [AnchorAPIError] before anything else, and the template literal throws
    [TypeError] when [message] has no primitive conversion: the error is
    then never built. *)
Definition construct (e : Error) : Error :=
  match message_argument e with
  | Some message => if convertible message then e else TypeError_primitive
  | None => e
  end.

(** ** http.ts: HttpClient.handleError *)

(** [data?.message || data?.error || `HTTP ${statusCode}`]. *)
Definition error_message (statusCode : Z) (data : json) : json :=
  or_else (js_or (prop data "message") (prop data "error"))
          (JStr ("HTTP " ++ string_of_Z statusCode)).

(** [handleError] never returns: its value here is the exception it
    throws. *)
Definition handleError (statusCode : Z) (data : json) : Error :=
  let message := error_message statusCode data in
  if truthy_opt (prop data "blocked_by") || truthy_opt (prop data "policy_name")
  then
    let policyName :=
      or_else (js_or (prop data "blocked_by") (prop data "policy_name"))
              (JStr "unknown") in
    construct (PolicyViolationError message policyName statusCode data)
  else if statusCode =? 400 then
    construct (ValidationError message statusCode data (prop data "field"))
  else if statusCode =? 401 then
    construct (AuthenticationError message statusCode data)
  else if statusCode =? 403 then
    construct (AuthorizationError message statusCode data
                 (prop data "required_permission"))
  else if statusCode =? 404 then
    construct (NotFoundError message statusCode data)
  else if statusCode =? 429 then
    construct (RateLimitError message statusCode data (prop data "retry_after"))
  else if statusCode >=? 500 then
    construct (ServerError message statusCode data)
  else
    construct (AnchorAPIError message statusCode data).

(** ** The platform

    [JSON.parse] and [Date.parse] are built-ins of the JavaScript runtime,
    and so are the text a number, an array or an object converts to, and
    the [URL] constructor.  The SDK is verified against any runtime. *)

Class Runtime : Type := {
  (** [JSON.parse(text)]; [None] when it throws [SyntaxError]. *)
  JSON_parse : string -> option json;
  (** [Date.parse(s)] in milliseconds since the epoch; [None] for [NaN]. *)
  Date_parse : string -> option Z;
  (** [String(v)] for an array or an object that has a primitive
      conversion. *)
  Object_toString : json -> string;
  (** [String(n)] for a number. *)
  Number_toString : Q -> string;
  (** [toISOString()] of a valid [Date] with this time value. *)
  Date_toISOString : Z -> string;
  (** Whether [new URL(s)] accepts [s] (it throws [TypeError] otherwise). *)
  URL_valid : string -> bool
}.

(** Outcome of a call that may throw. *)
Inductive Result (A : Type) : Type :=
| Return (a : A)
| Throw (e : Error).
Arguments Return {A} a.
Arguments Throw {A} e.

Definition bind {A B : Type} (r : Result A) (k : A -> Result B) : Result B :=
  match r with
  | Return a => k a
  | Throw e => Throw e
  end.

Notation "'let*' x ':=' r 'in' k" := (bind r (fun x => k))
  (at level 10, x name, r at level 100, k at level 200).

(** ** config.ts: the part of [Config] the pipeline reads *)

Record Config : Type := {
  apiKey : string;
  baseUrl : option string;
  timeout : option Z;
  retryAttempts : option Z;
  retryDelay : option Z
}.

(** ** The transport

    What one loop iteration of [request] meets; the pipeline is verified
    against every behaviour of the network. *)

(** An exception thrown by the platform: its [name] and [message]. *)
Record Thrown : Type := {
  thrown_name : string;
  thrown_message : string
}.

(** A [Response]: its status and what [response.text()] resolves to
    ([None] when reading the body rejects). *)
Record Response : Type := {
  status : Z;
  text : option string
}.

(** [response.ok], which the Fetch standard defines as a status in 200-299. *)
Definition ok (r : Response) : bool :=
  (200 <=? status r) && (status r <=? 299).

Inductive Outcome : Type :=
| SetupThrows (e : Thrown)   (* [getFetch()] or [new AbortController()] throws *)
| FetchRejects (e : Thrown)  (* the promise of [fetchFn] rejects *)
| Responds (r : Response).   (* it resolves *)

(** The outcome of the iteration in which the loop variable is [attempt]. *)
Definition Transport := Z -> Outcome.

(** The arguments of one [fetchFn] call.  [query] holds the pairs appended
    to [url.searchParams] and [body] the object handed to
    [JSON.stringify]. *)
Record FetchCall : Type := {
  url : string;
  query : list (string * string);
  method : string;
  headers : list (string * string);
  body : option Record
}.

(** What one iteration of the retry loop did: the [fetchFn] call it issued,
    if it got that far, and the backoff sleep it awaited, if any. *)
Record Attempt : Type := {
  fetched : option FetchCall;
  slept : option Z
}.

(** A run of [request]: its iterations in order, and how it ended. *)
Definition Run : Type := list Attempt * Result json.

Definition trace (r : Run) : list Attempt := fst r.
Definition outcome (r : Run) : Result json := snd r.

(** Prefix a run with one more iteration. *)
Definition after (a : Attempt) (r : Run) : Run := (a :: fst r, snd r).

(** A run that ends in this iteration. *)
Definition ending (a : Attempt) (res : Result json) : Run := ([a], res).

(** ** http.ts: HttpClient.request *)

Section Pipeline.

Context {RT : Runtime}.

(** The body of a response as a JSON value (the [responseData] of
    [request]). *)
Definition parseBody (body_text : option string) : json :=
  match body_text with
  | Some t =>
      if negb (t =? "")%string then
        match JSON_parse t with
        | Some v => v
        | None => JObj [("error", JStr t)]
        end
      else empty_object
  | None => empty_object
  end.

(** [value || fallback] on an optional string of the configuration. *)
Definition string_or (o : option string) (d : string) : string :=
  match o with
  | Some s => if (s =? "")%string then d else s
  | None => d
  end.

(** [value || fallback] on an optional number of the configuration. *)
Definition number_or (o : option Z) (d : Z) : Z :=
  match o with
  | Some n => if n =? 0 then d else n
  | None => d
  end.

(** [value ?? fallback]. *)
Definition number_nullish (o : option Z) (d : Z) : Z :=
  match o with
  | Some n => n
  | None => d
  end.

(** The four constants [request] reads off the configuration. *)
Definition effective_baseUrl (cfg : Config) : string :=
  string_or (baseUrl cfg) "https://api.getanchor.dev".
Definition effective_timeout (cfg : Config) : Z :=
  number_or (timeout cfg) 30000.
Definition effective_retryAttempts (cfg : Config) : Z :=
  number_nullish (retryAttempts cfg) 3.
Definition effective_retryDelay (cfg : Config) : Z :=
  number_or (retryDelay cfg) 1000.

(** [String(value)]. *)
Definition ToString (value : json) : Result string :=
  match value with
  | JNull => Return "null"
  | JBool b => Return (if b then "true" else "false")
  | JNum n => Return (Number_toString n)
  | JStr s => Return s
  | JArr _ | JObj _ =>
      if convertible value then Return (Object_toString value)
      else Throw TypeError_primitive
  end.

(** The [forEach] over [Object.entries(params)]: a pair is appended for
    every value that is neither [undefined] nor [null], in the order of the
    parameter object, and the first [String(value)] that throws ends it. *)
Fixpoint append_entries (entries : list (string * option json))
  : Result (list (string * string)) :=
  match entries with
  | [] => Return []
  | (key, value) :: rest =>
      match value with
      | None | Some JNull => append_entries rest
      | Some v =>
          let* s := ToString v in
          let* appended := append_entries rest in
          Return ((key, s) :: appended)
      end
  end.

(** The query pairs of [url.searchParams]. *)
Definition query_of (params : option (list (string * option json)))
  : Result (list (string * string)) :=
  match params with
  | Some ps => append_entries ps
  | None => Return []
  end.

(** The [headers] object, in insertion order. *)
Definition headers_of (cfg : Config) (data : option Record)
  : list (string * string) :=
  ([("User-Agent", "anchorai-typescript/1.0.0")]
   ++ (if negb (apiKey cfg =? "")%string
       then [("X-API-Key", apiKey cfg)] else [])
   ++ (match data with
       | Some _ => [("Content-Type", "application/json")]
       | None => []
       end))%list.

(** The call every iteration issues: nothing in it depends on the loop
    variable. *)
Definition fetch_call (cfg : Config) (meth endpoint : string)
  (data : option Record) (query : list (string * string)) : FetchCall :=
  {| url := effective_baseUrl cfg ++ endpoint;
     query := query;
     method := meth;
     headers := headers_of cfg data;
     body := data |}.

(** [String(error)] of a thrown exception without a message is its name;
    [error?.message || String(error)]. *)
Definition describe (e : Thrown) : string :=
  if (thrown_message e =? "")%string then thrown_name e else thrown_message e.

(** The [NetworkError] built from a thrown exception, in the inner [catch]
    of the fetch call and in the outer [catch] alike. *)
Definition network_error (timeout_ms : Z) (e : Thrown) : Error :=
  if (thrown_name e =? "AbortError")%string
  then NetworkError ("Request timeout after " ++ string_of_Z timeout_ms ++ "ms")
  else NetworkError ("Request failed: " ++ describe e).

(** [retryDelay * Math.pow(2, attempt)]. *)
Definition backoff (delay attempt : Z) : Z := delay * 2 ^ attempt.

Section Loop.

Variable transport : Transport.
Variable cfg : Config.
Variable call : FetchCall.

(** How the body of the [try] block leaves an iteration, and the value of
    [lastError] at that point. *)
Inductive Exit : Type :=
| Returned (responseData : json)
| Slept (lastError : option Error)   (* [await this.sleep(..); continue] *)
| Threw (lastError : option Error) (error : Error).

(** The body of the [try] block: the call it issued, if it got that far,
    and how it was left. *)
Definition try_block (attempt : Z) (lastError : option Error)
  : option FetchCall * Exit :=
  let retryAttempts := effective_retryAttempts cfg in
  match transport attempt with
  | SetupThrows e =>
      (None, Threw lastError (JsException (thrown_name e) (thrown_message e)))
  | FetchRejects e =>
      (* the inner catch *)
      let lastError := network_error (effective_timeout cfg) e in
      if attempt <? retryAttempts then (Some call, Slept (Some lastError))
      else (Some call, Threw (Some lastError) lastError)
  | Responds r =>
      let responseData := parseBody (text r) in
      if ok r then (Some call, Returned responseData)
      else
        let statusCode := if status r =? 0 then 500 else status r in
        if (statusCode >=? 400) && (statusCode <? 500)
           && negb (statusCode =? 429) then
          (Some call, Threw lastError (handleError statusCode responseData))
        else if attempt <? retryAttempts then (Some call, Slept lastError)
        else (Some call, Threw lastError (handleError statusCode responseData))
  end.

(** What the outer [catch (error)] block does with an exception: it
    rethrows it, or keeps an error in [lastError]. *)
Inductive Caught : Type :=
| Rethrown (error : Error)
| Kept (lastError : Error).

Definition catch_block (error : Error) : Caught :=
  match error with
  | JsException name message =>
      (* not an API error; [AbortError] or any other exception that is not
         a [NetworkError] *)
      Kept (network_error (effective_timeout cfg)
              {| thrown_name := name; thrown_message := message |})
  | NetworkError _ =>
      (* [lastError = error] *)
      Kept error
  | _ =>
      (* [error instanceof AnchorAPIError] *)
      Rethrown error
  end.

(** The statements after the loop. *)
Definition after_loop (lastError : option Error) : Result json :=
  match lastError with
  | Some e => Throw e
  | None => Throw (NetworkError "Request failed after retries")
  end.

(** The [for] loop, [iterations] being the number of iterations left until
    [attempt <= retryAttempts] fails. *)
Fixpoint attempts (iterations : nat) (attempt : Z) (lastError : option Error)
  {struct iterations} : Run :=
  match iterations with
  | O => ([], after_loop lastError)
  | S rest =>
      let retryAttempts := effective_retryAttempts cfg in
      let retryDelay := effective_retryDelay cfg in
      let (issued, exit) := try_block attempt lastError in
      match exit with
      | Returned responseData =>
          ending {| fetched := issued; slept := None |} (Return responseData)
      | Slept lastError =>
          after {| fetched := issued;
                   slept := Some (backoff retryDelay attempt) |}
                (attempts rest (attempt + 1) lastError)
      | Threw _ error =>
          match catch_block error with
          | Rethrown error =>
              ending {| fetched := issued; slept := None |} (Throw error)
          | Kept lastError =>
              if attempt <? retryAttempts then
                after {| fetched := issued;
                         slept := Some (backoff retryDelay attempt) |}
                      (attempts rest (attempt + 1) (Some lastError))
              else
                after {| fetched := issued; slept := None |}
                      (attempts rest (attempt + 1) (Some lastError))
          end
      end
  end.

End Loop.

Definition request (transport : Transport) (cfg : Config)
  (meth endpoint : string) (data : option Record)
  (params : option (list (string * option json))) : Run :=
  if URL_valid (effective_baseUrl cfg ++ endpoint) then
    match query_of params with
    | Return query =>
        attempts transport cfg (fetch_call cfg meth endpoint data query)
                 (Z.to_nat (effective_retryAttempts cfg + 1)) 0 None
    | Throw e =>
        (* [String(value)] throws before the loop is entered *)
        ([], Throw e)
    end
  else
    (* [new URL] throws before anything else *)
    ([], Throw (JsException "TypeError" "Invalid URL")).

End Pipeline.

(** ** Domain entities

    A field declared with a default ([data.x || d]) holds a value; a field
    copied as it is ([data.x]) may be [undefined]; a timestamp is a [Date]
    or [undefined]. *)

(** A [Date] object: its time value, [None] for an Invalid Date. *)
Record Date : Type := { time_value : option Z }.

Module Agent.
Record t : Type := {
  id : json;
  name : json;
  status : json;
  metadata : json;
  configVersion : option json;
  dataCount : option json;
  checkpointCount : option json;
  createdAt : option Date;
  updatedAt : option Date
}.
End Agent.

(** The [Config] of the config namespace ([AgentConfig] in the exports). *)
Module AgentConfig.
Record t : Type := {
  agentId : json;
  version : json;
  config : json;
  previousVersion : option json;
  createdAt : option Date;
  createdBy : option json;
  auditId : option json
}.
End AgentConfig.

Module ConfigVersion.
Record t : Type := {
  version : json;
  createdAt : option Date;
  createdBy : option json;
  summary : option json
}.
End ConfigVersion.

Module WriteResult.
Record t : Type := {
  key : json;
  allowed : bool;
  auditId : json;
  blockedBy : option json;
  reason : option json;
  expiresAt : option Date;
  createdAt : option Date
}.
End WriteResult.

Module DataEntry.
Record t : Type := {
  key : json;
  value : json;
  metadata : json;
  createdAt : option Date;
  updatedAt : option Date;
  expiresAt : option Date;
  auditId : json
}.
End DataEntry.

Module SearchResult.
Record t : Type := {
  key : json;
  value : json;
  similarity : json;
  metadata : json
}.
End SearchResult.

Module DataSnapshot.
Record t : Type := {
  keyCount : json;
  totalSizeBytes : json
}.
End DataSnapshot.

Module Checkpoint.
Record t : Type := {
  id : json;
  agentId : json;
  label : option json;
  description : option json;
  configVersion : json;
  dataSnapshot : DataSnapshot.t;
  createdAt : option Date;
  auditId : option json
}.
End Checkpoint.

Module RestoreResult.
Record t : Type := {
  restoredFrom : json;
  configRestored : json;
  configVersion : option json;
  dataRestored : json;
  dataKeysRestored : json;
  dataKeysRemoved : json;
  auditId : json;
  restoredAt : option Date
}.
End RestoreResult.

Module AuditEvent.
Record t : Type := {
  id : json;
  agentId : json;
  operation : json;
  resource : json;
  result : json;
  blockedBy : option json;
  timestamp : option Date;
  hash : json;
  previousHash : option json;
  metadata : json
}.
End AuditEvent.

Module Verification.
Record t : Type := {
  valid : json;
  eventsChecked : json;
  chainStart : option json;
  chainEnd : option json;
  verifiedAt : option Date;
  firstInvalid : option json
}.
End Verification.

Module ExportResult.
Record t : Type := {
  exportId : json;
  format : json;
  downloadUrl : json;
  expiresAt : option Date;
  eventCount : json;
  verification : option Verification.t
}.
End ExportResult.

(** ** The normalizers *)

(** The own properties of a value that is not [null]: those of an object;
    none of the names the normalizers read for anything else. *)
Definition props_of (v : json) : Record :=
  match v with
  | JObj fields => fields
  | _ => []
  end.

(** TimeClip of the [Date] constructor applied to a number. *)
Definition TimeClip (q : Q) : option Z :=
  if Qle_bool (Qabs q) (inject_Z 8640000000000000)
  then Some (Z.quot (Qnum q) (Zpos (Qden q)))
  else None.

Section Normalizers.

Context {RT : Runtime}.

(** [new Date(v)]: the argument is converted to a primitive first, which
    throws for a value that has no such conversion; a string is then
    parsed, anything else is taken as a number of milliseconds. *)
Definition new_Date (v : json) : Result Date :=
  if convertible v then
    Return {| time_value :=
                match v with
                | JStr s => Date_parse s
                | JNum q => TimeClip q
                | JBool b => Some (if b then 1 else 0)
                | JNull => Some 0
                | JArr _ | JObj _ => Date_parse (Object_toString v)
                end |}
  else Throw TypeError_primitive.

(** [x ? new Date(x) : undefined]. *)
Definition date_of (x : option json) : Result (option Date) :=
  match x with
  | Some v =>
      if truthy v then let* d := new_Date v in Return (Some d)
      else Return None
  | None => Return None
  end.

(** In a normalizer only the [new Date] initializers can throw; they are
    evaluated in the order of the object literal. *)

Definition parseAgent (data : Record) : Result Agent.t :=
  let* createdAt := date_of (lookup "created_at" data) in
  let* updatedAt := date_of (lookup "updated_at" data) in
  Return
    {| Agent.id := or_else (js_or (lookup "id" data) (lookup "agent_id" data))
                           (JStr "");
       Agent.name := or_else (lookup "name" data) (JStr "");
       Agent.status := or_else (lookup "status" data) (JStr "active");
       Agent.metadata :=
         or_else (js_or (lookup "metadata" data) (lookup "config" data))
                 empty_object;
       Agent.configVersion := lookup "config_version" data;
       Agent.dataCount := lookup "data_count" data;
       Agent.checkpointCount := lookup "checkpoint_count" data;
       Agent.createdAt := createdAt;
       Agent.updatedAt := updatedAt |}.

Definition parseConfig (data : Record) : Result AgentConfig.t :=
  let* createdAt := date_of (lookup "created_at" data) in
  Return
    {| AgentConfig.agentId := or_else (lookup "agent_id" data) (JStr "");
       AgentConfig.version := or_else (lookup "version" data) (JStr "");
       AgentConfig.config := or_else (lookup "config" data) empty_object;
       AgentConfig.previousVersion := lookup "previous_version" data;
       AgentConfig.createdAt := createdAt;
       AgentConfig.createdBy := lookup "created_by" data;
       AgentConfig.auditId := lookup "audit_id" data |}.

Definition parseConfigVersion (data : Record) : Result ConfigVersion.t :=
  let* createdAt := date_of (lookup "created_at" data) in
  Return
    {| ConfigVersion.version := or_else (lookup "version" data) (JStr "");
       ConfigVersion.createdAt := createdAt;
       ConfigVersion.createdBy := lookup "created_by" data;
       ConfigVersion.summary := lookup "summary" data |}.

(** [x !== false]. *)
Definition not_false (x : option json) : bool :=
  match x with
  | Some (JBool false) => false
  | _ => true
  end.

Definition parseWriteResult (data : Record) : Result WriteResult.t :=
  let* expiresAt := date_of (lookup "expires_at" data) in
  let* createdAt := date_of (lookup "created_at" data) in
  Return
    {| WriteResult.key := or_else (lookup "key" data) (JStr "");
       WriteResult.allowed := not_false (lookup "allowed" data);
       WriteResult.auditId := or_else (lookup "audit_id" data) (JStr "");
       WriteResult.blockedBy := lookup "blocked_by" data;
       WriteResult.reason := lookup "reason" data;
       WriteResult.expiresAt := expiresAt;
       WriteResult.createdAt := createdAt |}.

Definition parseDataEntry (data : Record) : Result DataEntry.t :=
  let* createdAt := date_of (lookup "created_at" data) in
  let* updatedAt := date_of (lookup "updated_at" data) in
  let* expiresAt := date_of (lookup "expires_at" data) in
  Return
    {| DataEntry.key := or_else (lookup "key" data) (JStr "");
       DataEntry.value := or_else (lookup "value" data) (JStr "");
       DataEntry.metadata := or_else (lookup "metadata" data) empty_object;
       DataEntry.createdAt := createdAt;
       DataEntry.updatedAt := updatedAt;
       DataEntry.expiresAt := expiresAt;
       DataEntry.auditId := or_else (lookup "audit_id" data) (JStr "") |}.

(** No timestamp: [parseSearchResult] and [parseDataSnapshot] always
    return. *)
Definition parseSearchResult (data : Record) : SearchResult.t :=
  {| SearchResult.key := or_else (lookup "key" data) (JStr "");
     SearchResult.value := or_else (lookup "value" data) (JStr "");
     SearchResult.similarity := or_else (lookup "similarity" data) (JNum 0);
     SearchResult.metadata := or_else (lookup "metadata" data) empty_object |}.

Definition parseDataSnapshot (data : Record) : DataSnapshot.t :=
  {| DataSnapshot.keyCount := or_else (lookup "key_count" data) (JNum 0);
     DataSnapshot.totalSizeBytes :=
       or_else (lookup "total_size_bytes" data) (JNum 0) |}.

Definition parseCheckpoint (data : Record) : Result Checkpoint.t :=
  let* createdAt := date_of (lookup "created_at" data) in
  Return
    {| Checkpoint.id := or_else (lookup "id" data) (JStr "");
       Checkpoint.agentId := or_else (lookup "agent_id" data) (JStr "");
       Checkpoint.label := lookup "label" data;
       Checkpoint.description := lookup "description" data;
       Checkpoint.configVersion :=
         or_else (lookup "config_version" data) (JStr "");
       Checkpoint.dataSnapshot :=
         parseDataSnapshot
           (props_of (or_else (lookup "data_snapshot" data) empty_object));
       Checkpoint.createdAt := createdAt;
       Checkpoint.auditId := lookup "audit_id" data |}.

Definition parseRestoreResult (data : Record) : Result RestoreResult.t :=
  let* restoredAt := date_of (lookup "restored_at" data) in
  Return
    {| RestoreResult.restoredFrom :=
         or_else (lookup "restored_from" data) (JStr "");
       RestoreResult.configRestored :=
         or_else (lookup "config_restored" data) (JBool false);
       RestoreResult.configVersion := lookup "config_version" data;
       RestoreResult.dataRestored :=
         or_else (lookup "data_restored" data) (JBool false);
       RestoreResult.dataKeysRestored :=
         or_else (lookup "data_keys_restored" data) (JNum 0);
       RestoreResult.dataKeysRemoved :=
         or_else (lookup "data_keys_removed" data) (JNum 0);
       RestoreResult.auditId := or_else (lookup "audit_id" data) (JStr "");
       RestoreResult.restoredAt := restoredAt |}.

Definition parseAuditEvent (data : Record) : Result AuditEvent.t :=
  let* timestamp := date_of (lookup "timestamp" data) in
  Return
    {| AuditEvent.id := or_else (lookup "id" data) (JStr "");
       AuditEvent.agentId := or_else (lookup "agent_id" data) (JStr "");
       AuditEvent.operation := or_else (lookup "operation" data) (JStr "");
       AuditEvent.resource := or_else (lookup "resource" data) (JStr "");
       AuditEvent.result := or_else (lookup "result" data) (JStr "allowed");
       AuditEvent.blockedBy := lookup "blocked_by" data;
       AuditEvent.timestamp := timestamp;
       AuditEvent.hash := or_else (lookup "hash" data) (JStr "");
       AuditEvent.previousHash := lookup "previous_hash" data;
       AuditEvent.metadata := or_else (lookup "metadata" data) empty_object |}.

Definition parseVerification (data : Record) : Result Verification.t :=
  let* verifiedAt := date_of (lookup "verified_at" data) in
  Return
    {| Verification.valid := or_else (lookup "valid" data) (JBool false);
       Verification.eventsChecked :=
         or_else (lookup "events_checked" data) (JNum 0);
       Verification.chainStart := lookup "chain_start" data;
       Verification.chainEnd := lookup "chain_end" data;
       Verification.verifiedAt := verifiedAt;
       Verification.firstInvalid := lookup "first_invalid" data |}.

(** [data.verification ? parseVerification(data.verification) :
    undefined]. *)
Definition verification_of (x : option json)
  : Result (option Verification.t) :=
  match x with
  | Some v =>
      if truthy v then
        let* verification := parseVerification (props_of v) in
        Return (Some verification)
      else Return None
  | None => Return None
  end.

Definition parseExportResult (data : Record) : Result ExportResult.t :=
  let* expiresAt := date_of (lookup "expires_at" data) in
  let* verification := verification_of (lookup "verification" data) in
  Return
    {| ExportResult.exportId := or_else (lookup "export_id" data) (JStr "");
       ExportResult.format := or_else (lookup "format" data) (JStr "json");
       ExportResult.downloadUrl :=
         or_else (lookup "download_url" data) (JStr "");
       ExportResult.expiresAt := expiresAt;
       ExportResult.eventCount := or_else (lookup "event_count" data) (JNum 0);
       ExportResult.verification := verification |}.

End Normalizers.

(** ** Namespace facades

    A namespace holds an [HttpClient] and reaches the network through its
    [request] method only; here the client is that method, so that the
    facades are verified against every behaviour of the pipeline. *)

Definition Params := list (string * option json).

Definition HttpClient : Type :=
  string -> string -> option Record -> option Params -> Result json.

(** The client of a configuration on a given network. *)
Definition client {RT : Runtime} (transport : Transport) (cfg : Config)
  : HttpClient :=
  fun meth endpoint data params =>
    outcome (request transport cfg meth endpoint data params).

(** [try { body } catch (error) { if (error instanceof NotFoundError) return
    null; throw error; }]. *)
Definition null_if_not_found {A : Type} (null : A) (body : Result A)
  : Result A :=
  match body with
  | Return a => Return a
  | Throw e => if instanceof_NotFoundError e then Return null else Throw e
  end.

Definition TypeError_null : Error :=
  JsException "TypeError" "Cannot read properties of null".

Definition TypeError_map : Error :=
  JsException "TypeError" "map is not a function".

(** [v.k], which throws on [null]. *)
Definition read_prop (v : json) (k : string) : Result (option json) :=
  match v with
  | JNull => Throw TypeError_null
  | _ => Return (prop v k)
  end.

(** A normalizer applied to a value: its first property read throws on
    [null]. *)
Definition normalize {A : Type} (parse : Record -> Result A) (v : json)
  : Result A :=
  match v with
  | JNull => Throw TypeError_null
  | _ => parse (props_of v)
  end.

(** A normalizer that always returns. *)
Definition total {A : Type} (parse : Record -> A) (data : Record) : Result A :=
  Return (parse data).

(** [items.map(f)], stopping at the first element on which [f] throws. *)
Fixpoint map_result {A B : Type} (f : A -> Result B) (items : list A)
  : Result (list B) :=
  match items with
  | [] => Return []
  | x :: rest =>
      let* y := f x in
      let* ys := map_result f rest in
      Return (y :: ys)
  end.

(** [(response.k || []).map(f)]. *)
Definition map_prop {B : Type} (response : json) (k : string)
  (f : json -> Result B) : Result (list B) :=
  let* items := read_prop response k in
  match items with
  | Some v =>
      if truthy v then
        match v with
        | JArr elements => map_result f elements
        | _ => Throw TypeError_map
        end
      else Return []
  | None => Return []
  end.

(** An object literal property whose value may be [undefined]:
    [JSON.stringify] leaves such a property out. *)
Definition optional_field (k : string) (o : option json) : Record :=
  match o with
  | Some v => [(k, v)]
  | None => []
  end.

(** [metadata || {}] for an optional object argument. *)
Definition object_or_empty (o : option Record) : json :=
  match o with
  | Some fields => JObj fields
  | None => empty_object
  end.

(** [n || d] for an optional number argument. *)
Definition Q_or (o : option Q) (d : Q) : Q :=
  match o with
  | Some n => if Qnum n =? 0 then d else n
  | None => d
  end.

(** A parameter with a default value ([limit = 20]): the default stands in
    for [undefined]. *)
Definition default_to (o : option Q) (d : Q) : Q :=
  match o with
  | Some n => n
  | None => d
  end.

(** [if (s) params[k] = s] for an optional string argument. *)
Definition when_string (k : string) (o : option string) : Params :=
  match o with
  | Some s => if (s =? "")%string then [] else [(k, Some (JStr s))]
  | None => []
  end.

Section Facades.

Context {RT : Runtime}.
Variable http : HttpClient.

(** The five verbs of [HttpClient]. *)
Definition http_get (endpoint : string) (params : option Params) :=
  http "GET" endpoint None params.
Definition http_post (endpoint : string) (data : option Record)
  (params : option Params) := http "POST" endpoint data params.
Definition http_put (endpoint : string) (data : option Record)
  (params : option Params) := http "PUT" endpoint data params.
Definition http_patch (endpoint : string) (data : option Record)
  (params : option Params) := http "PATCH" endpoint data params.
Definition http_delete (endpoint : string) (params : option Params) :=
  http "DELETE" endpoint None params.

(** [parseAgent(response.agent || response)]. *)
Definition agent_of_response (response : json) : Result Agent.t :=
  let* agent := read_prop response "agent" in
  normalize parseAgent
    (match js_or agent (Some response) with
     | Some v => v
     | None => response
     end).

(** *** AgentsNamespace *)

Definition AgentsNamespace_create (name : string) (metadata : option Record)
  : Result Agent.t :=
  let* response :=
    http_post "/agents"
      (Some [("name", JStr name); ("metadata", object_or_empty metadata)])
      None in
  agent_of_response response.

Definition AgentsNamespace_get (agentId : string) : Result (option Agent.t) :=
  null_if_not_found None
    (let* response := http_get ("/agents/" ++ agentId) None in
     let* agent := agent_of_response response in
     Return (Some agent)).

Definition AgentsNamespace_list (status : option string)
  (limit offset : option Q) : Result (list Agent.t) :=
  let params :=
    ([("limit", Some (JNum (Qmin (Q_or limit 50) 100)));
      ("offset", Some (JNum (Q_or offset 0)))]
     ++ when_string "status" status)%list in
  let* response := http_get "/agents" (Some params) in
  map_prop response "agents" (normalize parseAgent).

Definition AgentsNamespace_update (agentId : string) (metadata : Record)
  : Result Agent.t :=
  let* response :=
    http_patch ("/agents/" ++ agentId) (Some [("metadata", JObj metadata)])
      None in
  agent_of_response response.

Definition AgentsNamespace_delete (agentId : string) : Result bool :=
  let* _ := http_delete ("/agents/" ++ agentId) None in
  Return true.

Definition AgentsNamespace_suspend (agentId : string) : Result Agent.t :=
  let* response := http_post ("/agents/" ++ agentId ++ "/suspend") None None in
  agent_of_response response.

Definition AgentsNamespace_activate (agentId : string) : Result Agent.t :=
  let* response :=
    http_post ("/agents/" ++ agentId ++ "/activate") None None in
  agent_of_response response.

(** *** ConfigNamespace *)

Definition ConfigNamespace_get (agentId : string) : Result AgentConfig.t :=
  let* response := http_get ("/agents/" ++ agentId ++ "/config") None in
  normalize parseConfig response.

Definition ConfigNamespace_update (agentId : string) (config : Record)
  : Result AgentConfig.t :=
  let* response :=
    http_put ("/agents/" ++ agentId ++ "/config") (Some config) None in
  normalize parseConfig response.

Definition ConfigNamespace_versions (agentId : string) (limit : option Q)
  : Result (list ConfigVersion.t) :=
  let* response :=
    http_get ("/agents/" ++ agentId ++ "/config/versions")
      (Some [("limit", Some (JNum (default_to limit 20)))]) in
  map_prop response "versions" (normalize parseConfigVersion).

Definition ConfigNamespace_getVersion (agentId version : string)
  : Result AgentConfig.t :=
  let* response :=
    http_get ("/agents/" ++ agentId ++ "/config/versions/" ++ version) None in
  normalize parseConfig response.

Definition ConfigNamespace_rollback (agentId targetVersion : string)
  : Result AgentConfig.t :=
  let* response :=
    http_post ("/agents/" ++ agentId ++ "/config/rollback")
      (Some [("target_version", JStr targetVersion)]) None in
  normalize parseConfig response.

(** *** DataNamespace *)

Definition DataNamespace_write (agentId key value : string)
  (metadata : option Record) : Result WriteResult.t :=
  let* response :=
    http_post ("/agents/" ++ agentId ++ "/data")
      (Some [("key", JStr key); ("value", JStr value);
             ("metadata", object_or_empty metadata)])
      None in
  normalize parseWriteResult response.

Definition DataNamespace_writeBatch (agentId : string)
  (items : list (string * string)) : Result (list WriteResult.t) :=
  let payload :=
    [("items",
      JArr (map (fun kv : string * string =>
                   JObj [("key", JStr (fst kv)); ("value", JStr (snd kv))])
                items))] in
  let* response :=
    http_post ("/agents/" ++ agentId ++ "/data/batch") (Some payload) None in
  map_prop response "results" (normalize parseWriteResult).

(** [response.value ?? null]; the result is a string or [null]. *)
Definition DataNamespace_read (agentId key : string) : Result json :=
  null_if_not_found JNull
    (let* response :=
       http_get ("/agents/" ++ agentId ++ "/data/" ++ key) None in
     let* value := read_prop response "value" in
     Return (match value with
             | Some v => v
             | None => JNull
             end)).

Definition DataNamespace_readFull (agentId key : string)
  : Result (option DataEntry.t) :=
  null_if_not_found None
    (let* response :=
       http_get ("/agents/" ++ agentId ++ "/data/" ++ key) None in
     let* entry := normalize parseDataEntry response in
     Return (Some entry)).

Definition DataNamespace_delete (agentId key : string) : Result bool :=
  let* _ := http_delete ("/agents/" ++ agentId ++ "/data/" ++ key) None in
  Return true.

Definition DataNamespace_deletePrefix (agentId prefix : string)
  : Result json :=
  let* response :=
    http_delete ("/agents/" ++ agentId ++ "/data")
      (Some [("prefix", Some (JStr prefix))]) in
  let* deleted_count := read_prop response "deleted_count" in
  Return (or_else deleted_count (JNum 0)).

(** [(k) => k.key || '']. *)
Definition key_of (k : json) : Result json :=
  let* key := read_prop k "key" in
  Return (or_else key (JStr "")).

(** On an array [response.keys] is the method of that name, which has no
    [map]. *)
Definition DataNamespace_list (agentId : string) (prefix : option string)
  (limit : option Q) : Result (list json) :=
  let params :=
    ([("limit", Some (JNum (Q_or limit 100)))]
     ++ when_string "prefix" prefix)%list in
  let* response := http_get ("/agents/" ++ agentId ++ "/data") (Some params) in
  match response with
  | JArr _ => Throw TypeError_map
  | _ =>
      map_prop response "keys" key_of
  end.

Definition DataNamespace_search (agentId query : string)
  (limit : option Q) (prefix : option string) (minSimilarity : option Q)
  : Result (list SearchResult.t) :=
  let payload :=
    ([("query", JStr query);
      ("limit", JNum (Q_or limit 10));
      ("min_similarity", JNum (Q_or minSimilarity 0.7))]
     ++ match prefix with
        | Some s => if (s =? "")%string then [] else [("prefix", JStr s)]
        | None => []
        end)%list in
  let* response :=
    http_post ("/agents/" ++ agentId ++ "/data/search") (Some payload) None in
  map_prop response "results" (normalize (total parseSearchResult)).

(** *** CheckpointsNamespace *)

Definition CheckpointsNamespace_create (agentId : string)
  (label description : option string) : Result Checkpoint.t :=
  let* response :=
    http_post ("/agents/" ++ agentId ++ "/checkpoints")
      (Some (optional_field "label" (option_map JStr label)
             ++ optional_field "description" (option_map JStr description))%list)
      None in
  normalize parseCheckpoint response.

Definition CheckpointsNamespace_list (agentId : string) (limit : option Q)
  : Result (list Checkpoint.t) :=
  let* response :=
    http_get ("/agents/" ++ agentId ++ "/checkpoints")
      (Some [("limit", Some (JNum (default_to limit 20)))]) in
  map_prop response "checkpoints" (normalize parseCheckpoint).

Definition CheckpointsNamespace_get (agentId checkpointId : string)
  : Result Checkpoint.t :=
  let* response :=
    http_get ("/agents/" ++ agentId ++ "/checkpoints/" ++ checkpointId) None in
  normalize parseCheckpoint response.

(** [x ?? true] for an optional boolean. *)
Definition bool_or_true (o : option bool) : bool :=
  match o with
  | Some b => b
  | None => true
  end.

Definition CheckpointsNamespace_restore (agentId checkpointId : string)
  (restoreConfig restoreData : option bool) : Result RestoreResult.t :=
  let* response :=
    http_post
      ("/agents/" ++ agentId ++ "/checkpoints/" ++ checkpointId ++ "/restore")
      (Some [("restore_config", JBool (bool_or_true restoreConfig));
             ("restore_data", JBool (bool_or_true restoreData))])
      None in
  normalize parseRestoreResult response.

Definition CheckpointsNamespace_delete (agentId checkpointId : string)
  : Result bool :=
  let* _ :=
    http_delete ("/agents/" ++ agentId ++ "/checkpoints/" ++ checkpointId)
      None in
  Return true.

(** *** AuditNamespace *)

(** [d.toISOString()], which throws [RangeError] on an Invalid Date. *)
Definition toISOString (d : Date) : Result string :=
  match time_value d with
  | Some t => Return (Date_toISOString t)
  | None => Throw (JsException "RangeError" "Invalid time value")
  end.

(** [if (d) target[k] = d.toISOString()]: a [Date] object is truthy. *)
Definition iso_field (k : string) (d : option Date)
  : Result (list (string * json)) :=
  match d with
  | Some date => let* s := toISOString date in Return [(k, JStr s)]
  | None => Return []
  end.

Definition as_params (fields : list (string * json)) : Params :=
  map (fun kv : string * json => (fst kv, Some (snd kv))) fields.

Definition AuditNamespace_query (agentId : string)
  (operations : option (list string)) (startTime endTime : option Date)
  (limit : option Q) : Result (list AuditEvent.t) :=
  let params :=
    ([("limit", JNum (Qmin (Q_or limit 100) 1000))]
     ++ match operations with
        | Some ops => [("operations", JStr (String.concat "," ops))]
        | None => []
        end)%list in
  let* start := iso_field "start" startTime in
  let* finish := iso_field "end" endTime in
  let* response :=
    http_get ("/agents/" ++ agentId ++ "/audit")
      (Some (as_params (params ++ start ++ finish)%list)) in
  map_prop response "events" (normalize parseAuditEvent).

Definition AuditNamespace_get (agentId auditId : string)
  : Result AuditEvent.t :=
  let* response :=
    http_get ("/agents/" ++ agentId ++ "/audit/" ++ auditId) None in
  normalize parseAuditEvent response.

Definition AuditNamespace_verify (agentId : string) (startTime : option Date)
  : Result Verification.t :=
  let* start := iso_field "start" startTime in
  let* response :=
    http_get ("/agents/" ++ agentId ++ "/audit/verify")
      (Some (as_params start)) in
  normalize parseVerification response.

Definition AuditNamespace_export (agentId : string) (format : option string)
  (startTime endTime : option Date) (includeVerification : option bool)
  : Result ExportResult.t :=
  let payload :=
    [("format", JStr (string_or format "json"));
     ("include_verification", JBool (bool_or_true includeVerification))] in
  let* start := iso_field "start" startTime in
  let* finish := iso_field "end" endTime in
  let* response :=
    http_post ("/agents/" ++ agentId ++ "/audit/export")
      (Some (payload ++ start ++ finish)%list) None in
  normalize parseExportResult response.

End Facades.

(** ** Vocabulary of the properties *)

(** The policy-blocking indicator as [handleError] tests it. *)
Definition policy_indicator (data : json) : bool :=
  truthy_opt (prop data "blocked_by") || truthy_opt (prop data "policy_name").

(** The value of a header in a [headers] object. *)
Fixpoint header (k : string) (hs : list (string * string)) : option string :=
  match hs with
  | [] => None
  | (k', v) :: rest => if (k =? k')%string then Some v else header k rest
  end.

(** A [TypeError], whatever its message. *)
Definition is_TypeError (e : Error) : Prop :=
  exists message, e = JsException "TypeError" message.

(** What a collection facade makes of the array [items] of a response, [f]
    being what it does with one element: it returns the results of [f] on
    the elements, one for one and in their order, when [f] returns on each
    of them; an element that is [null] makes it throw a [TypeError]. *)
Definition elementwise {A : Type} (f : json -> Result A) (items : list json)
  (res : Result (list A)) : Prop :=
  (forall out, res = Return out <->
               Forall2 (fun item a => f item = Return a) items out) /\
  (In JNull items -> exists e, res = Throw e /\ is_TypeError e).

(** An optional [Date] argument that [toISOString] accepts. *)
Definition usable_date (d : option Date) : Prop :=
  forall x, d = Some x -> time_value x <> None.

(** A timestamp field against the wire field it is read from: it is
    absent exactly when the wire value is missing or falsy, otherwise it is
    the [Date] built from the wire value, whose instant is the one
    [Date.parse] gives when the wire value is a string it accepts. *)
Definition timestamp_ok {RT : Runtime} (wire : option json)
  (field : option Date) : Prop :=
  (field = None <-> truthy_opt wire = false) /\
  (forall d, field = Some d ->
             exists v, wire = Some v /\ new_Date v = Return d) /\
  (forall s t, wire = Some (JStr s) -> s <> "" -> Date_parse s = Some t ->
               field = Some {| time_value := Some t |}).

(** A wire value that [x ? new Date(x) : undefined] accepts: a missing
    one, or one that has a primitive conversion (every string, number and
    boolean has). *)
Definition convertible_opt (wire : option json) : bool :=
  match wire with
  | Some v => convertible v
  | None => true
  end.

(** *** Full payloads

    A documented wire field is populated when it is present with a value
    that says something: a truthy one or, where the entity's zero value is
    meaningful ([false], [0], the empty string), that zero value. *)

Definition nonempty (wire : option json) : Prop := truthy_opt wire = true.

Definition populated (wire : option json) (zero : json) : Prop :=
  exists v, wire = Some v /\ (truthy v = true \/ v = zero).

Definition populated_bool (wire : option json) : Prop :=
  exists b, wire = Some (JBool b).

Definition populated_date (wire : option json) : Prop :=
  exists s, wire = Some (JStr s) /\ s <> "".

(** A timestamp read back from an entity is the instant of the wire
    string. *)
Definition same_instant {RT : Runtime} (wire : option json)
  (field : option Date) : Prop :=
  exists s, wire = Some (JStr s) /\
            option_map time_value field = Some (Date_parse s).

Section FullPayloads.

Context {RT : Runtime}.

Definition full_Agent (data : Record) : Prop :=
  nonempty (lookup "id" data) /\
  populated (lookup "name" data) (JStr "") /\
  populated (lookup "status" data) (JStr "active") /\
  nonempty (lookup "metadata" data) /\
  populated_date (lookup "created_at" data) /\
  populated_date (lookup "updated_at" data).

Definition readback_Agent (data : Record) (r : Agent.t) : Prop :=
  lookup "id" data = Some (Agent.id r) /\
  lookup "name" data = Some (Agent.name r) /\
  lookup "status" data = Some (Agent.status r) /\
  lookup "metadata" data = Some (Agent.metadata r) /\
  lookup "config_version" data = Agent.configVersion r /\
  lookup "data_count" data = Agent.dataCount r /\
  lookup "checkpoint_count" data = Agent.checkpointCount r /\
  same_instant (lookup "created_at" data) (Agent.createdAt r) /\
  same_instant (lookup "updated_at" data) (Agent.updatedAt r).

Definition full_Config (data : Record) : Prop :=
  populated (lookup "agent_id" data) (JStr "") /\
  populated (lookup "version" data) (JStr "") /\
  nonempty (lookup "config" data) /\
  populated_date (lookup "created_at" data).

Definition readback_Config (data : Record) (r : AgentConfig.t) : Prop :=
  lookup "agent_id" data = Some (AgentConfig.agentId r) /\
  lookup "version" data = Some (AgentConfig.version r) /\
  lookup "config" data = Some (AgentConfig.config r) /\
  lookup "previous_version" data = AgentConfig.previousVersion r /\
  same_instant (lookup "created_at" data) (AgentConfig.createdAt r) /\
  lookup "created_by" data = AgentConfig.createdBy r /\
  lookup "audit_id" data = AgentConfig.auditId r.

Definition full_ConfigVersion (data : Record) : Prop :=
  populated (lookup "version" data) (JStr "") /\
  populated_date (lookup "created_at" data).

Definition readback_ConfigVersion (data : Record) (r : ConfigVersion.t)
  : Prop :=
  lookup "version" data = Some (ConfigVersion.version r) /\
  same_instant (lookup "created_at" data) (ConfigVersion.createdAt r) /\
  lookup "created_by" data = ConfigVersion.createdBy r /\
  lookup "summary" data = ConfigVersion.summary r.

Definition full_WriteResult (data : Record) : Prop :=
  populated (lookup "key" data) (JStr "") /\
  populated_bool (lookup "allowed" data) /\
  populated (lookup "audit_id" data) (JStr "") /\
  populated_date (lookup "expires_at" data) /\
  populated_date (lookup "created_at" data).

Definition readback_WriteResult (data : Record) (r : WriteResult.t) : Prop :=
  lookup "key" data = Some (WriteResult.key r) /\
  lookup "allowed" data = Some (JBool (WriteResult.allowed r)) /\
  lookup "audit_id" data = Some (WriteResult.auditId r) /\
  lookup "blocked_by" data = WriteResult.blockedBy r /\
  lookup "reason" data = WriteResult.reason r /\
  same_instant (lookup "expires_at" data) (WriteResult.expiresAt r) /\
  same_instant (lookup "created_at" data) (WriteResult.createdAt r).

Definition full_DataEntry (data : Record) : Prop :=
  populated (lookup "key" data) (JStr "") /\
  populated (lookup "value" data) (JStr "") /\
  nonempty (lookup "metadata" data) /\
  populated_date (lookup "created_at" data) /\
  populated_date (lookup "updated_at" data) /\
  populated_date (lookup "expires_at" data) /\
  populated (lookup "audit_id" data) (JStr "").

Definition readback_DataEntry (data : Record) (r : DataEntry.t) : Prop :=
  lookup "key" data = Some (DataEntry.key r) /\
  lookup "value" data = Some (DataEntry.value r) /\
  lookup "metadata" data = Some (DataEntry.metadata r) /\
  same_instant (lookup "created_at" data) (DataEntry.createdAt r) /\
  same_instant (lookup "updated_at" data) (DataEntry.updatedAt r) /\
  same_instant (lookup "expires_at" data) (DataEntry.expiresAt r) /\
  lookup "audit_id" data = Some (DataEntry.auditId r).

Definition full_SearchResult (data : Record) : Prop :=
  populated (lookup "key" data) (JStr "") /\
  populated (lookup "value" data) (JStr "") /\
  populated (lookup "similarity" data) (JNum 0) /\
  nonempty (lookup "metadata" data).

Definition readback_SearchResult (data : Record) (r : SearchResult.t) : Prop :=
  lookup "key" data = Some (SearchResult.key r) /\
  lookup "value" data = Some (SearchResult.value r) /\
  lookup "similarity" data = Some (SearchResult.similarity r) /\
  lookup "metadata" data = Some (SearchResult.metadata r).

Definition full_DataSnapshot (data : Record) : Prop :=
  populated (lookup "key_count" data) (JNum 0) /\
  populated (lookup "total_size_bytes" data) (JNum 0).

Definition readback_DataSnapshot (data : Record) (r : DataSnapshot.t) : Prop :=
  lookup "key_count" data = Some (DataSnapshot.keyCount r) /\
  lookup "total_size_bytes" data = Some (DataSnapshot.totalSizeBytes r).

Definition full_Checkpoint (data : Record) : Prop :=
  populated (lookup "id" data) (JStr "") /\
  populated (lookup "agent_id" data) (JStr "") /\
  populated (lookup "config_version" data) (JStr "") /\
  (exists snapshot, lookup "data_snapshot" data = Some (JObj snapshot) /\
                    full_DataSnapshot snapshot) /\
  populated_date (lookup "created_at" data).

Definition readback_Checkpoint (data : Record) (r : Checkpoint.t) : Prop :=
  lookup "id" data = Some (Checkpoint.id r) /\
  lookup "agent_id" data = Some (Checkpoint.agentId r) /\
  lookup "label" data = Checkpoint.label r /\
  lookup "description" data = Checkpoint.description r /\
  lookup "config_version" data = Some (Checkpoint.configVersion r) /\
  (exists snapshot, lookup "data_snapshot" data = Some (JObj snapshot) /\
                    readback_DataSnapshot snapshot (Checkpoint.dataSnapshot r)) /\
  same_instant (lookup "created_at" data) (Checkpoint.createdAt r) /\
  lookup "audit_id" data = Checkpoint.auditId r.

Definition full_RestoreResult (data : Record) : Prop :=
  populated (lookup "restored_from" data) (JStr "") /\
  populated (lookup "config_restored" data) (JBool false) /\
  populated (lookup "data_restored" data) (JBool false) /\
  populated (lookup "data_keys_restored" data) (JNum 0) /\
  populated (lookup "data_keys_removed" data) (JNum 0) /\
  populated (lookup "audit_id" data) (JStr "") /\
  populated_date (lookup "restored_at" data).

Definition readback_RestoreResult (data : Record) (r : RestoreResult.t)
  : Prop :=
  lookup "restored_from" data = Some (RestoreResult.restoredFrom r) /\
  lookup "config_restored" data = Some (RestoreResult.configRestored r) /\
  lookup "config_version" data = RestoreResult.configVersion r /\
  lookup "data_restored" data = Some (RestoreResult.dataRestored r) /\
  lookup "data_keys_restored" data = Some (RestoreResult.dataKeysRestored r) /\
  lookup "data_keys_removed" data = Some (RestoreResult.dataKeysRemoved r) /\
  lookup "audit_id" data = Some (RestoreResult.auditId r) /\
  same_instant (lookup "restored_at" data) (RestoreResult.restoredAt r).

Definition full_AuditEvent (data : Record) : Prop :=
  populated (lookup "id" data) (JStr "") /\
  populated (lookup "agent_id" data) (JStr "") /\
  populated (lookup "operation" data) (JStr "") /\
  populated (lookup "resource" data) (JStr "") /\
  populated (lookup "result" data) (JStr "allowed") /\
  populated_date (lookup "timestamp" data) /\
  populated (lookup "hash" data) (JStr "") /\
  nonempty (lookup "metadata" data).

Definition readback_AuditEvent (data : Record) (r : AuditEvent.t) : Prop :=
  lookup "id" data = Some (AuditEvent.id r) /\
  lookup "agent_id" data = Some (AuditEvent.agentId r) /\
  lookup "operation" data = Some (AuditEvent.operation r) /\
  lookup "resource" data = Some (AuditEvent.resource r) /\
  lookup "result" data = Some (AuditEvent.result r) /\
  lookup "blocked_by" data = AuditEvent.blockedBy r /\
  same_instant (lookup "timestamp" data) (AuditEvent.timestamp r) /\
  lookup "hash" data = Some (AuditEvent.hash r) /\
  lookup "previous_hash" data = AuditEvent.previousHash r /\
  lookup "metadata" data = Some (AuditEvent.metadata r).

Definition full_Verification (data : Record) : Prop :=
  populated (lookup "valid" data) (JBool false) /\
  populated (lookup "events_checked" data) (JNum 0) /\
  populated_date (lookup "verified_at" data).

Definition readback_Verification (data : Record) (r : Verification.t) : Prop :=
  lookup "valid" data = Some (Verification.valid r) /\
  lookup "events_checked" data = Some (Verification.eventsChecked r) /\
  lookup "chain_start" data = Verification.chainStart r /\
  lookup "chain_end" data = Verification.chainEnd r /\
  same_instant (lookup "verified_at" data) (Verification.verifiedAt r) /\
  lookup "first_invalid" data = Verification.firstInvalid r.

Definition full_ExportResult (data : Record) : Prop :=
  populated (lookup "export_id" data) (JStr "") /\
  populated (lookup "format" data) (JStr "json") /\
  populated (lookup "download_url" data) (JStr "") /\
  populated_date (lookup "expires_at" data) /\
  populated (lookup "event_count" data) (JNum 0) /\
  (exists v, lookup "verification" data = Some (JObj v) /\
             full_Verification v).

Definition readback_ExportResult (data : Record) (r : ExportResult.t) : Prop :=
  lookup "export_id" data = Some (ExportResult.exportId r) /\
  lookup "format" data = Some (ExportResult.format r) /\
  lookup "download_url" data = Some (ExportResult.downloadUrl r) /\
  same_instant (lookup "expires_at" data) (ExportResult.expiresAt r) /\
  lookup "event_count" data = Some (ExportResult.eventCount r) /\
  (exists v n, lookup "verification" data = Some (JObj v) /\
               ExportResult.verification r = Some n /\
               readback_Verification v n).

End FullPayloads.

(** ** Sample data

    A runtime fragment that knows the texts used in the examples, and the
    payloads of the SDK's model tests. *)

(** The quotation mark. *)
Definition quote : string := String "034"%char "".

(** An error body whose [message] is an object, with an own [toString]
    property: [{ message: { toString: null } }] in JSON. *)
Definition unprintable_message_text : string :=
  "{" ++ quote ++ "message" ++ quote ++ ":{"
      ++ quote ++ "toString" ++ quote ++ ":null}}".

Definition unprintable_message : json :=
  JObj [("message", JObj [("toString", JNull)])].

Definition sample_JSON_parse (t : string) : option json :=
  if (t =? "{}")%string then Some (JObj [])
  else if (t =? unprintable_message_text)%string then Some unprintable_message
  else if (t =? "[]")%string then Some (JArr [])
  else if (t =? "null")%string then Some JNull
  else if (t =? "true")%string then Some (JBool true)
  else if (t =? "false")%string then Some (JBool false)
  else None.

(** The text of an integer; the examples use no other number. *)
Definition sample_Number_toString (n : Q) : string :=
  string_of_Z (Z.quot (Qnum n) (Zpos (Qden n))).

Definition sample_Date_parse (s : string) : option Z :=
  if (s =? "2024-01-01T00:00:00Z")%string then Some 1704067200000
  else if (s =? "2024-01-15T12:30:00Z")%string then Some 1705321800000
  else if (s =? "2025-01-01T00:00:00Z")%string then Some 1735689600000
  else None.

#[local] Instance sample_runtime : Runtime := {|
  JSON_parse := sample_JSON_parse;
  Date_parse := sample_Date_parse;
  Object_toString := fun _ => "[object Object]";
  Number_toString := sample_Number_toString;
  Date_toISOString := fun _ => "1970-01-01T00:00:00.000Z";
  URL_valid := fun s => String.prefix "http" s
|}.


Definition sample_config : Config :=
  {| apiKey := "anc_test_key";
     baseUrl := None;
     timeout := None;
     retryAttempts := Some 3;
     retryDelay := Some 100 |}.

(** A configuration without an API key, as [normalizeConfig] yields when
    neither the options nor the environment give one. *)
Definition keyless_config : Config :=
  {| apiKey := "";
     baseUrl := Some "https://api.getanchor.dev";
     timeout := Some 30000;
     retryAttempts := Some 3;
     retryDelay := Some 1000 |}.

(** A network on which every call fails to connect. *)
Definition unreachable : Transport :=
  fun _ => FetchRejects {| thrown_name := "TypeError";
                           thrown_message := "fetch failed" |}.

(** A network on which every call times out. *)
Definition stalled : Transport :=
  fun _ => FetchRejects {| thrown_name := "AbortError";
                           thrown_message := "This operation was aborted" |}.

(** A server that gives the same answer to every call. *)
Definition answering (code : Z) (body_text : string) : Transport :=
  fun _ => Responds {| status := code; text := Some body_text |}.

(** The full payloads of the model tests. *)

Definition sample_agent : Record :=
  [("id", JStr "agent_123"); ("name", JStr "test-agent");
   ("status", JStr "active");
   ("metadata", JObj [("env", JStr "test"); ("version", JStr "1.0")]);
   ("config_version", JStr "v5"); ("data_count", JNum 100);
   ("checkpoint_count", JNum 5);
   ("created_at", JStr "2024-01-01T00:00:00Z");
   ("updated_at", JStr "2024-01-15T12:30:00Z")].

Definition sample_config_payload : Record :=
  [("agent_id", JStr "agent_123"); ("version", JStr "v3");
   ("config", JObj [("model", JStr "gpt-4")]);
   ("previous_version", JStr "v2");
   ("created_at", JStr "2024-01-01T00:00:00Z");
   ("created_by", JStr "user_123"); ("audit_id", JStr "audit_abc")].

Definition sample_config_version : Record :=
  [("version", JStr "v3"); ("created_at", JStr "2024-01-01T00:00:00Z");
   ("created_by", JStr "user_123"); ("summary", JStr "Updated policies")].

Definition sample_write_result : Record :=
  [("key", JStr "user:123:email"); ("allowed", JBool false);
   ("audit_id", JStr "audit_456"); ("blocked_by", JStr "pii_filter");
   ("reason", JStr "Email addresses are blocked");
   ("expires_at", JStr "2025-01-01T00:00:00Z");
   ("created_at", JStr "2024-01-01T00:00:00Z")].

Definition sample_data_entry : Record :=
  [("key", JStr "user:123:preference"); ("value", JStr "dark_mode");
   ("metadata", JObj [("source", JStr "api"); ("confidence", JNum 0.95)]);
   ("created_at", JStr "2024-01-01T00:00:00Z");
   ("updated_at", JStr "2024-01-15T12:30:00Z");
   ("expires_at", JStr "2025-01-01T00:00:00Z");
   ("audit_id", JStr "audit_123")].

Definition sample_search_result : Record :=
  [("key", JStr "user:123:lang"); ("value", JStr "spanish");
   ("similarity", JNum 0.95); ("metadata", JObj [("source", JStr "api")])].

Definition sample_data_snapshot : Record :=
  [("key_count", JNum 100); ("total_size_bytes", JNum 10240)].

Definition sample_checkpoint : Record :=
  [("id", JStr "cp_123"); ("agent_id", JStr "agent_123");
   ("label", JStr "pre-migration");
   ("description", JStr "Checkpoint before database migration");
   ("config_version", JStr "v5");
   ("data_snapshot", JObj sample_data_snapshot);
   ("created_at", JStr "2024-01-01T00:00:00Z");
   ("audit_id", JStr "audit_xyz")].

Definition sample_restore_result : Record :=
  [("restored_from", JStr "cp_123"); ("config_restored", JBool true);
   ("config_version", JStr "v5"); ("data_restored", JBool false);
   ("data_keys_restored", JNum 100); ("data_keys_removed", JNum 0);
   ("audit_id", JStr "audit_restore");
   ("restored_at", JStr "2024-01-15T12:30:00Z")].

Definition sample_audit_event : Record :=
  [("id", JStr "audit_123"); ("agent_id", JStr "agent_123");
   ("operation", JStr "data.write"); ("resource", JStr "user:123:preference");
   ("result", JStr "allowed"); ("blocked_by", JNull);
   ("timestamp", JStr "2024-01-01T00:00:00Z");
   ("hash", JStr "abc123def456"); ("previous_hash", JStr "xyz789");
   ("metadata", JObj [("source", JStr "api")])].

Definition sample_verification : Record :=
  [("valid", JBool true); ("events_checked", JNum 1000);
   ("chain_start", JStr "abc123"); ("chain_end", JStr "xyz789");
   ("verified_at", JStr "2024-01-01T00:00:00Z")].

Definition sample_export_result : Record :=
  [("export_id", JStr "exp_123"); ("format", JStr "json");
   ("download_url", JStr "https://api.getanchor.dev/exports/exp_123");
   ("expires_at", JStr "2025-01-01T00:00:00Z");
   ("event_count", JNum 1000);
   ("verification", JObj sample_verification)].

(** A server that is rate limiting on the first call and answers the
    second. *)
Definition throttled_once : Transport :=
  fun attempt =>
    if attempt =? 0
    then Responds {| status := 429; text := Some "" |}
    else Responds {| status := 200; text := Some "{}" |}.

(** ** More vocabulary: how a run ends and what it costs *)

Section Settling.

Context {RT : Runtime}.

(** [response.status || 500]. *)
Definition status_or_500 (r : Response) : Z :=
  if status r =? 0 then 500 else status r.

(** A status on which [request] gives up at once: 4xx other than 429. *)
Definition terminal_status (s : Z) : bool :=
  (s >=? 400) && (s <? 500) && negb (s =? 429).

(** The [TypeError] of a failed conversion, as the outer [catch] sees
    it. *)
Definition conversion_failure : Thrown :=
  {| thrown_name := "TypeError";
     thrown_message := "Cannot convert object to primitive value" |}.

(** The error a call ends with when [error] is thrown in its last
    iteration: the outer [catch] rethrows an API error as it is and turns
    anything else into a [NetworkError]. *)
Definition surfaced (cfg : Config) (error : Error) : Error :=
  match catch_block cfg error with
  | Rethrown e => e
  | Kept e => e
  end.

(** What an iteration's outcome amounts to when nothing comes after it. *)
Definition settle (cfg : Config) (o : Outcome) : Result json :=
  match o with
  | SetupThrows e | FetchRejects e =>
      Throw (network_error (effective_timeout cfg) e)
  | Responds r =>
      if ok r then Return (parseBody (text r))
      else Throw (surfaced cfg
                    (handleError (status_or_500 r) (parseBody (text r))))
  end.

(** Whether the error of a response can be built: its message has a
    primitive conversion. *)
Definition classifiable (r : Response) : bool :=
  convertible (error_message (status_or_500 r) (parseBody (text r))).

(** An outcome after which [request] tries again while it has attempts
    left: any exception, any response that is neither [ok] nor terminal,
    and a terminal response whose error cannot be built. *)
Definition retryable (o : Outcome) : bool :=
  match o with
  | SetupThrows _ | FetchRejects _ => true
  | Responds r =>
      negb (ok r)
      && (negb (terminal_status (status_or_500 r)) || negb (classifiable r))
  end.

End Settling.

(** The time a run spent in backoff sleeps. *)
Fixpoint total_sleep (tr : list Attempt) : Z :=
  match tr with
  | [] => 0
  | a :: rest =>
      match slept a with
      | Some ms => ms + total_sleep rest
      | None => total_sleep rest
      end
  end.

(** The number of [fetchFn] calls of a run. *)
Fixpoint calls (tr : list Attempt) : nat :=
  match tr with
  | [] => O
  | a :: rest =>
      match fetched a with
      | Some _ => S (calls rest)
      | None => calls rest
      end
  end.

(** The sleeps of a call that was retried [k] times. *)
Definition schedule (delay : Z) (k : nat) : list (option Z) :=
  map (fun i => Some (delay * 2 ^ Z.of_nat i)) (seq 0 k).

(** The errors of the SDK's own taxonomy that [request] may end with. *)
Definition typed_outcome (res : Result json) : Prop :=
  match res with
  | Return _ => True
  | Throw e => instanceof_AnchorAPIError e = true \/
               instanceof_NetworkError e = true
  end.

(** [lastError] is only ever unset or a [NetworkError]. *)
Definition network_or_unset (lastError : option Error) : Prop :=
  match lastError with
  | Some e => instanceof_NetworkError e = true
  | None => True
  end.

(** ** config.ts: normalizeConfig *)

(** [AnchorConfig = Partial<Config>]: the options of the [Anchor]
    constructor. *)
Module AnchorConfig.
Record t : Type := {
  apiKey : option string;
  baseUrl : option string;
  region : option string;
  timeout : option Z;
  retryAttempts : option Z;
  retryDelay : option Z;
  batchSize : option Z;
  cachePolicies : option bool;
  verifySsl : option bool;
  logLevel : option string
}.
End AnchorConfig.

(** [Config] in full, as [normalizeConfig] returns it. *)
Module ClientConfig.
Record t : Type := {
  apiKey : string;
  baseUrl : option string;
  region : option string;
  timeout : option Z;
  retryAttempts : option Z;
  retryDelay : option Z;
  batchSize : option Z;
  cachePolicies : option bool;
  verifySsl : option bool;
  logLevel : option string
}.
End ClientConfig.

Definition DEFAULT_CONFIG : AnchorConfig.t :=
  {| AnchorConfig.apiKey := None;
     AnchorConfig.baseUrl := Some "https://api.getanchor.dev";
     AnchorConfig.region := None;
     AnchorConfig.timeout := Some 30000;
     AnchorConfig.retryAttempts := Some 3;
     AnchorConfig.retryDelay := Some 1000;
     AnchorConfig.batchSize := Some 100;
     AnchorConfig.cachePolicies := Some true;
     AnchorConfig.verifySsl := Some true;
     AnchorConfig.logLevel := Some "INFO" |}.

(** [a || b] on strings that may be [undefined], with a result that may
    be. *)
Definition string_or_undefined (a b : option string) : option string :=
  match a with
  | Some s => if (s =? "")%string then b else Some s
  | None => b
  end.

(** [a ?? b]. *)
Definition nullish {A : Type} (a b : option A) : option A :=
  match a with
  | Some x => Some x
  | None => b
  end.

(** [s.replace(/\/$/, '')]: without one slash at the very end. *)
Fixpoint strip_trailing_slash (s : string) : string :=
  match s with
  | EmptyString => EmptyString
  | String c rest =>
      match rest with
      | EmptyString => if (c =? "/")%char then EmptyString else s
      | String _ _ => String c (strip_trailing_slash rest)
      end
  end.

(** [haystack.includes(needle)]. *)
Fixpoint includes (needle haystack : string) : bool :=
  String.prefix needle haystack ||
  match haystack with
  | EmptyString => false
  | String _ rest => includes needle rest
  end.

(** [normalizeConfig(config)], [env_api_key] being
    [process.env.ANCHOR_API_KEY]. *)
Definition normalizeConfig (env_api_key : option string)
  (config : AnchorConfig.t) : ClientConfig.t :=
  let apiKey := string_or (AnchorConfig.apiKey config)
                  (string_or env_api_key "") in
  let baseUrl :=
    string_or (AnchorConfig.baseUrl config)
      (string_or (AnchorConfig.baseUrl DEFAULT_CONFIG)
         "https://api.getanchor.dev") in
  let region :=
    string_or_undefined (AnchorConfig.region config)
      (AnchorConfig.region DEFAULT_CONFIG) in
  (* [if (normalized.baseUrl)]: normalize the base URL *)
  let baseUrl :=
    if negb (baseUrl =? "")%string then strip_trailing_slash baseUrl
    else baseUrl in
  (* regional endpoints *)
  let baseUrl :=
    match region with
    | Some r =>
        if negb (r =? "")%string && includes "api.getanchor.dev" baseUrl
        then "https://" ++ r ++ ".api.getanchor.dev"
        else baseUrl
    | None => baseUrl
    end in
  {| ClientConfig.apiKey := apiKey;
     ClientConfig.baseUrl := Some baseUrl;
     ClientConfig.region := region;
     ClientConfig.timeout :=
       nullish (AnchorConfig.timeout config)
               (AnchorConfig.timeout DEFAULT_CONFIG);
     ClientConfig.retryAttempts :=
       nullish (AnchorConfig.retryAttempts config)
               (AnchorConfig.retryAttempts DEFAULT_CONFIG);
     ClientConfig.retryDelay :=
       nullish (AnchorConfig.retryDelay config)
               (AnchorConfig.retryDelay DEFAULT_CONFIG);
     ClientConfig.batchSize :=
       nullish (AnchorConfig.batchSize config)
               (AnchorConfig.batchSize DEFAULT_CONFIG);
     ClientConfig.cachePolicies :=
       nullish (AnchorConfig.cachePolicies config)
               (AnchorConfig.cachePolicies DEFAULT_CONFIG);
     ClientConfig.verifySsl :=
       nullish (AnchorConfig.verifySsl config)
               (AnchorConfig.verifySsl DEFAULT_CONFIG);
     ClientConfig.logLevel :=
       string_or_undefined (AnchorConfig.logLevel config)
         (AnchorConfig.logLevel DEFAULT_CONFIG) |}.

(** ** anchor.ts: the [Anchor] constructor

    [new HttpClient(normalizeConfig(options || {}))]: what the pipeline
    reads of the normalized configuration. *)

Definition no_options : AnchorConfig.t :=
  {| AnchorConfig.apiKey := None; AnchorConfig.baseUrl := None;
     AnchorConfig.region := None; AnchorConfig.timeout := None;
     AnchorConfig.retryAttempts := None; AnchorConfig.retryDelay := None;
     AnchorConfig.batchSize := None; AnchorConfig.cachePolicies := None;
     AnchorConfig.verifySsl := None; AnchorConfig.logLevel := None |}.

Definition http_config (c : ClientConfig.t) : Config :=
  {| apiKey := ClientConfig.apiKey c;
     baseUrl := ClientConfig.baseUrl c;
     timeout := ClientConfig.timeout c;
     retryAttempts := ClientConfig.retryAttempts c;
     retryDelay := ClientConfig.retryDelay c |}.

Definition Anchor_config (env_api_key : option string)
  (options : option AnchorConfig.t) : Config :=
  http_config (normalizeConfig env_api_key
                 (match options with
                  | Some o => o
                  | None => no_options
                  end)).

(** An optional string that is missing or empty, hence falsy. *)
Definition unset (o : option string) : Prop := o = None \/ o = Some "".

(** A field with a default holds a truthy value or that default. *)
Definition settled (v zero : json) : Prop := truthy v = true \/ v = zero.

(** ** integrations/mem0.ts: AnchorMem0

    The wrapper checks a write against Anchor's policies before it hands
    the data to the Mem0 client.  The Mem0 client is a parameter (what each
    of its methods answers), [Date.now()] is [now], and a run is the list
    of calls made to the Mem0 client together with the result. *)

(** An object literal, whose properties may be [undefined]. *)
Definition Literal := list (string * option json).

(** Setting a property: in place when the object has it, at the end
    otherwise. *)
Fixpoint assign (k : string) (v : option json) (o : Literal) : Literal :=
  match o with
  | [] => [(k, v)]
  | (k', v') :: rest =>
      if (k =? k')%string then (k', v) :: rest
      else (k', v') :: assign k v rest
  end.

(** [{ ...o, ...source }] for a source that may be [undefined]. *)
Definition spread (o : Literal) (source : option Record) : Literal :=
  match source with
  | Some fields =>
      fold_left (fun acc kv => assign (fst kv) (Some (snd kv)) acc) fields o
  | None => o
  end.

(** What [JSON.stringify] keeps of an object literal: the properties that
    are not [undefined]. *)
Definition stringified (o : Literal) : Record :=
  flat_map (fun kv : string * option json =>
              match snd kv with
              | Some v => [(fst kv, v)]
              | None => []
              end) o.

(** [options?.x]. *)
Definition optional {A B : Type} (x : A -> option B) (options : option A)
  : option B :=
  match options with
  | Some o => x o
  | None => None
  end.

Module PolicyResult.
Record t : Type := {
  allowed : bool;
  blockedBy : option json;
  reason : option json;
  mem0Result : option json;
  expiresAt : option Date
}.
End PolicyResult.

(** The options of [add]. *)
Module AddOptions.
Record t : Type := {
  userId : option string;
  agentId : option string;
  runId : option string;
  metadata : option Record
}.
End AddOptions.

(** The options of [search]. *)
Module SearchOptions.
Record t : Type := {
  userId : option string;
  agentId : option string;
  runId : option string;
  limit : option Q
}.
End SearchOptions.

(** The methods of the Mem0 client the wrapper guards. *)
Record Mem0Client : Type := {
  mem0_add : string -> option AddOptions.t -> Result json;
  mem0_search : string -> option SearchOptions.t -> Result json;
  mem0_update : string -> string -> option Record -> Result json
}.

(** A call made to the Mem0 client. *)
Inductive Mem0Call : Type :=
| Mem0Add (data : string) (options : option AddOptions.t)
| Mem0Search (query : string) (options : option SearchOptions.t)
| Mem0Update (memoryId data : string) (options : option Record).

Section Mem0.

Context {RT : Runtime}.
Variable http : HttpClient.
Variable agentId : string.
Variable mem0 : Mem0Client.

(** The metadata [add] writes with the policy check. *)
Definition add_metadata (options : option AddOptions.t) : Record :=
  stringified
    (spread
       [("operation", Some (JStr "mem0.add"));
        ("user_id", option_map JStr (optional AddOptions.userId options));
        ("agent_id", option_map JStr (optional AddOptions.agentId options));
        ("run_id", option_map JStr (optional AddOptions.runId options))]
       (optional AddOptions.metadata options)).

Definition AnchorMem0_add (now : Z) (data : string)
  (options : option AddOptions.t) : list Mem0Call * Result PolicyResult.t :=
  match DataNamespace_write http agentId ("mem0:add:" ++ string_of_Z now)
          data (Some (add_metadata options)) with
  | Throw e => ([], Throw e)
  | Return policyCheck =>
      if negb (WriteResult.allowed policyCheck) then
        ([], Return {| PolicyResult.allowed := false;
                       PolicyResult.blockedBy :=
                         WriteResult.blockedBy policyCheck;
                       PolicyResult.reason := WriteResult.reason policyCheck;
                       PolicyResult.mem0Result := None;
                       PolicyResult.expiresAt := None |})
      else
        ([Mem0Add data options],
         let* mem0Result := mem0_add mem0 data options in
         Return {| PolicyResult.allowed := true;
                   PolicyResult.blockedBy := None;
                   PolicyResult.reason := None;
                   PolicyResult.mem0Result := Some mem0Result;
                   PolicyResult.expiresAt :=
                     WriteResult.expiresAt policyCheck |})
  end.

(** The metadata [search] writes to the audit trail. *)
Definition search_metadata (options : option SearchOptions.t) : Record :=
  stringified
    [("operation", Some (JStr "mem0.search"));
     ("user_id", option_map JStr (optional SearchOptions.userId options));
     ("limit", option_map JNum (optional SearchOptions.limit options))].

Definition AnchorMem0_search (now : Z) (query : string)
  (options : option SearchOptions.t) : list Mem0Call * Result json :=
  match DataNamespace_write http agentId ("mem0:search:" ++ string_of_Z now)
          query (Some (search_metadata options)) with
  | Throw e => ([], Throw e)
  | Return _ => ([Mem0Search query options], mem0_search mem0 query options)
  end.

(** The metadata [update] writes with the policy check. *)
Definition update_metadata (memoryId : string) (options : option Record)
  : Record :=
  stringified
    (spread [("operation", Some (JStr "mem0.update"));
             ("memory_id", Some (JStr memoryId))]
            options).

Definition AnchorMem0_update (now : Z) (memoryId data : string)
  (options : option Record) : list Mem0Call * Result PolicyResult.t :=
  match DataNamespace_write http agentId
          ("mem0:update:" ++ memoryId ++ ":" ++ string_of_Z now)
          data (Some (update_metadata memoryId options)) with
  | Throw e => ([], Throw e)
  | Return policyCheck =>
      if negb (WriteResult.allowed policyCheck) then
        ([], Return {| PolicyResult.allowed := false;
                       PolicyResult.blockedBy :=
                         WriteResult.blockedBy policyCheck;
                       PolicyResult.reason := WriteResult.reason policyCheck;
                       PolicyResult.mem0Result := None;
                       PolicyResult.expiresAt := None |})
      else
        ([Mem0Update memoryId data options],
         let* mem0Result := mem0_update mem0 memoryId data options in
         Return {| PolicyResult.allowed := true;
                   PolicyResult.blockedBy := None;
                   PolicyResult.reason := None;
                   PolicyResult.mem0Result := Some mem0Result;
                   PolicyResult.expiresAt := None |})
  end.

End Mem0.

(** A Mem0 client that stores nothing and answers with the data. *)
Definition echo_mem0 : Mem0Client :=
  {| mem0_add := fun data _ => Return (JStr data);
     mem0_search := fun query _ => Return (JArr [JStr query]);
     mem0_update := fun _ data _ => Return (JStr data) |}.

(** A pipeline that throws the same error whatever it is asked, and one
    that returns the same body. *)
Definition failing (e : Error) : HttpClient := fun _ _ _ _ => Throw e.
Definition replying (response : json) : HttpClient :=
  fun _ _ _ _ => Return response.

(** A server that blocks every write as the PII filter would. *)
Definition blocking : HttpClient :=
  fun _ _ _ _ => Return (JObj sample_write_result).

(** Reading a property of an object literal. *)
Fixpoint get (k : string) (o : Literal) : option (option json) :=
  match o with
  | [] => None
  | (k', v) :: rest => if (k =? k')%string then Some v else get k rest
  end.
(** * Properties *)

(** ** Error classifier *)

Lemma construct_convertible (e : Error) (m : json) :
  message_argument e = Some m -> convertible m = true -> construct e = e.
Proof. unfold construct. intros -> ->. reflexivity. Qed.

Lemma construct_unconvertible (e : Error) (m : json) :
  message_argument e = Some m -> convertible m = false ->
  construct e = TypeError_primitive.
Proof. unfold construct. intros -> ->. reflexivity. Qed.

(** Without a primitive conversion of the message no error class can be
    built: the constructor's [TypeError] is what [handleError] throws. *)
Lemma handleError_unconvertible (statusCode : Z) (data : json) :
  convertible (error_message statusCode data) = false ->
  handleError statusCode data = TypeError_primitive.
Proof.
  intros H. unfold handleError.
  repeat match goal with
         | |- context [if ?c then _ else _] => destruct c
         end;
    (unfold construct; cbn [message_argument]; rewrite H; reflexivity).
Qed.

Lemma handleError_policy (statusCode : Z) (data : json) :
  convertible (error_message statusCode data) = true ->
  policy_indicator data = true ->
  handleError statusCode data =
  PolicyViolationError (error_message statusCode data)
    (or_else (js_or (prop data "blocked_by") (prop data "policy_name"))
             (JStr "unknown"))
    statusCode data.
Proof.
  unfold handleError, policy_indicator. intros Hc ->.
  (unfold construct; cbn [message_argument]; rewrite Hc; reflexivity).
Qed.

Lemma handleError_by_status (statusCode : Z) (data : json) :
  convertible (error_message statusCode data) = true ->
  policy_indicator data = false ->
  handleError statusCode data =
  let message := error_message statusCode data in
  if statusCode =? 400 then
    ValidationError message statusCode data (prop data "field")
  else if statusCode =? 401 then AuthenticationError message statusCode data
  else if statusCode =? 403 then
    AuthorizationError message statusCode data (prop data "required_permission")
  else if statusCode =? 404 then NotFoundError message statusCode data
  else if statusCode =? 429 then
    RateLimitError message statusCode data (prop data "retry_after")
  else if statusCode >=? 500 then ServerError message statusCode data
  else AnchorAPIError message statusCode data.
Proof.
  unfold handleError, policy_indicator. intros Hc ->. cbv zeta.
  repeat match goal with
         | |- context [if ?c then _ else _] => destruct c
         end;
    (unfold construct; cbn [message_argument]; rewrite Hc; reflexivity).
Qed.

(** When it can be built, a classified error is an API error that carries
    the status code and the body it was built from. *)
Lemma handleError_carries (statusCode : Z) (data : json) :
  convertible (error_message statusCode data) = true ->
  instanceof_AnchorAPIError (handleError statusCode data) = true /\
  statusCode_of (handleError statusCode data) = Some statusCode /\
  response_of (handleError statusCode data)
  = Some (or_else (Some data) empty_object) /\
  message_argument (handleError statusCode data)
  = Some (error_message statusCode data).
Proof.
  intros Hc. unfold handleError.
  repeat match goal with
         | |- context [if ?c then _ else _] => destruct c
         end;
    unfold construct; cbn [message_argument]; rewrite Hc;
    (split; [reflexivity|split; [reflexivity|split; reflexivity]]).
Qed.

(** C1, as stated, fails: a 400 body that contains a [blocked_by] field
    whose value is [null] is classified as Validation. *)
Lemma policy_field_present_but_null :
  let data := JObj [("error", JStr "invalid key"); ("blocked_by", JNull)] in
  prop data "blocked_by" = Some JNull /\
  handleError 400 data = ValidationError (JStr "invalid key") 400 data None.
Proof.
  split; reflexivity.
Qed.

(** C1 (amended): for a body whose message converts to a string,
    classification is this mapping.  When the body has a truthy
    [blocked_by] field the result is PolicyViolation carrying it, and when
    it has none but a truthy [policy_name] the result is PolicyViolation
    carrying that, whatever the status.  When neither field is truthy, 400
    gives Validation (with the body's [field]), 401 Authentication, 403
    Authorization (with [required_permission]), 404 NotFound, 429
    RateLimit (with [retry_after]), a status of 500 or more Server, and
    any other status the generic API error. *)
Theorem classification (statusCode : Z) (data : json) :
  let message := error_message statusCode data in
  convertible message = true ->
  (forall p, prop data "blocked_by" = Some p -> truthy p = true ->
     handleError statusCode data =
     PolicyViolationError message p statusCode data) /\
  (forall p, truthy_opt (prop data "blocked_by") = false ->
     prop data "policy_name" = Some p -> truthy p = true ->
     handleError statusCode data =
     PolicyViolationError message p statusCode data) /\
  (policy_indicator data = false ->
     (statusCode = 400 ->
        handleError statusCode data =
        ValidationError message 400 data (prop data "field")) /\
     (statusCode = 401 ->
        handleError statusCode data = AuthenticationError message 401 data) /\
     (statusCode = 403 ->
        handleError statusCode data =
        AuthorizationError message 403 data
          (prop data "required_permission")) /\
     (statusCode = 404 ->
        handleError statusCode data = NotFoundError message 404 data) /\
     (statusCode = 429 ->
        handleError statusCode data =
        RateLimitError message 429 data (prop data "retry_after")) /\
     (500 <= statusCode ->
        handleError statusCode data = ServerError message statusCode data) /\
     (statusCode < 500 -> statusCode <> 400 -> statusCode <> 401 ->
        statusCode <> 403 -> statusCode <> 404 -> statusCode <> 429 ->
        handleError statusCode data = AnchorAPIError message statusCode data)).
Proof.
  intros message Hc. repeat split.
  - intros p Hp Ht. rewrite handleError_policy.
    + unfold js_or. rewrite Hp. simpl. rewrite Ht. simpl. rewrite Ht.
      reflexivity.
    + exact Hc.
    + unfold policy_indicator. rewrite Hp. simpl. rewrite Ht. reflexivity.
  - intros p Hb Hp Ht. rewrite handleError_policy.
    + unfold js_or. rewrite Hb, Hp. simpl. rewrite Ht. reflexivity.
    + exact Hc.
    + unfold policy_indicator. rewrite Hb, Hp. simpl. exact Ht.
  - intros ->. rewrite (handleError_by_status _ _ Hc H). reflexivity.
  - intros ->. rewrite (handleError_by_status _ _ Hc H). reflexivity.
  - intros ->. rewrite (handleError_by_status _ _ Hc H). reflexivity.
  - intros ->. rewrite (handleError_by_status _ _ Hc H). reflexivity.
  - intros ->. rewrite (handleError_by_status _ _ Hc H). reflexivity.
  - intros Hs. rewrite (handleError_by_status _ _ Hc H). cbv zeta.
    destruct (statusCode =? 400) eqn:E1; [lia|].
    destruct (statusCode =? 401) eqn:E2; [lia|].
    destruct (statusCode =? 403) eqn:E3; [lia|].
    destruct (statusCode =? 404) eqn:E4; [lia|].
    destruct (statusCode =? 429) eqn:E5; [lia|].
    destruct (statusCode >=? 500) eqn:E6; [reflexivity|lia].
  - intros Hs H0 H1 H3 H4 H9. rewrite (handleError_by_status _ _ Hc H). cbv zeta.
    destruct (statusCode =? 400) eqn:E1; [lia|].
    destruct (statusCode =? 401) eqn:E2; [lia|].
    destruct (statusCode =? 403) eqn:E3; [lia|].
    destruct (statusCode =? 404) eqn:E4; [lia|].
    destruct (statusCode =? 429) eqn:E5; [lia|].
    destruct (statusCode >=? 500) eqn:E6; [lia|reflexivity].
Qed.

Lemma classification_witness :
  let blocked := JObj [("blocked_by", JStr "pii_filter")] in
  let named := JObj [("policy_name", JStr "retention")] in
  let plain := JObj [("error", JStr "no such agent")] in
  handleError 400 blocked =
    PolicyViolationError (JStr "HTTP 400") (JStr "pii_filter") 400 blocked /\
  handleError 503 named =
    PolicyViolationError (JStr "HTTP 503") (JStr "retention") 503 named /\
  handleError 404 plain = NotFoundError (JStr "no such agent") 404 plain /\
  handleError 502 plain = ServerError (JStr "no such agent") 502 plain /\
  handleError 418 plain = AnchorAPIError (JStr "no such agent") 418 plain.
Proof.
  intros blocked named plain.
  refine (conj _ (conj _ (conj _ (conj _ _)))).
  - apply (proj1 (classification 400 blocked eq_refl) (JStr "pii_filter"));
      reflexivity.
  - apply (proj1 (proj2 (classification 503 named eq_refl))
             (JStr "retention")); reflexivity.
  - apply (proj2 (proj2 (classification 404 plain eq_refl)) eq_refl);
      reflexivity.
  - apply (proj2 (proj2 (classification 502 plain eq_refl)) eq_refl); lia.
  - apply (proj2 (proj2 (classification 418 plain eq_refl)) eq_refl); lia.
Defined.

(** ** Request pipeline *)

Section PipelineProperties.

Context {RT : Runtime}.
Variable transport : Transport.
Variable cfg : Config.
Variable call : FetchCall.

Let R := effective_retryAttempts cfg.
Let D := effective_retryDelay cfg.

Lemma trace_after (a : Attempt) (r : Run) : trace (after a r) = a :: trace r.
Proof. reflexivity. Qed.

Lemma outcome_after (a : Attempt) (r : Run) : outcome (after a r) = outcome r.
Proof. reflexivity. Qed.


(** An error the classifier could build is an API error, which the outer
    catch rethrows. *)
Lemma catch_block_handleError (statusCode : Z) (data : json) :
  convertible (error_message statusCode data) = true ->
  catch_block cfg (handleError statusCode data)
  = Rethrown (handleError statusCode data).
Proof.
  intros Hc. destruct (handleError_carries _ _ Hc) as (Hi & _).
  destruct (handleError statusCode data); try discriminate; reflexivity.
Qed.

(** The [TypeError] of an error that could not be built is kept as a
    [NetworkError], like any exception of the platform. *)
Lemma catch_block_unconvertible (statusCode : Z) (data : json) :
  convertible (error_message statusCode data) = false ->
  catch_block cfg (handleError statusCode data)
  = Kept (network_error (effective_timeout cfg) conversion_failure).
Proof.
  intros Hc. rewrite (handleError_unconvertible _ _ Hc). reflexivity.
Qed.

(** The outer catch rethrows exactly the API errors, and what it keeps is
    a [NetworkError]. *)
Lemma catch_block_spec (error : Error) :
  (instanceof_AnchorAPIError error = true /\
   catch_block cfg error = Rethrown error) \/
  (instanceof_AnchorAPIError error = false /\
   exists kept, catch_block cfg error = Kept kept /\
                instanceof_NetworkError kept = true).
Proof.
  destruct error; try (left; split; reflexivity); right; (split; [reflexivity|]).
  - eexists. split; reflexivity.
  - cbn [catch_block]. unfold network_error.
    destruct (_ =? "AbortError")%string; eexists; split; reflexivity.
Qed.

(** One iteration either ends the run, or sleeps [backoff D attempt] and
    goes on, or (on the last iteration only) falls out of the loop.  The
    request it issues, if any, is [call]. *)
Lemma attempts_step (n : nat) (attempt : Z) (lastError : option Error) :
  (exists a res,
      attempts transport cfg call (S n) attempt lastError = ending a res /\
      slept a = None /\ fetched a = Some call) \/
  (exists f lastError',
      attempt < R /\ (f = None \/ f = Some call) /\
      attempts transport cfg call (S n) attempt lastError =
      after {| fetched := f; slept := Some (backoff D attempt) |}
            (attempts transport cfg call n (attempt + 1) lastError')) \/
  (exists f lastError',
      R <= attempt /\ (f = None \/ f = Some call) /\
      attempts transport cfg call (S n) attempt lastError =
      after {| fetched := f; slept := None |}
            (attempts transport cfg call n (attempt + 1) lastError')).
Proof.
  cbn [attempts]. unfold try_block. fold R. fold D.
  destruct (transport attempt) as [e|e|r].
  - cbn [catch_block]. destruct (attempt <? R) eqn:E.
    + right; left. do 2 eexists. repeat split; [lia|left; reflexivity].
    + right; right. do 2 eexists. repeat split; [lia|left; reflexivity].
  - destruct (attempt <? R) eqn:E.
    + right; left. do 2 eexists. repeat split; [lia|right; reflexivity].
    + unfold network_error.
      destruct (thrown_name e =? "AbortError")%string; cbn [catch_block];
        right; right; do 2 eexists;
        (repeat split; [lia|right; reflexivity]).
  - destruct (ok r).
    + left. do 2 eexists. repeat split.
    + set (s := if status r =? 0 then 500 else status r).
      destruct (convertible (error_message s (parseBody (text r)))) eqn:Hc.
      * match goal with |- context [if ?c then (_, Threw _ _) else _] =>
          destruct c end.
        -- rewrite (catch_block_handleError _ _ Hc). left.
           do 2 eexists. repeat split.
        -- destruct (attempt <? R) eqn:E.
           ++ right; left. do 2 eexists.
              repeat split; [lia|right; reflexivity].
           ++ rewrite (catch_block_handleError _ _ Hc). left.
              do 2 eexists. repeat split.
      * match goal with |- context [if ?c then (_, Threw _ _) else _] =>
          destruct c end.
        -- rewrite (catch_block_unconvertible _ _ Hc).
           destruct (attempt <? R) eqn:E.
           ++ right; left. do 2 eexists.
              repeat split; [lia|right; reflexivity].
           ++ right; right. do 2 eexists.
              repeat split; [lia|right; reflexivity].
        -- destruct (attempt <? R) eqn:E.
           ++ right; left. do 2 eexists.
              repeat split; [lia|right; reflexivity].
           ++ rewrite (catch_block_unconvertible _ _ Hc).
              right; right. do 2 eexists.
              repeat split; [lia|right; reflexivity].
Qed.



(** Every request of a run is the same [call]. *)
Lemma attempts_same_call (n : nat) :
  forall (attempt : Z) (lastError : option Error) (a : Attempt) (c : FetchCall),
    In a (trace (attempts transport cfg call n attempt lastError)) ->
    fetched a = Some c -> c = call.
Proof.
  induction n as [|n IH]; intros attempt lastError a c Hin Hf.
  - destruct Hin.
  - destruct (attempts_step n attempt lastError)
      as [(a0 & res & Heq & _ & Hc)
         |[(f & le & _ & Hc & Heq)|(f & le & _ & Hc & Heq)]];
      rewrite Heq in Hin.
    + destruct Hin as [<-|[]]. congruence.
    + destruct Hin as [<-|Hin]; [|exact (IH _ _ _ _ Hin Hf)].
      cbn in Hf. destruct Hc; congruence.
    + destruct Hin as [<-|Hin]; [|exact (IH _ _ _ _ Hin Hf)].
      cbn in Hf. destruct Hc; congruence.
Qed.


(** A 4xx response other than 429 whose error can be built ends the run
    with its classification. *)
Lemma attempts_client_error (n : nat) (attempt : Z)
  (lastError : option Error) (r : Response) :
  transport attempt = Responds r ->
  400 <= status r < 500 ->
  status r <> 429 ->
  convertible (error_message (status r) (parseBody (text r))) = true ->
  attempts transport cfg call (S n) attempt lastError =
  ending {| fetched := Some call; slept := None |}
         (Throw (handleError (status r) (parseBody (text r)))).
Proof.
  intros Ht Hs H429 Hm. cbn [attempts]. unfold try_block. rewrite Ht.
  assert (Hok : ok r = false).
  { unfold ok. apply andb_false_iff. right. lia. }
  rewrite Hok.
  assert (H0 : (status r =? 0) = false) by lia. rewrite H0.
  assert (Hc : (status r >=? 400) && (status r <? 500)
               && negb (status r =? 429) = true).
  { rewrite !andb_true_iff, negb_true_iff. lia. }
  rewrite Hc, (catch_block_handleError _ _ Hm). reflexivity.
Qed.

(** Wherever in a run such a response arrives, the run ends there with
    its classification, without a sleep. *)
Lemma client_error_ends_run (n : nat) :
  forall (attempt : Z) (lastError : option Error) (k : nat) (a : Attempt)
         (r : Response),
    nth_error (trace (attempts transport cfg call n attempt lastError)) k
      = Some a ->
    transport (attempt + Z.of_nat k) = Responds r ->
    400 <= status r < 500 ->
    status r <> 429 ->
    convertible (error_message (status r) (parseBody (text r))) = true ->
    length (trace (attempts transport cfg call n attempt lastError)) = S k /\
    a = {| fetched := Some call; slept := None |} /\
    outcome (attempts transport cfg call n attempt lastError) =
      Throw (handleError (status r) (parseBody (text r))).
Proof.
  induction n as [|n IH]; intros attempt lastError k a r Hn Ht Hs H429 Hm.
  - destruct k; discriminate.
  - destruct k as [|k].
    + replace (attempt + Z.of_nat 0) with attempt in Ht by lia.
      rewrite (attempts_client_error n attempt lastError r Ht Hs H429 Hm) in *.
      cbn in Hn. injection Hn as <-. repeat split.
    + destruct (attempts_step n attempt lastError)
        as [(a0 & res & Heq & _ & _)
           |[(f & le & _ & _ & Heq)|(f & le & _ & _ & Heq)]];
        rewrite Heq in *.
      * destruct k; discriminate.
      * rewrite trace_after, outcome_after in *. cbn [nth_error length] in *.
        replace (attempt + Z.of_nat (S k)) with (attempt + 1 + Z.of_nat k)
          in Ht by lia.
        destruct (IH _ _ _ _ _ Hn Ht Hs H429 Hm) as (Hl & Ha & Ho).
        rewrite Hl. repeat split; assumption.
      * rewrite trace_after, outcome_after in *. cbn [nth_error length] in *.
        replace (attempt + Z.of_nat (S k)) with (attempt + 1 + Z.of_nat k)
          in Ht by lia.
        destruct (IH _ _ _ _ _ Hn Ht Hs H429 Hm) as (Hl & Ha & Ho).
        rewrite Hl. repeat split; assumption.
Qed.

(** An iteration whose call is rejected. *)
Lemma attempts_rejected (n : nat) (attempt : Z) (lastError : option Error)
  (e : Thrown) :
  transport attempt = FetchRejects e ->
  attempts transport cfg call (S n) attempt lastError =
  after {| fetched := Some call;
           slept := if attempt <? R then Some (backoff D attempt) else None |}
        (attempts transport cfg call n (attempt + 1)
           (Some (network_error (effective_timeout cfg) e))).
Proof.
  intros Ht. cbn [attempts]. unfold try_block. rewrite Ht. fold R.
  destruct (attempt <? R) eqn:E; [reflexivity|].
  unfold network_error.
  destruct (thrown_name e =? "AbortError")%string; reflexivity.
Qed.

(** When the network rejects every call, the loop runs to its end and the
    last rejection is what is thrown. *)
Lemma attempts_all_rejected (n : nat) :
  forall (attempt : Z) (lastError : option Error),
    Z.of_nat (S n) + attempt = R + 1 ->
    (forall k, attempt <= k <= R -> exists e, transport k = FetchRejects e) ->
    length (trace (attempts transport cfg call (S n) attempt lastError))
      = S n /\
    Forall (fun a => fetched a = Some call)
      (trace (attempts transport cfg call (S n) attempt lastError)) /\
    exists e,
      transport R = FetchRejects e /\
      outcome (attempts transport cfg call (S n) attempt lastError) =
        Throw (network_error (effective_timeout cfg) e).
Proof.
  induction n as [|n IH]; intros attempt lastError Hfuel Hall.
  - assert (attempt = R) by lia. subst attempt.
    destruct (Hall R ltac:(lia)) as [e He].
    rewrite (attempts_rejected _ _ _ _ He).
    split; [reflexivity|split].
    + repeat constructor.
    + exists e. split; [exact He|reflexivity].
  - destruct (Hall attempt ltac:(lia)) as [e He].
    rewrite (attempts_rejected _ _ _ _ He).
    destruct (IH (attempt + 1)
                (Some (network_error (effective_timeout cfg) e))
                ltac:(lia) ltac:(intros; apply Hall; lia))
      as (Hl & Hf & e' & He' & Ho).
    rewrite trace_after, outcome_after. split; [|split].
    + cbn [length]. rewrite Hl. reflexivity.
    + constructor; [reflexivity|exact Hf].
    + exists e'. split; assumption.
Qed.

End PipelineProperties.

(** A 429 followed by a 200: two calls, one sleep of the base delay, and
    the second answer returned. *)
Example rate_limited_then_ok :
  let run := request throttled_once sample_config "GET" "/agents" None None in
  map slept (trace run) = [Some 100; None] /\
  outcome run = Return empty_object.
Proof. split; reflexivity. Qed.

(** A server that keeps failing uses the whole budget and the last answer
    is classified. *)
Example server_error_exhausts_budget :
  let run := request (answering 503 "") sample_config "GET" "/agents"
               None None in
  map slept (trace run) = [Some 100; Some 200; Some 400; None] /\
  outcome run = Throw (ServerError (JStr "HTTP 503") 503 empty_object).
Proof. split; reflexivity. Qed.

(** A timeout on every call is reported as such. *)
Example timeouts_exhaust_budget :
  outcome (request stalled sample_config "GET" "/agents" None None)
  = Throw (NetworkError "Request timeout after 30000ms").
Proof. reflexivity. Qed.

(** With a negative retry count the loop body never runs. *)
Example negative_budget_makes_no_call :
  request (answering 200 "{}")
          {| apiKey := "anc_test_key"; baseUrl := None; timeout := None;
             retryAttempts := Some (-1); retryDelay := None |}
          "GET" "/agents" None None
  = ([], Throw (NetworkError "Request failed after retries")).
Proof. reflexivity. Qed.

(** What [request] does once the URL and the query are built. *)
Lemma request_attempts {RT : Runtime} (transport : Transport) (cfg : Config)
  (meth endpoint : string) (data : option Record) (params : option Params)
  (query : list (string * string)) :
  URL_valid (effective_baseUrl cfg ++ endpoint) = true ->
  query_of params = Return query ->
  request transport cfg meth endpoint data params
  = attempts transport cfg (fetch_call cfg meth endpoint data query)
      (Z.to_nat (effective_retryAttempts cfg + 1)) 0 None.
Proof. intros HU HQ. unfold request. rewrite HU, HQ. reflexivity. Qed.

(** Without them it makes no attempt, or it is the loop. *)
Lemma request_cases {RT : Runtime} (transport : Transport) (cfg : Config)
  (meth endpoint : string) (data : option Record) (params : option Params) :
  (exists e, request transport cfg meth endpoint data params = ([], Throw e)) \/
  (exists query,
      URL_valid (effective_baseUrl cfg ++ endpoint) = true /\
      query_of params = Return query /\
      request transport cfg meth endpoint data params
      = attempts transport cfg (fetch_call cfg meth endpoint data query)
          (Z.to_nat (effective_retryAttempts cfg + 1)) 0 None).
Proof.
  unfold request. destruct (URL_valid _); [|left; eexists; reflexivity].
  destruct (query_of params) as [query|e]; [|left; eexists; reflexivity].
  right. exists query. repeat split.
Qed.



(** C3 fails on the code: a 400 whose body gives the error a message
    without a primitive conversion is not thrown classified.  The
    constructor of the error throws a [TypeError] inside the [try], the
    outer [catch] takes it for a failure of the network, and the call is
    retried until the budget is spent: four calls, three sleeps and a
    [NetworkError]. *)
Theorem unprintable_client_error_is_retried :
  let run := request (answering 400 unprintable_message_text) sample_config
               "GET" "/agents" None None in
  parseBody (Some unprintable_message_text) = unprintable_message /\
  handleError 400 unprintable_message = TypeError_primitive /\
  map slept (trace run) = [Some 100; Some 200; Some 400; None] /\
  calls (trace run) = 4%nat /\
  outcome run
  = Throw (NetworkError
             "Request failed: Cannot convert object to primitive value").
Proof.
  repeat split; reflexivity.
Qed.

(** C4: when every call fails at the transport level, the pipeline makes
    exactly [1 + retryAttempts] calls and then throws the [NetworkError]
    built from the last failure. *)
Theorem transport_failures_exhaust_budget {RT : Runtime}
  (transport : Transport) (cfg : Config) (meth endpoint : string)
  (data : option Record) (params : option Params)
  (query : list (string * string)) :
  let run := request transport cfg meth endpoint data params in
  URL_valid (effective_baseUrl cfg ++ endpoint) = true ->
  query_of params = Return query ->
  0 <= effective_retryAttempts cfg ->
  (forall k, 0 <= k <= effective_retryAttempts cfg ->
             exists e, transport k = FetchRejects e) ->
  Z.of_nat (length (trace run)) = 1 + effective_retryAttempts cfg /\
  Forall (fun a => fetched a = Some (fetch_call cfg meth endpoint data query))
         (trace run) /\
  exists e,
    transport (effective_retryAttempts cfg) = FetchRejects e /\
    outcome run = Throw (network_error (effective_timeout cfg) e) /\
    outcome run =
      Throw (NetworkError
               (if (thrown_name e =? "AbortError")%string
                then "Request timeout after "
                     ++ string_of_Z (effective_timeout cfg) ++ "ms"
                else "Request failed: " ++ describe e)).
Proof.
  intros run HU HQ HR Hall. unfold run.
  rewrite (request_attempts _ _ _ _ _ _ _ HU HQ).
  replace (Z.to_nat (effective_retryAttempts cfg + 1))
    with (S (Z.to_nat (effective_retryAttempts cfg))) by lia.
  destruct (attempts_all_rejected transport cfg
              (fetch_call cfg meth endpoint data query)
              (Z.to_nat (effective_retryAttempts cfg)) 0 None
              ltac:(lia) Hall) as (Hl & Hf & e & He & Ho).
  split; [rewrite Hl; lia|]. split; [exact Hf|].
  exists e. split; [exact He|]. split; [exact Ho|].
  rewrite Ho. unfold network_error.
  destruct (thrown_name e =? "AbortError")%string; reflexivity.
Qed.

Lemma transport_failures_exhaust_budget_witness :
  let run := request unreachable sample_config "GET" "/agents" None None in
  Z.of_nat (length (trace run)) = 1 + 3 /\
  outcome run = Throw (NetworkError "Request failed: fetch failed").
Proof.
  intros run.
  destruct (transport_failures_exhaust_budget unreachable sample_config
              "GET" "/agents" None None [])
    as (Hl & _ & e & He & Ho & _).
  - reflexivity.
  - reflexivity.
  - vm_compute. discriminate.
  - intros k _. eexists. reflexivity.
  - split; [exact Hl|].
    injection He as <-. exact Ho.
Defined.



(** C9, as stated, fails: without a configured API key the request is sent
    with no API-key header. *)
Lemma keyless_request_has_no_api_key_header :
  map fetched
      (trace (request (answering 200 "{}") keyless_config "GET" "/agents"
                None None))
  = [Some {| url := "https://api.getanchor.dev/agents";
             query := [];
             method := "GET";
             headers := [("User-Agent", "anchorai-typescript/1.0.0")];
             body := None |}] /\
  header "X-API-Key" [("User-Agent", "anchorai-typescript/1.0.0")] = None.
Proof.
  split; reflexivity.
Qed.

(** C9 (amended): every request a call issues, on the first attempt and on
    every retry, is the same and carries the client-identifying header; it
    carries the API-key header exactly when an API key is configured, and
    the JSON content-type header exactly when a body is sent. *)
Theorem standard_headers {RT : Runtime} (transport : Transport) (cfg : Config)
  (meth endpoint : string) (data : option Record) (params : option Params)
  (a : Attempt) (c : FetchCall) :
  In a (trace (request transport cfg meth endpoint data params)) ->
  fetched a = Some c ->
  (exists query, query_of params = Return query /\
                 c = fetch_call cfg meth endpoint data query) /\
  header "User-Agent" (headers c) = Some "anchorai-typescript/1.0.0" /\
  (apiKey cfg <> "" -> header "X-API-Key" (headers c) = Some (apiKey cfg)) /\
  (apiKey cfg = "" -> header "X-API-Key" (headers c) = None) /\
  body c = data /\
  (data <> None ->
   header "Content-Type" (headers c) = Some "application/json") /\
  (data = None -> header "Content-Type" (headers c) = None).
Proof.
  intros Hin Hf.
  assert (Hc : exists query, query_of params = Return query /\
                             c = fetch_call cfg meth endpoint data query).
  { destruct (request_cases transport cfg meth endpoint data params)
      as [(e & Heq)|(query & _ & HQ & Heq)]; rewrite Heq in Hin;
      [destruct Hin|].
    exists query. split; [exact HQ|].
    exact (attempts_same_call transport cfg _ _ _ _ a c Hin Hf). }
  split; [exact Hc|]. destruct Hc as (query & _ & ->).
  cbn [headers fetch_call body].
  unfold headers_of.
  split; [reflexivity|]. split; [|split; [|split; [|split]]].
  - intros Hk. destruct (String.eqb_spec (apiKey cfg) ""); [contradiction|].
    reflexivity.
  - intros Hk. rewrite Hk. destruct data; reflexivity.
  - reflexivity.
  - intros Hd. destruct data; [|contradiction].
    destruct (apiKey cfg =? "")%string; reflexivity.
  - intros ->. destruct (apiKey cfg =? "")%string; reflexivity.
Qed.

Lemma standard_headers_witness :
  let c := fetch_call sample_config "POST" "/agents"
             (Some [("name", JStr "support-bot")]) [] in
  header "X-API-Key" (headers c) = Some "anc_test_key" /\
  header "Content-Type" (headers c) = Some "application/json".
Proof.
  intros c.
  destruct (standard_headers (answering 503 "") sample_config "POST" "/agents"
              (Some [("name", JStr "support-bot")]) None
              {| fetched := Some c; slept := Some 200 |} c)
    as (_ & _ & Hkey & _ & _ & Hct & _).
  - right. left. reflexivity.
  - reflexivity.
  - split; [apply Hkey; discriminate|apply Hct; discriminate].
Defined.

(** ** Domain normalizers *)

Section NormalizerProperties.

Context {RT : Runtime}.

(** A value without a primitive conversion is an object or an array, hence
    truthy. *)
Lemma unconvertible_truthy (v : json) : convertible v = false -> truthy v = true.
Proof. destruct v; cbn; intros H; try discriminate; reflexivity. Qed.

Lemma new_Date_returns (v : json) :
  convertible v = true -> exists d, new_Date v = Return d.
Proof. intros H. unfold new_Date. rewrite H. eexists. reflexivity. Qed.

Lemma new_Date_throws (v : json) :
  convertible v = false -> new_Date v = Throw TypeError_primitive.
Proof. intros H. unfold new_Date. rewrite H. reflexivity. Qed.

Lemma new_Date_convertible (v : json) (d : Date) :
  new_Date v = Return d -> convertible v = true.
Proof. unfold new_Date. destruct (convertible v); [reflexivity|discriminate]. Qed.

(** [x ? new Date(x) : undefined] returns exactly for the values [new
    Date] accepts. *)
Lemma date_of_returns (wire : option json) :
  convertible_opt wire = true -> exists d, date_of wire = Return d.
Proof.
  destruct wire as [v|]; cbn; [|eexists; reflexivity].
  intros H. destruct (truthy v); [|eexists; reflexivity].
  unfold new_Date. rewrite H. eexists. reflexivity.
Qed.

Lemma date_of_throws (wire : option json) :
  convertible_opt wire = false -> date_of wire = Throw TypeError_primitive.
Proof.
  destruct wire as [v|]; cbn; [|discriminate].
  intros H. rewrite (unconvertible_truthy _ H), (new_Date_throws _ H).
  reflexivity.
Qed.

Lemma date_of_convertible (wire : option json) (d : option Date) :
  date_of wire = Return d -> convertible_opt wire = true.
Proof.
  intros H. destruct (convertible_opt wire) eqn:E; [reflexivity|].
  rewrite (date_of_throws _ E) in H. discriminate.
Qed.

Lemma date_of_ok (wire : option json) (field : option Date) :
  date_of wire = Return field -> timestamp_ok wire field.
Proof.
  unfold timestamp_ok, date_of. intros H.
  destruct wire as [v|]; cbn.
  - destruct (truthy v) eqn:Ht.
    + destruct (new_Date v) as [d|e] eqn:Hd; cbn in H; [|discriminate].
      injection H as <-. split; [|split].
      * split; discriminate.
      * intros d' Hd'. injection Hd' as <-. exists v. split; [reflexivity|].
        exact Hd.
      * intros s t Hv Hne Hp. injection Hv as ->.
        unfold new_Date in Hd. cbn in Hd. rewrite Hp in Hd.
        injection Hd as <-. reflexivity.
    + injection H as <-. split; [|split].
      * split; reflexivity.
      * discriminate.
      * intros s t Hv Hne Hp. injection Hv as ->. cbn in Ht.
        destruct (String.eqb_spec s ""); [contradiction|discriminate].
  - injection H as <-. split; [|split].
    + split; reflexivity.
    + discriminate.
    + discriminate.
Qed.

Lemma date_of_string (s : string) :
  s <> "" ->
  date_of (Some (JStr s)) = Return (Some {| time_value := Date_parse s |}).
Proof.
  intros Hne. cbn. destruct (String.eqb_spec s ""); [contradiction|].
  reflexivity.
Qed.

(** A string that [Date.parse] rejects becomes an Invalid Date, not an
    absent field. *)
Lemma date_of_unparsable (s : string) :
  s <> "" -> Date_parse s = None ->
  date_of (Some (JStr s)) = Return (Some {| time_value := None |}).
Proof.
  intros Hne Hp. rewrite (date_of_string s Hne), Hp. reflexivity.
Qed.

Lemma verification_of_returns (wire : option json) :
  (forall w, wire = Some w ->
             convertible_opt (lookup "verified_at" (props_of w)) = true) ->
  exists n, verification_of wire = Return n.
Proof.
  intros H. destruct wire as [w|]; cbn; [|eexists; reflexivity].
  destruct (truthy w); [|eexists; reflexivity].
  unfold parseVerification.
  destruct (date_of_returns _ (H w eq_refl)) as (d & ->).
  eexists. reflexivity.
Qed.

Lemma populated_or_else (wire : option json) (zero : json) :
  populated wire zero -> wire = Some (or_else wire zero).
Proof.
  intros (v & -> & [Ht| ->]); cbn.
  - rewrite Ht. reflexivity.
  - destruct (truthy zero); reflexivity.
Qed.

Lemma nonempty_or_else (wire : option json) (zero : json) :
  nonempty wire -> wire = Some (or_else wire zero).
Proof.
  unfold nonempty. destruct wire as [v|]; cbn; [|discriminate].
  intros ->. reflexivity.
Qed.

Lemma nonempty_js_or (wire other : option json) (zero : json) :
  nonempty wire -> wire = Some (or_else (js_or wire other) zero).
Proof.
  unfold nonempty, js_or. intros H. rewrite H.
  apply nonempty_or_else. exact H.
Qed.

Lemma populated_bool_not_false (wire : option json) :
  populated_bool wire -> wire = Some (JBool (not_false wire)).
Proof.
  intros ([|] & ->); reflexivity.
Qed.

Lemma same_instant_string (s : string) :
  same_instant (Some (JStr s)) (Some {| time_value := Date_parse s |}).
Proof. exists s. split; reflexivity. Qed.

End NormalizerProperties.

(** What a normalizer returned, by its timestamps. *)
Ltac returned H :=
  unfold parseAgent, parseConfig, parseConfigVersion, parseWriteResult,
    parseDataEntry, parseCheckpoint, parseRestoreResult, parseAuditEvent,
    parseVerification, parseExportResult in H;
  repeat match type of H with
         | context [bind (date_of ?x) _] =>
             let d := fresh "d" in
             let Hd := fresh "Hd" in
             destruct (date_of x) as [d|?] eqn:Hd; cbn [bind] in H;
             [|discriminate H]
         | context [bind (verification_of ?x) _] =>
             let n := fresh "n" in
             let Hn := fresh "Hn" in
             destruct (verification_of x) as [n|?] eqn:Hn; cbn [bind] in H;
             [|discriminate H]
         end;
  injection H as <-.

(** C10: the [allowed] field of a WriteResult is [true] whenever the wire
    field is anything but the boolean [false]; in particular when the
    payload has no [allowed] field.  The normalizer returns for every
    payload whose two timestamps [new Date] accepts. *)
Theorem allowed_defaults_to_true {RT : Runtime} (data : Record) :
  (convertible_opt (lookup "expires_at" data) = true ->
   convertible_opt (lookup "created_at" data) = true ->
   exists w, parseWriteResult data = Return w) /\
  (forall w, parseWriteResult data = Return w ->
     (lookup "allowed" data <> Some (JBool false) ->
      WriteResult.allowed w = true) /\
     (lookup "allowed" data = None -> WriteResult.allowed w = true) /\
     (lookup "allowed" data = Some (JBool false) ->
      WriteResult.allowed w = false)).
Proof.
  split.
  - intros He Hc. unfold parseWriteResult.
    destruct (date_of_returns _ He) as (d1 & ->).
    destruct (date_of_returns _ Hc) as (d2 & ->).
    eexists. reflexivity.
  - intros w H. returned H. cbn [WriteResult.allowed]. unfold not_false.
    split; [|split].
    + intros Hne. destruct (lookup "allowed" data) as [[| [|] | | | |]|];
        try reflexivity. contradiction Hne. reflexivity.
    + intros ->. reflexivity.
    + intros ->. reflexivity.
Qed.

Lemma allowed_defaults_to_true_witness :
  (exists w, parseWriteResult [("key", JStr "session:abc");
                               ("audit_id", JStr "audit_789")] = Return w /\
             WriteResult.allowed w = true) /\
  (exists w, parseWriteResult [("key", JStr "session:abc");
                               ("allowed", JNull)] = Return w /\
             WriteResult.allowed w = true) /\
  (exists w, parseWriteResult sample_write_result = Return w /\
             WriteResult.allowed w = false).
Proof.
  split; [|split].
  - destruct (proj1 (allowed_defaults_to_true
                       [("key", JStr "session:abc");
                        ("audit_id", JStr "audit_789")]) eq_refl eq_refl)
      as (w & Hw).
    exists w. split; [exact Hw|].
    apply (proj1 (proj2 (proj2 (allowed_defaults_to_true _) w Hw))).
    reflexivity.
  - destruct (proj1 (allowed_defaults_to_true
                       [("key", JStr "session:abc"); ("allowed", JNull)])
                eq_refl eq_refl) as (w & Hw).
    exists w. split; [exact Hw|].
    apply (proj1 (proj2 (allowed_defaults_to_true _) w Hw)). discriminate.
  - destruct (proj1 (allowed_defaults_to_true sample_write_result)
                eq_refl eq_refl) as (w & Hw).
    exists w. split; [exact Hw|].
    apply (proj2 (proj2 (proj2 (allowed_defaults_to_true _) w Hw))).
    reflexivity.
Defined.

Create HintDb readback.

#[local] Hint Resolve populated_or_else nonempty_or_else nonempty_js_or
  populated_bool_not_false same_instant_string : readback.

(** The timestamps of a full payload are non-empty strings, which [new
    Date] always accepts. *)
Ltac wire_dates :=
  repeat match goal with
         | H : populated_date ?w |- _ =>
             let s := fresh "s" in
             let Hs := fresh "Hs" in
             let Hne := fresh "Hne" in
             destruct H as (s & Hs & Hne);
             rewrite Hs, (date_of_string s Hne); clear Hs
         end.

Ltac readback :=
  cbn; repeat apply conj; auto with readback.

Ltac round_trip :=
  wire_dates; cbn [bind]; eexists; (split; [reflexivity|]); readback.

Section RoundTrip.

Context {RT : Runtime}.

Lemma round_trip_Agent (data : Record) :
  full_Agent data ->
  exists r, parseAgent data = Return r /\ readback_Agent data r.
Proof.
  intros (? & ? & ? & ? & ? & ?). unfold parseAgent, readback_Agent.
  round_trip.
Qed.

Lemma round_trip_Config (data : Record) :
  full_Config data ->
  exists r, parseConfig data = Return r /\ readback_Config data r.
Proof.
  intros (? & ? & ? & ?). unfold parseConfig, readback_Config. round_trip.
Qed.

Lemma round_trip_ConfigVersion (data : Record) :
  full_ConfigVersion data ->
  exists r, parseConfigVersion data = Return r /\
            readback_ConfigVersion data r.
Proof.
  intros (? & ?). unfold parseConfigVersion, readback_ConfigVersion.
  round_trip.
Qed.

Lemma round_trip_WriteResult (data : Record) :
  full_WriteResult data ->
  exists r, parseWriteResult data = Return r /\ readback_WriteResult data r.
Proof.
  intros (? & ? & ? & ? & ?). unfold parseWriteResult, readback_WriteResult.
  round_trip.
Qed.

Lemma round_trip_DataEntry (data : Record) :
  full_DataEntry data ->
  exists r, parseDataEntry data = Return r /\ readback_DataEntry data r.
Proof.
  intros (? & ? & ? & ? & ? & ? & ?). unfold parseDataEntry, readback_DataEntry.
  round_trip.
Qed.

Lemma round_trip_SearchResult (data : Record) :
  full_SearchResult data ->
  readback_SearchResult data (parseSearchResult data).
Proof. intros (? & ? & ? & ?). unfold readback_SearchResult. readback. Qed.

Lemma round_trip_DataSnapshot (data : Record) :
  full_DataSnapshot data ->
  readback_DataSnapshot data (parseDataSnapshot data).
Proof. intros (? & ?). unfold readback_DataSnapshot. readback. Qed.

Lemma round_trip_Checkpoint (data : Record) :
  full_Checkpoint data ->
  exists r, parseCheckpoint data = Return r /\ readback_Checkpoint data r.
Proof.
  intros (? & ? & ? & (snapshot & Hs & Hfull) & ?).
  unfold parseCheckpoint, readback_Checkpoint. round_trip.
  exists snapshot. split; [exact Hs|]. rewrite Hs. cbn.
  apply round_trip_DataSnapshot. exact Hfull.
Qed.

Lemma round_trip_RestoreResult (data : Record) :
  full_RestoreResult data ->
  exists r, parseRestoreResult data = Return r /\
            readback_RestoreResult data r.
Proof.
  intros (? & ? & ? & ? & ? & ? & ?).
  unfold parseRestoreResult, readback_RestoreResult. round_trip.
Qed.

Lemma round_trip_AuditEvent (data : Record) :
  full_AuditEvent data ->
  exists r, parseAuditEvent data = Return r /\ readback_AuditEvent data r.
Proof.
  intros (? & ? & ? & ? & ? & ? & ? & ?).
  unfold parseAuditEvent, readback_AuditEvent. round_trip.
Qed.

Lemma round_trip_Verification (data : Record) :
  full_Verification data ->
  exists r, parseVerification data = Return r /\
            readback_Verification data r.
Proof.
  intros (? & ? & ?). unfold parseVerification, readback_Verification.
  round_trip.
Qed.

Lemma round_trip_ExportResult (data : Record) :
  full_ExportResult data ->
  exists r, parseExportResult data = Return r /\ readback_ExportResult data r.
Proof.
  intros (? & ? & ? & ? & ? & (v & Hv & Hfull)).
  destruct (round_trip_Verification v Hfull) as (n & Hn & Hback).
  unfold parseExportResult, readback_ExportResult.
  rewrite Hv. cbn [verification_of truthy props_of]. rewrite Hn.
  round_trip.
  exists v, n. split; [reflexivity|]. split; [reflexivity|exact Hback].
Qed.

End RoundTrip.

(** C8: for every entity, normalizing a payload in which every documented
    field is populated returns an entity, and reading its fields back
    gives the wire values: the same value for each plain field, the
    instant of the wire string for each timestamp, and the same again
    inside a nested object. *)
Theorem full_payload_round_trip {RT : Runtime} :
  (forall data, full_Agent data -> exists r, parseAgent data = Return r /\ readback_Agent data r) /\
  (forall data, full_Config data -> exists r, parseConfig data = Return r /\ readback_Config data r) /\
  (forall data, full_ConfigVersion data -> exists r, parseConfigVersion data = Return r /\ readback_ConfigVersion data r) /\
  (forall data, full_WriteResult data -> exists r, parseWriteResult data = Return r /\ readback_WriteResult data r) /\
  (forall data, full_DataEntry data -> exists r, parseDataEntry data = Return r /\ readback_DataEntry data r) /\
  (forall data, full_SearchResult data -> readback_SearchResult data (parseSearchResult data)) /\
  (forall data, full_DataSnapshot data -> readback_DataSnapshot data (parseDataSnapshot data)) /\
  (forall data, full_Checkpoint data -> exists r, parseCheckpoint data = Return r /\ readback_Checkpoint data r) /\
  (forall data, full_RestoreResult data -> exists r, parseRestoreResult data = Return r /\ readback_RestoreResult data r) /\
  (forall data, full_AuditEvent data -> exists r, parseAuditEvent data = Return r /\ readback_AuditEvent data r) /\
  (forall data, full_Verification data -> exists r, parseVerification data = Return r /\ readback_Verification data r) /\
  (forall data, full_ExportResult data -> exists r, parseExportResult data = Return r /\ readback_ExportResult data r).
Proof.
  repeat apply conj.
  - exact round_trip_Agent.
  - exact round_trip_Config.
  - exact round_trip_ConfigVersion.
  - exact round_trip_WriteResult.
  - exact round_trip_DataEntry.
  - exact round_trip_SearchResult.
  - exact round_trip_DataSnapshot.
  - exact round_trip_Checkpoint.
  - exact round_trip_RestoreResult.
  - exact round_trip_AuditEvent.
  - exact round_trip_Verification.
  - exact round_trip_ExportResult.
Qed.

Ltac full_payload :=
  repeat first
    [ apply conj
    | reflexivity
    | eexists; split; [reflexivity|first [left; reflexivity
                                           |right; reflexivity
                                           |discriminate]]
    | eexists; reflexivity
    | eexists; split; [reflexivity|] ].

Lemma full_payload_round_trip_witness :
  (exists r, parseAgent sample_agent = Return r /\ readback_Agent sample_agent r) /\
  (exists r, parseConfig sample_config_payload = Return r /\ readback_Config sample_config_payload r) /\
  (exists r, parseConfigVersion sample_config_version = Return r /\ readback_ConfigVersion sample_config_version r) /\
  (exists r, parseWriteResult sample_write_result = Return r /\ readback_WriteResult sample_write_result r) /\
  (exists r, parseDataEntry sample_data_entry = Return r /\ readback_DataEntry sample_data_entry r) /\
  readback_SearchResult sample_search_result (parseSearchResult sample_search_result) /\
  readback_DataSnapshot sample_data_snapshot (parseDataSnapshot sample_data_snapshot) /\
  (exists r, parseCheckpoint sample_checkpoint = Return r /\ readback_Checkpoint sample_checkpoint r) /\
  (exists r, parseRestoreResult sample_restore_result = Return r /\ readback_RestoreResult sample_restore_result r) /\
  (exists r, parseAuditEvent sample_audit_event = Return r /\ readback_AuditEvent sample_audit_event r) /\
  (exists r, parseVerification sample_verification = Return r /\ readback_Verification sample_verification r) /\
  (exists r, parseExportResult sample_export_result = Return r /\ readback_ExportResult sample_export_result r).
Proof.
  destruct (@full_payload_round_trip sample_runtime)
    as (HAgent & HConfig & HConfigVersion & HWriteResult & HDataEntry & HSearchResult & HDataSnapshot & HCheckpoint & HRestoreResult & HAuditEvent & HVerification & HExportResult).
  refine (conj _ (conj _ (conj _ (conj _ (conj _ (conj _ (conj _ (conj _ (conj _ (conj _ (conj _ (_)))))))))))).
  - apply HAgent. full_payload.
  - apply HConfig. full_payload.
  - apply HConfigVersion. full_payload.
  - apply HWriteResult. full_payload.
  - apply HDataEntry. full_payload.
  - apply HSearchResult. full_payload.
  - apply HDataSnapshot. full_payload.
  - apply HCheckpoint. full_payload.
  - apply HRestoreResult. full_payload.
  - apply HAuditEvent. full_payload.
  - apply HVerification. full_payload.
  - apply HExportResult. full_payload.
Defined.

(** C7, as stated, fails on both counts: a [created_at] field that is
    present but empty leaves [createdAt] absent, and one whose value is
    outside the range of time values gives an Invalid Date. *)
Lemma timestamp_dropped_or_invalid :
  let blank := [("key", JStr "k"); ("created_at", JStr "")] in
  let far := [("key", JStr "k"); ("created_at", JNum 10000000000000000)] in
  lookup "created_at" blank = Some (JStr "") /\
  (forall RT : Runtime,
      exists w, @parseWriteResult RT blank = Return w /\
                WriteResult.createdAt w = None) /\
  (forall RT : Runtime,
      exists w, @parseWriteResult RT far = Return w /\
                WriteResult.createdAt w = Some {| time_value := None |}).
Proof.
  intros blank far. split; [reflexivity|].
  split; intros RT; eexists; split; reflexivity.
Qed.

(** The same for a string that the runtime cannot read as a date. *)
Lemma timestamp_unparsable {RT : Runtime} (s : string) :
  s <> "" -> Date_parse s = None ->
  exists r,
    parseAgent [("id", JStr "agent_123"); ("created_at", JStr s)] = Return r /\
    Agent.createdAt r = Some {| time_value := None |}.
Proof.
  intros Hne Hp. unfold parseAgent.
  change (lookup "created_at" [("id", JStr "agent_123"); ("created_at", JStr s)])
    with (Some (JStr s)).
  rewrite (date_of_unparsable s Hne Hp). cbn. eexists. split; reflexivity.
Qed.

(** The timestamps of a payload that [new Date] accepts. *)
Ltac timestamps :=
  intros;
  unfold parseAgent, parseConfig, parseConfigVersion, parseWriteResult,
    parseDataEntry, parseCheckpoint, parseRestoreResult, parseAuditEvent,
    parseVerification;
  repeat match goal with
         | H : convertible_opt ?w = true |- _ =>
             let d := fresh "d" in
             let Hd := fresh "Hd" in
             destruct (date_of_returns w H) as (d & Hd); rewrite Hd; clear H
         end;
  cbn [bind]; eexists; (split; [reflexivity|]);
  cbn [Agent.createdAt Agent.updatedAt AgentConfig.createdAt
       ConfigVersion.createdAt WriteResult.expiresAt WriteResult.createdAt
       DataEntry.createdAt DataEntry.updatedAt DataEntry.expiresAt
       Checkpoint.createdAt RestoreResult.restoredAt AuditEvent.timestamp
       Verification.verifiedAt];
  repeat first [apply date_of_ok; assumption | apply conj].

(** C7 (amended): for a payload whose timestamp values [new Date] accepts
    (a missing field, any string, number or boolean, an object or array
    that has a primitive conversion) every normalizer returns an entity,
    and each timestamp field of it is absent exactly when its wire field
    is missing or falsy ([null], [false], [0], the empty string);
    otherwise it is the [Date] built from the wire value, never the wire
    value itself nor a default date, and it is the instant [Date.parse]
    gives whenever the wire value is a string that [Date.parse] accepts. *)
Theorem timestamps_parsed_or_absent {RT : Runtime} (data : Record) :
  (convertible_opt (lookup "created_at" data) = true ->
   convertible_opt (lookup "updated_at" data) = true ->
   exists r, parseAgent data = Return r /\
     timestamp_ok (lookup "created_at" data) (Agent.createdAt r) /\
     timestamp_ok (lookup "updated_at" data) (Agent.updatedAt r)) /\
  (convertible_opt (lookup "created_at" data) = true ->
   exists r, parseConfig data = Return r /\
     timestamp_ok (lookup "created_at" data) (AgentConfig.createdAt r)) /\
  (convertible_opt (lookup "created_at" data) = true ->
   exists r, parseConfigVersion data = Return r /\
     timestamp_ok (lookup "created_at" data) (ConfigVersion.createdAt r)) /\
  (convertible_opt (lookup "expires_at" data) = true ->
   convertible_opt (lookup "created_at" data) = true ->
   exists r, parseWriteResult data = Return r /\
     timestamp_ok (lookup "expires_at" data) (WriteResult.expiresAt r) /\
     timestamp_ok (lookup "created_at" data) (WriteResult.createdAt r)) /\
  (convertible_opt (lookup "created_at" data) = true ->
   convertible_opt (lookup "updated_at" data) = true ->
   convertible_opt (lookup "expires_at" data) = true ->
   exists r, parseDataEntry data = Return r /\
     timestamp_ok (lookup "created_at" data) (DataEntry.createdAt r) /\
     timestamp_ok (lookup "updated_at" data) (DataEntry.updatedAt r) /\
     timestamp_ok (lookup "expires_at" data) (DataEntry.expiresAt r)) /\
  (convertible_opt (lookup "created_at" data) = true ->
   exists r, parseCheckpoint data = Return r /\
     timestamp_ok (lookup "created_at" data) (Checkpoint.createdAt r)) /\
  (convertible_opt (lookup "restored_at" data) = true ->
   exists r, parseRestoreResult data = Return r /\
     timestamp_ok (lookup "restored_at" data) (RestoreResult.restoredAt r)) /\
  (convertible_opt (lookup "timestamp" data) = true ->
   exists r, parseAuditEvent data = Return r /\
     timestamp_ok (lookup "timestamp" data) (AuditEvent.timestamp r)) /\
  (convertible_opt (lookup "verified_at" data) = true ->
   exists r, parseVerification data = Return r /\
     timestamp_ok (lookup "verified_at" data) (Verification.verifiedAt r)) /\
  (convertible_opt (lookup "expires_at" data) = true ->
   (forall w, lookup "verification" data = Some w ->
      convertible_opt (lookup "verified_at" (props_of w)) = true) ->
   exists r, parseExportResult data = Return r /\
     timestamp_ok (lookup "expires_at" data) (ExportResult.expiresAt r) /\
     (forall v, ExportResult.verification r = Some v ->
        exists w, lookup "verification" data = Some w /\
                  timestamp_ok (lookup "verified_at" (props_of w))
                    (Verification.verifiedAt v))).
Proof.
  repeat (split; [solve [timestamps]|]).
  intros He Hv. unfold parseExportResult.
  destruct (date_of_returns _ He) as (d & Hd). rewrite Hd. cbn [bind].
  destruct (verification_of_returns _ Hv) as (n & Hn). rewrite Hn.
  cbn [bind]. eexists. split; [reflexivity|].
  cbn [ExportResult.expiresAt ExportResult.verification].
  split; [apply date_of_ok; exact Hd|].
  intros v ->. unfold verification_of in Hn.
  destruct (lookup "verification" data) as [w|]; [|discriminate].
  destruct (truthy w); [|discriminate].
  destruct (parseVerification (props_of w)) as [n|e] eqn:Hp;
    cbn [bind] in Hn; [|discriminate].
  injection Hn as ->. exists w. split; [reflexivity|].
  returned Hp. cbn [Verification.verifiedAt]. apply date_of_ok. assumption.
Qed.

Lemma timestamps_parsed_or_absent_witness :
  exists r, parseAgent sample_agent = Return r /\
            Agent.createdAt r = Some {| time_value := Some 1704067200000 |}.
Proof.
  destruct (proj1 (timestamps_parsed_or_absent sample_agent) eq_refl eq_refl)
    as (r & Hr & (_ & _ & H) & _).
  exists r. split; [exact Hr|].
  apply (H "2024-01-01T00:00:00Z" 1704067200000);
    [reflexivity|discriminate|reflexivity].
Defined.

(** ** Namespace facades *)

Ltac pipeline_throws H :=
  intros;
  repeat match goal with
         | U : usable_date (Some {| time_value := None |}) |- _ =>
             exfalso; exact (U _ eq_refl eq_refl)
         | d : option Date |- _ => destruct d as [[[?|]]|]
         end;
  cbv beta delta
    [AgentsNamespace_create AgentsNamespace_get AgentsNamespace_list
     AgentsNamespace_update AgentsNamespace_delete AgentsNamespace_suspend
     AgentsNamespace_activate ConfigNamespace_get ConfigNamespace_update
     ConfigNamespace_versions ConfigNamespace_getVersion
     ConfigNamespace_rollback DataNamespace_write DataNamespace_writeBatch
     DataNamespace_read DataNamespace_readFull DataNamespace_delete
     DataNamespace_deletePrefix DataNamespace_list DataNamespace_search
     CheckpointsNamespace_create CheckpointsNamespace_list
     CheckpointsNamespace_get CheckpointsNamespace_restore
     CheckpointsNamespace_delete AuditNamespace_query AuditNamespace_get
     AuditNamespace_verify AuditNamespace_export
     http_get http_post http_put http_patch http_delete];
  cbn [iso_field toISOString time_value bind];
  rewrite H; reflexivity.

(** C6: when the pipeline throws [e], the three single-entity lookups
    ([agents.get], [data.read], [data.readFull]) return [null] if [e] is a
    [NotFoundError] and throw [e] itself otherwise; every other facade
    operation throws [e] itself, a [NotFoundError] included. *)
Theorem not_found_is_null_only_for_lookups {RT : Runtime} (http : HttpClient)
  (e : Error) :
  (forall meth endpoint data params, http meth endpoint data params = Throw e) ->
  (forall agentId,
      AgentsNamespace_get http agentId =
      if instanceof_NotFoundError e then Return None else Throw e) /\
  (forall agentId key,
      DataNamespace_read http agentId key =
      if instanceof_NotFoundError e then Return JNull else Throw e) /\
  (forall agentId key,
      DataNamespace_readFull http agentId key =
      if instanceof_NotFoundError e then Return None else Throw e) /\
  (forall name metadata,
      AgentsNamespace_create http name metadata = Throw e) /\
  (forall status limit offset,
      AgentsNamespace_list http status limit offset = Throw e) /\
  (forall agentId metadata,
      AgentsNamespace_update http agentId metadata = Throw e) /\
  (forall agentId,
      AgentsNamespace_delete http agentId = Throw e) /\
  (forall agentId,
      AgentsNamespace_suspend http agentId = Throw e) /\
  (forall agentId,
      AgentsNamespace_activate http agentId = Throw e) /\
  (forall agentId,
      ConfigNamespace_get http agentId = Throw e) /\
  (forall agentId config,
      ConfigNamespace_update http agentId config = Throw e) /\
  (forall agentId limit,
      ConfigNamespace_versions http agentId limit = Throw e) /\
  (forall agentId version,
      ConfigNamespace_getVersion http agentId version = Throw e) /\
  (forall agentId targetVersion,
      ConfigNamespace_rollback http agentId targetVersion = Throw e) /\
  (forall agentId key value metadata,
      DataNamespace_write http agentId key value metadata = Throw e) /\
  (forall agentId items,
      DataNamespace_writeBatch http agentId items = Throw e) /\
  (forall agentId key,
      DataNamespace_delete http agentId key = Throw e) /\
  (forall agentId prefix,
      DataNamespace_deletePrefix http agentId prefix = Throw e) /\
  (forall agentId prefix limit,
      DataNamespace_list http agentId prefix limit = Throw e) /\
  (forall agentId query limit prefix minSimilarity,
      DataNamespace_search http agentId query limit prefix minSimilarity = Throw e) /\
  (forall agentId label description,
      CheckpointsNamespace_create http agentId label description = Throw e) /\
  (forall agentId limit,
      CheckpointsNamespace_list http agentId limit = Throw e) /\
  (forall agentId checkpointId,
      CheckpointsNamespace_get http agentId checkpointId = Throw e) /\
  (forall agentId checkpointId restoreConfig restoreData,
      CheckpointsNamespace_restore http agentId checkpointId restoreConfig restoreData = Throw e) /\
  (forall agentId checkpointId,
      CheckpointsNamespace_delete http agentId checkpointId = Throw e) /\
  (forall agentId operations startTime endTime limit,
      usable_date startTime -> usable_date endTime -> AuditNamespace_query http agentId operations startTime endTime limit = Throw e) /\
  (forall agentId auditId,
      AuditNamespace_get http agentId auditId = Throw e) /\
  (forall agentId startTime,
      usable_date startTime -> AuditNamespace_verify http agentId startTime = Throw e) /\
  (forall agentId format startTime endTime includeVerification,
      usable_date startTime -> usable_date endTime -> AuditNamespace_export http agentId format startTime endTime includeVerification = Throw e).
Proof.
  intros H. repeat apply conj; pipeline_throws H.
Qed.

Lemma not_found_is_null_only_for_lookups_witness :
  let not_found := NotFoundError (JStr "HTTP 404") 404 empty_object in
  let unauthenticated := AuthenticationError (JStr "HTTP 401") 401 empty_object in
  let missing := failing not_found in
  let denied := failing unauthenticated in
  AgentsNamespace_get missing "agent_404" = Return None /\
  DataNamespace_read missing "agent_123" "no:such:key" = Return JNull /\
  DataNamespace_readFull missing "agent_123" "no:such:key" = Return None /\
  ConfigNamespace_get missing "agent_404" = Throw not_found /\
  AgentsNamespace_delete missing "agent_404" = Throw not_found /\
  AuditNamespace_verify missing "agent_404" (Some {| time_value := Some 0 |})
    = Throw not_found /\
  AgentsNamespace_get denied "agent_123" = Throw unauthenticated /\
  DataNamespace_write denied "agent_123" "k" "v" None = Throw unauthenticated.
Proof.
  intros not_found unauthenticated missing denied.
  assert (H404 : forall meth endpoint data params,
             missing meth endpoint data params = Throw not_found)
    by (intros; reflexivity).
  assert (H401 : forall meth endpoint data params,
             denied meth endpoint data params = Throw unauthenticated)
    by (intros; reflexivity).
  destruct (not_found_is_null_only_for_lookups missing not_found H404)
    as (Hget & Hread & Hfull & _ & _ & _ & Hdelete & _ & _ & Hconfig
         & _ & _ & _ & _ & _ & _ & _ & _ & _ & _ & _ & _ & _ & _ & _ & _ & _ & Hverify & _).
  destruct (not_found_is_null_only_for_lookups denied unauthenticated H401)
    as (Hget' & _ & _ & _ & _ & _ & _ & _ & _ & _ & _ & _ & _ & _ & Hwrite
         & _ & _ & _ & _ & _ & _ & _ & _ & _ & _ & _ & _ & _ & _).
  refine (conj _ (conj _ (conj _ (conj _ (conj _ (conj _ (conj _ _))))))).
  - exact (Hget "agent_404").
  - exact (Hread "agent_123" "no:such:key").
  - exact (Hfull "agent_123" "no:such:key").
  - exact (Hconfig "agent_404").
  - exact (Hdelete "agent_404").
  - apply (Hverify "agent_404"). intros x Hx. injection Hx as <-. discriminate.
  - exact (Hget' "agent_123").
  - exact (Hwrite "agent_123" "k" "v" None).
Defined.

(** Through the pipeline: the same lookups against a server that answers
    404, and one that answers 401. *)
Example lookups_against_a_server :
  let missing := client (answering 404 "") sample_config in
  let denied := client (answering 401 "") sample_config in
  AgentsNamespace_get missing "agent_404" = Return None /\
  DataNamespace_read missing "agent_123" "no:such:key" = Return JNull /\
  DataNamespace_readFull missing "agent_123" "no:such:key" = Return None /\
  ConfigNamespace_get missing "agent_404"
  = Throw (NotFoundError (JStr "HTTP 404") 404 empty_object) /\
  AgentsNamespace_get denied "agent_123"
  = Throw (AuthenticationError (JStr "HTTP 401") 401 empty_object).
Proof. repeat split; reflexivity. Qed.

(** * Further properties *)

(** ** The retry loop as a whole *)

Section LoopProperties.

Context {RT : Runtime}.
Variable transport : Transport.
Variable cfg : Config.
Variable call : FetchCall.

Let R := effective_retryAttempts cfg.
Let D := effective_retryDelay cfg.
Let T := effective_timeout cfg.

Lemma network_error_is_network (e : Thrown) :
  instanceof_NetworkError (network_error T e) = true.
Proof.
  unfold network_error. destruct (_ =? "AbortError")%string; reflexivity.
Qed.

Lemma catch_block_network_error (e : Thrown) :
  catch_block cfg (network_error T e) = Kept (network_error T e).
Proof.
  unfold network_error. destruct (_ =? "AbortError")%string; reflexivity.
Qed.

Lemma surfaced_classified (statusCode : Z) (data : json) :
  convertible (error_message statusCode data) = true ->
  surfaced cfg (handleError statusCode data) = handleError statusCode data.
Proof.
  intros Hc. unfold surfaced.
  rewrite (catch_block_handleError cfg _ _ Hc). reflexivity.
Qed.

Lemma surfaced_unclassified (statusCode : Z) (data : json) :
  convertible (error_message statusCode data) = false ->
  surfaced cfg (handleError statusCode data)
  = network_error T conversion_failure.
Proof.
  intros Hc. unfold surfaced.
  rewrite (catch_block_unconvertible cfg _ _ Hc). reflexivity.
Qed.

Lemma surfaced_typed (error : Error) :
  instanceof_AnchorAPIError (surfaced cfg error) = true \/
  instanceof_NetworkError (surfaced cfg error) = true.
Proof.
  unfold surfaced.
  destruct (catch_block_spec cfg error)
    as [(Hi & ->)|(_ & kept & -> & Hk)]; [left; exact Hi|right; exact Hk].
Qed.

Lemma settle_typed (o : Outcome) : typed_outcome (settle cfg o).
Proof.
  destruct o as [e|e|r]; cbn.
  - right. apply network_error_is_network.
  - right. apply network_error_is_network.
  - destruct (ok r); cbn; [exact I|]. apply surfaced_typed.
Qed.

(** One iteration, by what the network did: it ends the run as the
    outcome settles; or the outcome is retryable and attempts are left, and
    it sleeps and goes on; or the outcome is an exception on the last
    attempt, which is kept for the statements after the loop. *)
Lemma attempts_step_settle (n : nat) (attempt : Z) (lastError : option Error) :
  (exists a,
      fetched a = Some call /\ slept a = None /\
      attempts transport cfg call (S n) attempt lastError
      = ending a (settle cfg (transport attempt)) /\
      (retryable (transport attempt) = false \/ R <= attempt)) \/
  (retryable (transport attempt) = true /\ attempt < R /\
   exists f lastError',
      (lastError' = lastError \/ exists e, lastError' = Some (network_error T e)) /\
      attempts transport cfg call (S n) attempt lastError
      = after {| fetched := f; slept := Some (backoff D attempt) |}
              (attempts transport cfg call n (attempt + 1) lastError')) \/
  (retryable (transport attempt) = true /\ R <= attempt /\
   exists f e,
      settle cfg (transport attempt) = Throw (network_error T e) /\
      attempts transport cfg call (S n) attempt lastError
      = after {| fetched := f; slept := None |}
              (attempts transport cfg call n (attempt + 1)
                 (Some (network_error T e)))).
Proof.
  cbn [attempts]. unfold try_block. fold R. fold D. fold T.
  destruct (transport attempt) as [e|e|r]; cbn [retryable settle].
  - change (catch_block cfg (JsException (thrown_name e) (thrown_message e)))
      with (Kept (network_error T {| thrown_name := thrown_name e;
                                     thrown_message := thrown_message e |})).
    destruct e as [nm msg]. cbn [thrown_name thrown_message].
    destruct (attempt <? R) eqn:E.
    + right; left. split; [reflexivity|]. split; [lia|].
      do 2 eexists. split; [right; eexists; reflexivity|reflexivity].
    + right; right. split; [reflexivity|]. split; [lia|].
      do 2 eexists. split; reflexivity.
  - destruct (attempt <? R) eqn:E.
    + right; left. split; [reflexivity|]. split; [lia|].
      do 2 eexists. split; [right; eexists; reflexivity|reflexivity].
    + rewrite catch_block_network_error.
      right; right. split; [reflexivity|]. split; [lia|].
      do 2 eexists. split; reflexivity.
  - unfold classifiable, status_or_500, terminal_status.
    destruct (ok r); cbn [negb andb].
    + left. exists {| fetched := Some call; slept := None |}.
      do 3 (split; [reflexivity|]). left. reflexivity.
    + set (s := if status r =? 0 then 500 else status r).
      destruct (convertible (error_message s (parseBody (text r)))) eqn:Hc;
        cbn [negb orb].
      * rewrite (surfaced_classified _ _ Hc).
        match goal with |- context [if ?c then (_, Threw _ _) else _] =>
          destruct c eqn:Ec end; cbn [negb orb].
        -- rewrite (catch_block_handleError cfg _ _ Hc). left.
           exists {| fetched := Some call; slept := None |}.
           do 3 (split; [reflexivity|]). left. reflexivity.
        -- destruct (attempt <? R) eqn:E.
           ++ right; left. split; [reflexivity|]. split; [lia|].
              do 2 eexists. split; [left; reflexivity|reflexivity].
           ++ rewrite (catch_block_handleError cfg _ _ Hc). left.
              exists {| fetched := Some call; slept := None |}.
              do 3 (split; [reflexivity|]). right. lia.
      * rewrite (surfaced_unclassified _ _ Hc), orb_true_r.
        match goal with |- context [if ?c then (_, Threw _ _) else _] =>
          destruct c eqn:Ec end.
        -- rewrite (catch_block_unconvertible cfg _ _ Hc). fold T.
           destruct (attempt <? R) eqn:E.
           ++ right; left. split; [reflexivity|]. split; [lia|].
              do 2 eexists. split; [right; eexists; reflexivity|reflexivity].
           ++ right; right. split; [reflexivity|]. split; [lia|].
              do 2 eexists. split; reflexivity.
        -- destruct (attempt <? R) eqn:E.
           ++ right; left. split; [reflexivity|]. split; [lia|].
              do 2 eexists. split; [left; reflexivity|reflexivity].
           ++ rewrite (catch_block_unconvertible cfg _ _ Hc). fold T.
              right; right. split; [reflexivity|]. split; [lia|].
              do 2 eexists. split; reflexivity.
Qed.

Lemma attempts_length_le (n : nat) :
  forall (attempt : Z) (lastError : option Error),
    (length (trace (attempts transport cfg call n attempt lastError)) <= n)%nat.
Proof.
  induction n as [|n IH]; intros attempt lastError; [cbn; lia|].
  destruct (attempts_step transport cfg call n attempt lastError)
    as [(a0 & res & Heq & _)|[(f & le & _ & _ & Heq)|(f & le & _ & _ & Heq)]];
    rewrite Heq.
  - cbn. lia.
  - rewrite trace_after. cbn [length]. specialize (IH (attempt + 1) le). lia.
  - rewrite trace_after. cbn [length]. specialize (IH (attempt + 1) le). lia.
Qed.

(** The loop ends as its last iteration settles. *)
Lemma attempts_last (n : nat) :
  forall (attempt : Z) (lastError : option Error),
    Z.of_nat (S n) + attempt = R + 1 ->
    exists k : nat,
      length (trace (attempts transport cfg call (S n) attempt lastError))
      = S k /\
      attempt + Z.of_nat k <= R /\
      outcome (attempts transport cfg call (S n) attempt lastError)
      = settle cfg (transport (attempt + Z.of_nat k)).
Proof.
  induction n as [|n IH]; intros attempt lastError Hfuel.
  - destruct (attempts_step_settle O attempt lastError)
      as [(a & _ & _ & Heq & _)
         |[(_ & Hlt & f & le & _ & Heq)|(_ & Hge & f & e & Hs & Heq)]];
      rewrite Heq; try lia.
    + exists O. rewrite Z.add_0_r. repeat split. lia.
    + exists O. rewrite Z.add_0_r. cbn. rewrite Hs. repeat split. lia.
  - destruct (attempts_step_settle (S n) attempt lastError)
      as [(a & _ & _ & Heq & _)
         |[(_ & Hlt & f & le & _ & Heq)|(_ & Hge & f & e & Hs & Heq)]];
      rewrite Heq; try lia.
    + exists O. rewrite Z.add_0_r. repeat split. lia.
    + destruct (IH (attempt + 1) le ltac:(lia)) as (k & Hl & Hk & Ho).
      exists (S k). rewrite trace_after, outcome_after. cbn [length].
      rewrite Hl, Ho. repeat split; [lia|]. f_equal. f_equal. lia.
Qed.

(** What the loop throws is an API error or a [NetworkError]. *)
Lemma attempts_typed (n : nat) :
  forall (attempt : Z) (lastError : option Error),
    network_or_unset lastError ->
    typed_outcome (outcome (attempts transport cfg call n attempt lastError)).
Proof.
  induction n as [|n IH]; intros attempt lastError Hle.
  - cbn. destruct lastError as [e|]; cbn in *; [right; exact Hle|].
    right. reflexivity.
  - destruct (attempts_step_settle n attempt lastError)
      as [(a & _ & _ & Heq & _)
         |[(_ & _ & f & le & Hle' & Heq)|(_ & _ & f & e & _ & Heq)]];
      rewrite Heq.
    + apply settle_typed.
    + rewrite outcome_after. apply IH.
      destruct Hle' as [->|(e & ->)]; [exact Hle|].
      apply network_error_is_network.
    + rewrite outcome_after. apply IH. apply network_error_is_network.
Qed.

(** The sleeps of the loop add up to a geometric sum. *)
Lemma attempts_total_sleep (n : nat) :
  forall (attempt : Z) (lastError : option Error),
    0 <= attempt ->
    exists k : nat,
      attempt + Z.of_nat k <= Z.max attempt R /\
      total_sleep (trace (attempts transport cfg call n attempt lastError))
      = D * 2 ^ attempt * (2 ^ Z.of_nat k - 1).
Proof.
  induction n as [|n IH]; intros attempt lastError Ha.
  - exists O. cbn. split; [lia|ring].
  - destruct (attempts_step transport cfg call n attempt lastError)
      as [(a0 & res & Heq & Hnone & _)
         |[(f & le & Hlt & _ & Heq)|(f & le & Hge & _ & Heq)]];
      rewrite Heq.
    + exists O. cbn. rewrite Hnone. split; [lia|ring].
    + destruct (IH (attempt + 1) le ltac:(lia)) as (k & Hk & Hsum).
      exists (S k). rewrite trace_after. cbn [total_sleep slept].
      rewrite Hsum. split; [lia|].
      unfold backoff. fold D.
      rewrite Nat2Z.inj_succ, !Z.pow_succ_r by lia.
      rewrite Z.pow_add_r by lia. ring.
    + destruct (IH (attempt + 1) le ltac:(lia)) as (k & Hk & Hsum).
      assert (k = O) by lia. subst k.
      exists O. rewrite trace_after. cbn [total_sleep slept].
      rewrite Hsum. split; [lia|]. cbn. ring.
Qed.

(** The shape of a run whose first [k] iterations are retryable and whose
    next one is not, or is the last. *)
Lemma attempts_run_shape (k : nat) :
  forall (n : nat) (attempt : Z) (lastError : option Error),
    Z.of_nat (S n) + attempt = R + 1 ->
    (forall i : nat, (i < k)%nat ->
       retryable (transport (attempt + Z.of_nat i)) = true) ->
    (retryable (transport (attempt + Z.of_nat k)) = false /\
     attempt + Z.of_nat k <= R) \/ attempt + Z.of_nat k = R ->
    map slept (trace (attempts transport cfg call (S n) attempt lastError))
    = (map (fun i => Some (backoff D (attempt + Z.of_nat i))) (seq 0 k)
       ++ [None])%list /\
    outcome (attempts transport cfg call (S n) attempt lastError)
    = settle cfg (transport (attempt + Z.of_nat k)).
Proof.
  induction k as [|k IH]; intros n attempt lastError Hfuel Hretry Hend.
  - rewrite Z.add_0_r in *.
    destruct (attempts_step_settle n attempt lastError)
      as [(a & _ & Hs & Heq & _)
         |[(Hr & Hlt & _)|(_ & Hge & f & e & Hs & Heq)]].
    + rewrite Heq. cbn. rewrite Hs. split; reflexivity.
    + destruct Hend as [[Hf _]|He]; [congruence|lia].
    + assert (n = O) by lia. subst n.
      rewrite Heq. cbn. rewrite Hs. split; reflexivity.
  - assert (Hr0 : retryable (transport attempt) = true).
    { specialize (Hretry O ltac:(lia)). rewrite Z.add_0_r in Hretry.
      exact Hretry. }
    assert (Hlt : attempt < R) by lia.
    destruct n as [|n]; [lia|].
    destruct (attempts_step_settle (S n) attempt lastError)
      as [(a & _ & _ & _ & [Hf|Hge])
         |[(_ & _ & f & le & _ & Heq)|(_ & Hge & _)]]; try congruence; try lia.
    rewrite Heq, trace_after, outcome_after.
    destruct (IH n (attempt + 1) le ltac:(lia)) as (Hm & Ho).
    + intros i Hi. specialize (Hretry (S i) ltac:(lia)).
      replace (attempt + 1 + Z.of_nat i) with (attempt + Z.of_nat (S i))
        by lia. exact Hretry.
    + replace (attempt + 1 + Z.of_nat k) with (attempt + Z.of_nat (S k))
        by lia. exact Hend.
    + split.
      * cbn [map slept]. rewrite Hm. change (seq 0 (S k)) with (0%nat :: seq 1 k).
        rewrite <- seq_shift. cbn [map app]. rewrite map_map.
        rewrite Z.add_0_r. f_equal. f_equal.
        apply map_ext. intros i. do 2 f_equal. lia.
      * rewrite Ho. do 2 f_equal. lia.
Qed.

(** With the fuel of the real loop, every iteration but the last one
    slept: the sleeps add up to the geometric sum over the retries. *)
Lemma attempts_total_sleep_exact (n : nat) :
  forall (attempt : Z) (lastError : option Error),
    0 <= attempt ->
    Z.of_nat (S n) + attempt = R + 1 ->
    exists k : nat,
      length (trace (attempts transport cfg call (S n) attempt lastError))
      = S k /\
      total_sleep (trace (attempts transport cfg call (S n) attempt lastError))
      = D * 2 ^ attempt * (2 ^ Z.of_nat k - 1).
Proof.
  induction n as [|n IH]; intros attempt lastError Ha Hfuel.
  - destruct (attempts_step transport cfg call O attempt lastError)
      as [(a0 & res & Heq & Hnone & _)
         |[(f & le & Hlt & _ & Heq)|(f & le & Hge & _ & Heq)]];
      rewrite Heq; try lia.
    + exists O. cbn. rewrite Hnone. split; [reflexivity|ring].
    + exists O. cbn. split; [reflexivity|ring].
  - destruct (attempts_step transport cfg call (S n) attempt lastError)
      as [(a0 & res & Heq & Hnone & _)
         |[(f & le & Hlt & _ & Heq)|(f & le & Hge & _ & Heq)]];
      rewrite Heq; try lia.
    + exists O. cbn. rewrite Hnone. split; [reflexivity|ring].
    + destruct (IH (attempt + 1) le ltac:(lia) ltac:(lia)) as (k & Hl & Hsum).
      exists (S k). rewrite trace_after. cbn [length total_sleep slept].
      rewrite Hl, Hsum. split; [reflexivity|].
      unfold backoff. fold D.
      rewrite Nat2Z.inj_succ, Z.pow_succ_r by lia.
      rewrite Z.pow_add_r by lia. ring.
Qed.

End LoopProperties.

(** X2: the time a call spends sleeping is [retryDelay * (2 ^ k - 1)], [k]
    being the number of retries it made (its iterations after the first),
    which is at most [retryAttempts]; so with a non-negative delay it is
    at most [retryDelay * (2 ^ retryAttempts - 1)]. *)
Theorem total_backoff_is_geometric {RT : Runtime} (transport : Transport)
  (cfg : Config) (meth endpoint : string) (data : option Record)
  (params : option Params) :
  let run := request transport cfg meth endpoint data params in
  let retries := Z.of_nat (pred (length (trace run))) in
  let R := Z.max 0 (effective_retryAttempts cfg) in
  total_sleep (trace run) = effective_retryDelay cfg * (2 ^ retries - 1) /\
  retries <= R /\
  (0 <= effective_retryDelay cfg ->
   total_sleep (trace run) <= effective_retryDelay cfg * (2 ^ R - 1)).
Proof.
  intros run retries R.
  assert (H : total_sleep (trace run)
              = effective_retryDelay cfg * (2 ^ retries - 1) /\
              retries <= R).
  { unfold retries, run.
    destruct (request_cases transport cfg meth endpoint data params)
      as [(e & Heq)|(query & _ & _ & Heq)]; rewrite Heq.
    - cbn. split; [ring|unfold R; lia].
    - destruct (Z_le_gt_dec 0 (effective_retryAttempts cfg)) as [Hle|Hgt].
      + replace (Z.to_nat (effective_retryAttempts cfg + 1))
          with (S (Z.to_nat (effective_retryAttempts cfg))) by lia.
        destruct (attempts_total_sleep_exact transport cfg
                    (fetch_call cfg meth endpoint data query)
                    (Z.to_nat (effective_retryAttempts cfg)) 0 None
                    ltac:(lia) ltac:(lia)) as (k & Hl & Hsum).
        pose proof (attempts_length_le transport cfg
                      (fetch_call cfg meth endpoint data query)
                      (S (Z.to_nat (effective_retryAttempts cfg))) 0 None)
          as Hlen.
        rewrite Hl in *. cbn [pred]. rewrite Hsum. cbn [Z.pow].
        split; [ring|unfold R; lia].
      + replace (Z.to_nat (effective_retryAttempts cfg + 1)) with O by lia.
        cbn. split; [ring|unfold R; lia]. }
  destruct H as (Hsum & Hk). split; [exact Hsum|]. split; [exact Hk|].
  intros HD. rewrite Hsum.
  apply Z.mul_le_mono_nonneg_l; [exact HD|].
  assert (0 <= retries) by (unfold retries; lia).
  assert (2 ^ retries <= 2 ^ R) by (apply Z.pow_le_mono_r; lia). lia.
Qed.

Lemma total_backoff_is_geometric_witness :
  let run := request unreachable sample_config "GET" "/agents" None None in
  length (trace run) = 4%nat /\
  total_sleep (trace run) = 100 * (2 ^ 3 - 1) /\
  total_sleep (trace run) <= 100 * (2 ^ 3 - 1).
Proof.
  intros run. split; [reflexivity|]. split.
  - exact (proj1 (total_backoff_is_geometric unreachable sample_config
                    "GET" "/agents" None None)).
  - apply (proj2 (proj2 (total_backoff_is_geometric unreachable sample_config
                           "GET" "/agents" None None))).
    vm_compute. discriminate.
Defined.

(** X3: a call that makes any attempt ends as its last iteration settles:
    a response that is [ok] is returned parsed, any other response is
    thrown classified (or, when its error cannot be built, as the
    [NetworkError] of that failure), an exception is thrown as a
    [NetworkError].  Earlier failures leave no mark on the result. *)
Theorem outcome_reflects_last_attempt {RT : Runtime} (transport : Transport)
  (cfg : Config) (meth endpoint : string) (data : option Record)
  (params : option Params) (query : list (string * string)) :
  let run := request transport cfg meth endpoint data params in
  URL_valid (effective_baseUrl cfg ++ endpoint) = true ->
  query_of params = Return query ->
  0 <= effective_retryAttempts cfg ->
  exists k : nat,
    length (trace run) = S k /\
    Z.of_nat k <= effective_retryAttempts cfg /\
    outcome run = settle cfg (transport (Z.of_nat k)) /\
    (forall r, transport (Z.of_nat k) = Responds r ->
       (ok r = true -> outcome run = Return (parseBody (text r))) /\
       (ok r = false -> classifiable r = true ->
        outcome run
        = Throw (handleError (status_or_500 r) (parseBody (text r)))) /\
       (ok r = false -> classifiable r = false ->
        outcome run
        = Throw (network_error (effective_timeout cfg) conversion_failure))) /\
    (forall e, transport (Z.of_nat k) = FetchRejects e ->
       outcome run = Throw (network_error (effective_timeout cfg) e)).
Proof.
  intros run HU HQ HR. unfold run.
  rewrite (request_attempts _ _ _ _ _ _ _ HU HQ).
  replace (Z.to_nat (effective_retryAttempts cfg + 1))
    with (S (Z.to_nat (effective_retryAttempts cfg))) by lia.
  destruct (attempts_last transport cfg
              (fetch_call cfg meth endpoint data query)
              (Z.to_nat (effective_retryAttempts cfg)) 0 None ltac:(lia))
    as (k & Hl & Hk & Ho).
  exists k. rewrite Z.add_0_l in *.
  split; [exact Hl|]. split; [exact Hk|]. split; [exact Ho|]. split.
  - intros r Hr. rewrite Ho, Hr. cbn [settle]. split; [|split].
    + intros ->. reflexivity.
    + intros -> Hc. rewrite (surfaced_classified cfg _ _ Hc). reflexivity.
    + intros -> Hc. rewrite (surfaced_unclassified cfg _ _ Hc). reflexivity.
  - intros e He. rewrite Ho, He. reflexivity.
Qed.

Lemma outcome_reflects_last_attempt_witness :
  let run := request throttled_once sample_config "GET" "/agents" None None in
  exists k : nat,
    length (trace run) = S k /\ Z.of_nat k <= 3 /\
    outcome run = settle sample_config (throttled_once (Z.of_nat k)).
Proof.
  destruct (outcome_reflects_last_attempt throttled_once sample_config
              "GET" "/agents" None None [])
    as (k & Hl & Hk & Ho & _).
  - reflexivity.
  - reflexivity.
  - vm_compute. discriminate.
  - exists k. split; [exact Hl|]. split; [exact Hk|exact Ho].
Defined.

(** The query is built exactly when every value that is sent has a
    primitive conversion. *)
Lemma append_entries_returns {RT : Runtime} (ps : Params) :
  (forall k v, In (k, Some v) ps -> convertible v = true) ->
  exists query, append_entries ps = Return query.
Proof.
  induction ps as [|[k [v|]] ps IH]; intros H; cbn [append_entries].
  - eexists. reflexivity.
  - destruct IH as (q & Hq); [intros; eapply H; right; eassumption|].
    assert (Hv : convertible v = true) by (apply (H k); left; reflexivity).
    rewrite Hq. unfold ToString.
    destruct v; try (eexists; reflexivity); rewrite Hv; eexists; reflexivity.
  - apply IH. intros; eapply H; right; eassumption.
Qed.

Lemma append_entries_throws {RT : Runtime} (ps : Params) :
  (exists k v, In (k, Some v) ps /\ convertible v = false) ->
  append_entries ps = Throw TypeError_primitive.
Proof.
  induction ps as [|[k [v|]] ps IH]; intros (k0 & v0 & Hin & Hv0).
  - destruct Hin.
  - cbn [append_entries]. destruct (convertible v) eqn:Hv.
    + destruct Hin as [Heq|Hin]; [congruence|].
      rewrite (IH (ex_intro _ k0 (ex_intro _ v0 (conj Hin Hv0)))).
      unfold ToString.
      destruct v; try reflexivity; rewrite Hv; reflexivity.
    + unfold ToString. destruct v; try discriminate; rewrite Hv; reflexivity.
  - cbn [append_entries]. apply IH. exists k0, v0.
    destruct Hin as [Heq|Hin]; [discriminate|]. split; assumption.
Qed.

(** X4: a call whose URL is malformed throws the [TypeError] of the URL
    constructor, and one with a parameter value that has no primitive
    conversion throws the [TypeError] of [String(value)]; both without
    calling the network.  Any other call, whatever the network does,
    returns or throws an API error or a [NetworkError]. *)
Theorem request_throws_typed_errors {RT : Runtime} (transport : Transport)
  (cfg : Config) (meth endpoint : string) (data : option Record)
  (params : option Params) :
  let run := request transport cfg meth endpoint data params in
  let entries := match params with Some ps => ps | None => [] end in
  (URL_valid (effective_baseUrl cfg ++ endpoint) = false ->
   trace run = [] /\
   outcome run = Throw (JsException "TypeError" "Invalid URL")) /\
  (URL_valid (effective_baseUrl cfg ++ endpoint) = true ->
   (exists k v, In (k, Some v) entries /\ convertible v = false) ->
   trace run = [] /\ outcome run = Throw TypeError_primitive) /\
  (URL_valid (effective_baseUrl cfg ++ endpoint) = true ->
   (forall k v, In (k, Some v) entries -> convertible v = true) ->
   typed_outcome (outcome run)).
Proof.
  intros run entries. unfold run, request. split; [|split].
  - intros ->. split; reflexivity.
  - intros -> Hbad. destruct params as [ps|].
    + cbn [query_of]. rewrite (append_entries_throws ps Hbad).
      split; reflexivity.
    + destruct Hbad as (k & v & [] & _).
  - intros -> Hgood.
    assert (Hq : exists query, query_of params = Return query).
    { destruct params as [ps|]; [|eexists; reflexivity].
      apply append_entries_returns. exact Hgood. }
    destruct Hq as (query & ->). apply attempts_typed. exact I.
Qed.

Lemma request_throws_typed_errors_witness :
  typed_outcome
    (outcome (request stalled sample_config "GET" "/agents" None
                (Some [("limit", Some (JNum 50))]))) /\
  request stalled sample_config "GET" "/agents" None
    (Some [("limit", Some (JNum 50));
           ("filter", Some (JObj [("toString", JNull)]))])
  = ([], Throw TypeError_primitive) /\
  outcome (request stalled
             {| apiKey := "k"; baseUrl := Some "api.getanchor.dev";
                timeout := None; retryAttempts := None; retryDelay := None |}
             "GET" "/agents" None None)
  = Throw (JsException "TypeError" "Invalid URL").
Proof.
  split; [|split].
  - apply (proj2 (proj2 (request_throws_typed_errors stalled sample_config
                           "GET" "/agents" None
                           (Some [("limit", Some (JNum 50))]))));
      [reflexivity|].
    intros k v [H|[]]. injection H as _ <-. reflexivity.
  - assert (HU : URL_valid (effective_baseUrl sample_config ++ "/agents")
                  = true) by reflexivity.
    destruct (proj1 (proj2 (request_throws_typed_errors stalled sample_config
                              "GET" "/agents" None
                              (Some [("limit", Some (JNum 50));
                                     ("filter",
                                      Some (JObj [("toString", JNull)]))])))
                HU) as (Ht & Ho).
    + exists "filter", (JObj [("toString", JNull)]).
      split; [right; left; reflexivity|reflexivity].
    + apply injective_projections; [exact Ht|exact Ho].
  - apply (proj1 (request_throws_typed_errors stalled _
                    "GET" "/agents" None None)). reflexivity.
Defined.

(** X5: when the first [k] iterations fail in a retryable way and the next
    response is [ok], within the budget, the call sleeps
    [retryDelay * 2 ^ i] after iteration [i < k], makes [k + 1] iterations
    and returns the parsed body of that response. *)
Theorem retried_until_success {RT : Runtime} (transport : Transport)
  (cfg : Config) (meth endpoint : string) (data : option Record)
  (params : option Params) (query : list (string * string)) (k : nat)
  (r : Response) :
  let run := request transport cfg meth endpoint data params in
  URL_valid (effective_baseUrl cfg ++ endpoint) = true ->
  query_of params = Return query ->
  Z.of_nat k <= effective_retryAttempts cfg ->
  (forall i : nat, (i < k)%nat -> retryable (transport (Z.of_nat i)) = true) ->
  transport (Z.of_nat k) = Responds r ->
  ok r = true ->
  map slept (trace run)
  = (schedule (effective_retryDelay cfg) k ++ [None])%list /\
  outcome run = Return (parseBody (text r)).
Proof.
  intros run HU HQ Hk Hretry Ht Hok. unfold run.
  rewrite (request_attempts _ _ _ _ _ _ _ HU HQ).
  replace (Z.to_nat (effective_retryAttempts cfg + 1))
    with (S (Z.to_nat (effective_retryAttempts cfg))) by lia.
  destruct (attempts_run_shape transport cfg
              (fetch_call cfg meth endpoint data query) k
              (Z.to_nat (effective_retryAttempts cfg)) 0 None ltac:(lia))
    as (Hm & Ho).
  - intros i Hi. rewrite Z.add_0_l. auto.
  - left. rewrite Z.add_0_l, Ht. cbn. rewrite Hok. split; [reflexivity|lia].
  - rewrite Hm, Ho, Z.add_0_l, Ht. cbn [settle]. rewrite Hok.
    split; reflexivity.
Qed.

Lemma retried_until_success_witness :
  let run := request throttled_once sample_config "GET" "/agents" None None in
  map slept (trace run) = [Some 100; None] /\
  outcome run = Return empty_object.
Proof.
  intros run.
  destruct (retried_until_success throttled_once sample_config "GET"
              "/agents" None None [] 1 {| status := 200; text := Some "{}" |})
    as (Hm & Ho).
  - reflexivity.
  - reflexivity.
  - vm_compute. discriminate.
  - intros i Hi. assert (i = O) by lia. subst i. reflexivity.
  - reflexivity.
  - reflexivity.
  - split; [exact Hm|exact Ho].
Defined.

(** X6: when every iteration fails in a retryable way (a rejected call, a
    429, a status of 500 or more, any response that is neither [ok] nor a
    terminal 4xx, any response whose error cannot be built), the call uses
    its whole budget, sleeping [retryDelay * 2 ^ i] after each iteration
    but the last, and ends as the last outcome settles: the last response
    is thrown classified, a missing status counting as 500, unless its
    error cannot be built, which gives a [NetworkError]. *)
Theorem retryable_failures_exhaust_budget {RT : Runtime}
  (transport : Transport) (cfg : Config) (meth endpoint : string)
  (data : option Record) (params : option Params)
  (query : list (string * string)) :
  let run := request transport cfg meth endpoint data params in
  let R := effective_retryAttempts cfg in
  URL_valid (effective_baseUrl cfg ++ endpoint) = true ->
  query_of params = Return query ->
  0 <= R ->
  (forall i, 0 <= i <= R -> retryable (transport i) = true) ->
  map slept (trace run)
  = (schedule (effective_retryDelay cfg) (Z.to_nat R) ++ [None])%list /\
  outcome run = settle cfg (transport R) /\
  (forall r, transport R = Responds r -> classifiable r = true ->
     outcome run
     = Throw (handleError (status_or_500 r) (parseBody (text r)))) /\
  (forall r, transport R = Responds r -> classifiable r = false ->
     outcome run
     = Throw (NetworkError
                "Request failed: Cannot convert object to primitive value")).
Proof.
  intros run R HU HQ HR Hretry. unfold run.
  rewrite (request_attempts _ _ _ _ _ _ _ HU HQ). fold R.
  replace (Z.to_nat (R + 1)) with (S (Z.to_nat R)) by lia.
  destruct (attempts_run_shape transport cfg
              (fetch_call cfg meth endpoint data query) (Z.to_nat R)
              (Z.to_nat R) 0 None ltac:(fold R; lia))
    as (Hm & Ho).
  - intros i Hi. apply Hretry. lia.
  - right. fold R. lia.
  - rewrite Z.add_0_l, Z2Nat.id in Ho by lia.
    split; [exact Hm|]. split; [exact Ho|].
    assert (Hnot : forall r, transport R = Responds r -> ok r = false).
    { intros r Hr. specialize (Hretry R ltac:(lia)). rewrite Hr in Hretry.
      cbn in Hretry. destruct (ok r); [discriminate|reflexivity]. }
    split; intros r Hr Hc; rewrite Ho, Hr; cbn [settle];
      rewrite (Hnot r Hr).
    + rewrite (surfaced_classified cfg _ _ Hc). reflexivity.
    + rewrite (surfaced_unclassified cfg _ _ Hc). reflexivity.
Qed.

Lemma retryable_failures_exhaust_budget_witness :
  let run := request (answering 0 "") sample_config "GET" "/agents"
               None None in
  map slept (trace run) = [Some 100; Some 200; Some 400; None] /\
  outcome run = Throw (ServerError (JStr "HTTP 500") 500 empty_object).
Proof.
  intros run.
  destruct (retryable_failures_exhaust_budget (answering 0 "") sample_config
              "GET" "/agents" None None []) as (Hm & _ & Ho & _).
  - reflexivity.
  - reflexivity.
  - vm_compute. discriminate.
  - intros i _. reflexivity.
  - split; [exact Hm|]. exact (Ho _ eq_refl eq_refl).
Defined.

(** ** Error classifier, continued *)

Lemma error_message_truthy (statusCode : Z) (data : json) :
  truthy (error_message statusCode data) = true.
Proof.
  unfold error_message, or_else.
  destruct (js_or _ _) as [v|]; [|reflexivity].
  destruct (truthy v) eqn:E; [exact E|reflexivity].
Qed.

(** X8: the error [handleError] throws is an API error exactly when its
    message has a primitive conversion; it then carries the status code,
    the body (or [{}] when the body is falsy) and that message, which is
    never empty.  Otherwise the constructor throws and the error is the
    [TypeError] of the conversion, which is not an API error. *)
Theorem classified_error_carries (statusCode : Z) (data : json) :
  let e := handleError statusCode data in
  let message := error_message statusCode data in
  truthy message = true /\
  (convertible message = true ->
   instanceof_AnchorAPIError e = true /\
   statusCode_of e = Some statusCode /\
   response_of e = Some (or_else (Some data) empty_object) /\
   message_argument e = Some message) /\
  (convertible message = false ->
   e = TypeError_primitive /\ instanceof_AnchorAPIError e = false).
Proof.
  intros e message. split; [apply error_message_truthy|]. split.
  - apply handleError_carries.
  - intros Hc. unfold e. rewrite (handleError_unconvertible _ _ Hc).
    split; reflexivity.
Qed.

Lemma classified_error_carries_witness :
  statusCode_of (handleError 404 (JObj [("error", JStr "no such agent")]))
  = Some 404 /\
  handleError 404 unprintable_message = TypeError_primitive.
Proof.
  split.
  - apply (proj1 (proj2 (classified_error_carries 404 _))). reflexivity.
  - apply (proj2 (proj2 (classified_error_carries 404 _))). reflexivity.
Defined.

(** X9: the message of a classified error is the body's [message] when
    that is truthy, else its [error] when that is truthy, else
    ["HTTP <status>"]; so an error body that is not JSON is the message
    itself and an empty one gives ["HTTP <status>"]. *)
Theorem error_message_sources {RT : Runtime} (statusCode : Z) (data : json) :
  (forall m, prop data "message" = Some m -> truthy m = true ->
             error_message statusCode data = m) /\
  (forall e, truthy_opt (prop data "message") = false ->
             prop data "error" = Some e -> truthy e = true ->
             error_message statusCode data = e) /\
  (truthy_opt (prop data "message") = false ->
   truthy_opt (prop data "error") = false ->
   error_message statusCode data = JStr ("HTTP " ++ string_of_Z statusCode)) /\
  (forall t, t <> "" -> JSON_parse t = None ->
             error_message statusCode (parseBody (Some t)) = JStr t) /\
  error_message statusCode (parseBody (Some ""))
  = JStr ("HTTP " ++ string_of_Z statusCode).
Proof.
  unfold error_message, js_or. split; [|split; [|split; [|split]]].
  - intros m -> Hm. cbn. rewrite Hm. cbn. rewrite Hm. reflexivity.
  - intros e -> -> He. cbn. rewrite He. reflexivity.
  - intros -> He. destruct (prop data "error") as [e|]; [|reflexivity].
    cbn in *. rewrite He. reflexivity.
  - intros t Hne Hp. unfold parseBody.
    destruct (String.eqb_spec t ""); [contradiction|].
    cbn. rewrite Hp. cbn.
    destruct (String.eqb_spec t ""); [contradiction|]. cbn.
    destruct (String.eqb_spec t ""); [contradiction|]. reflexivity.
  - reflexivity.
Qed.

Lemma error_message_sources_witness :
  error_message 422 (JObj [("message", JStr "key too long");
                           ("error", JStr "invalid")])
  = JStr "key too long" /\
  error_message 422 (JObj [("message", JNull); ("error", JStr "invalid")])
  = JStr "invalid" /\
  error_message 502 (parseBody (Some "Bad Gateway")) = JStr "Bad Gateway".
Proof.
  split; [|split].
  - apply (proj1 (error_message_sources 422 _)); reflexivity.
  - apply (proj1 (proj2 (error_message_sources 422 _))); reflexivity.
  - apply (proj1 (proj2 (proj2 (proj2 (error_message_sources 502 JNull)))));
      [discriminate|reflexivity].
Defined.

(** ** Configuration *)

Lemma string_or_unset (o : option string) (d : string) :
  unset o -> string_or o d = d.
Proof. intros [->| ->]; reflexivity. Qed.

Lemma string_or_set (o : option string) (s d : string) :
  o = Some s -> s <> "" -> string_or o d = s.
Proof.
  intros -> Hne. cbn. destruct (String.eqb_spec s ""); [contradiction|].
  reflexivity.
Qed.

Lemma strip_trailing_slash_app (b : string) :
  strip_trailing_slash (b ++ "/") = b.
Proof.
  induction b as [|c b IH]; [reflexivity|].
  cbn [append strip_trailing_slash]. rewrite IH.
  destruct b; reflexivity.
Qed.

Lemma strip_trailing_slash_other (b : string) (c : ascii) :
  c <> "/"%char ->
  strip_trailing_slash (b ++ String c "") = b ++ String c "".
Proof.
  intros Hc. induction b as [|c' b IH].
  - cbn. destruct (Ascii.eqb_spec c "/"); [contradiction|reflexivity].
  - cbn [append strip_trailing_slash]. rewrite IH.
    destruct b; reflexivity.
Qed.

Lemma header_api_key (cfg : Config) (data : option Record) :
  header "X-API-Key" (headers_of cfg data)
  = if (apiKey cfg =? "")%string then None else Some (apiKey cfg).
Proof.
  unfold headers_of. destruct (apiKey cfg =? "")%string; destruct data;
    reflexivity.
Qed.

(** X10: the API key of a client is the one of the options when that is
    not empty, else the one of the environment when that is not empty,
    else the empty string; and the requests of the client carry exactly
    that key, or no API-key header when it is empty. *)
Theorem api_key_resolution (env_api_key : option string)
  (options : AnchorConfig.t) (data : option Record) :
  let cfg := Anchor_config env_api_key (Some options) in
  (forall k, AnchorConfig.apiKey options = Some k -> k <> "" ->
     apiKey cfg = k /\
     header "X-API-Key" (headers_of cfg data) = Some k) /\
  (forall k, unset (AnchorConfig.apiKey options) ->
     env_api_key = Some k -> k <> "" ->
     apiKey cfg = k /\
     header "X-API-Key" (headers_of cfg data) = Some k) /\
  (unset (AnchorConfig.apiKey options) -> unset env_api_key ->
     apiKey cfg = "" /\
     header "X-API-Key" (headers_of cfg data) = None).
Proof.
  intros cfg. rewrite header_api_key.
  unfold cfg, Anchor_config, http_config, normalizeConfig.
  cbn [apiKey ClientConfig.apiKey].
  split; [|split].
  - intros k Hk Hne. rewrite (string_or_set _ k _ Hk Hne).
    destruct (String.eqb_spec k ""); [contradiction|]. split; reflexivity.
  - intros k Ho He Hne. rewrite (string_or_unset _ _ Ho).
    rewrite (string_or_set _ k _ He Hne).
    destruct (String.eqb_spec k ""); [contradiction|]. split; reflexivity.
  - intros Ho He. rewrite (string_or_unset _ _ Ho), (string_or_unset _ _ He).
    split; reflexivity.
Qed.

Lemma api_key_resolution_witness :
  apiKey (Anchor_config (Some "anc_env_key") (Some no_options))
  = "anc_env_key" /\
  header "X-API-Key"
         (headers_of (Anchor_config None (Some no_options)) None) = None.
Proof.
  split.
  - apply (proj1 (proj2 (api_key_resolution (Some "anc_env_key") no_options
                           None)) "anc_env_key");
      [left; reflexivity|reflexivity|discriminate].
  - apply (proj2 (proj2 (api_key_resolution None no_options None)));
      left; reflexivity.
Defined.

Lemma string_or_undefined_unset (o : option string) :
  unset o -> string_or_undefined o None = None.
Proof. intros [->| ->]; reflexivity. Qed.

Lemma string_or_undefined_set (o : option string) (s : string) :
  o = Some s -> s <> "" -> string_or_undefined o None = Some s.
Proof.
  intros -> Hne. cbn. destruct (String.eqb_spec s ""); [contradiction|].
  reflexivity.
Qed.

Lemma append_nonempty (b : string) (c : ascii) :
  ((b ++ String c "") =? "")%string = false.
Proof. destruct b; reflexivity. Qed.

(** X11: a client honours [retryAttempts] as given, zero included, and
    retries three times when it is not given; a [timeout] or [retryDelay]
    of zero is replaced by the default (30000 and 1000) as if it were not
    given.  A client built with [retryAttempts: 0] makes at most one
    attempt per call and never sleeps. *)
Theorem retry_settings_of_client {RT : Runtime} (env_api_key : option string)
  (options : AnchorConfig.t) (transport : Transport) (meth endpoint : string)
  (data : option Record) (params : option Params) :
  let cfg := Anchor_config env_api_key (Some options) in
  let run := request transport cfg meth endpoint data params in
  effective_retryAttempts cfg
  = match AnchorConfig.retryAttempts options with
    | Some n => n
    | None => 3
    end /\
  effective_timeout cfg
  = match AnchorConfig.timeout options with
    | Some n => if n =? 0 then 30000 else n
    | None => 30000
    end /\
  effective_retryDelay cfg
  = match AnchorConfig.retryDelay options with
    | Some n => if n =? 0 then 1000 else n
    | None => 1000
    end /\
  (AnchorConfig.retryAttempts options = Some 0 ->
   (length (trace run) <= 1)%nat /\ total_sleep (trace run) = 0).
Proof.
  intros cfg run.
  assert (HR : effective_retryAttempts cfg
               = match AnchorConfig.retryAttempts options with
                 | Some n => n
                 | None => 3
                 end).
  { unfold cfg, Anchor_config, http_config, normalizeConfig,
      effective_retryAttempts. cbn.
    destruct (AnchorConfig.retryAttempts options); reflexivity. }
  split; [exact HR|]. split; [|split].
  - unfold cfg, Anchor_config, http_config, normalizeConfig,
      effective_timeout. cbn.
    destruct (AnchorConfig.timeout options); reflexivity.
  - unfold cfg, Anchor_config, http_config, normalizeConfig,
      effective_retryDelay. cbn.
    destruct (AnchorConfig.retryDelay options); reflexivity.
  - intros H0. rewrite H0 in HR. unfold run.
    destruct (request_cases transport cfg meth endpoint data params)
      as [(e & Heq)|(query & _ & _ & Heq)]; rewrite Heq;
      [cbn; split; [lia|reflexivity]|].
    rewrite HR. split.
    + apply (attempts_length_le transport cfg _ (Z.to_nat (0 + 1)) 0 None).
    + destruct (attempts_total_sleep transport cfg
                  (fetch_call cfg meth endpoint data query)
                  (Z.to_nat (0 + 1)) 0 None ltac:(lia)) as (k & Hk & ->).
      rewrite HR in Hk. assert (k = O) by lia. subst k. cbn. ring.
Qed.

Lemma retry_settings_of_client_witness :
  let options :=
    {| AnchorConfig.apiKey := Some "anc_test_key";
       AnchorConfig.baseUrl := None; AnchorConfig.region := None;
       AnchorConfig.timeout := Some 0;
       AnchorConfig.retryAttempts := Some 0;
       AnchorConfig.retryDelay := Some 0;
       AnchorConfig.batchSize := None; AnchorConfig.cachePolicies := None;
       AnchorConfig.verifySsl := None; AnchorConfig.logLevel := None |} in
  let run := request unreachable (Anchor_config None (Some options))
               "GET" "/agents" None None in
  (length (trace run) <= 1)%nat /\ total_sleep (trace run) = 0.
Proof.
  intros options run.
  apply (proj2 (proj2 (proj2 (retry_settings_of_client None options
                                unreachable "GET" "/agents" None None)))).
  reflexivity.
Defined.

(** X12: the base URL of a client is the given one without one trailing
    slash; with a region and no base URL of its own it is the regional
    endpoint, and the region is ignored for a base URL that does not
    contain the Anchor API host; a base URL of ["/"] normalizes to the
    empty string, for which the pipeline falls back to the production
    endpoint. *)
Theorem base_url_normalization (env_api_key : option string)
  (options : AnchorConfig.t) :
  let c := normalizeConfig env_api_key options in
  (forall b, AnchorConfig.baseUrl options = Some (b ++ "/") ->
     unset (AnchorConfig.region options) ->
     ClientConfig.baseUrl c = Some b) /\
  (forall b ch, AnchorConfig.baseUrl options = Some (b ++ String ch "") ->
     ch <> "/"%char ->
     unset (AnchorConfig.region options) ->
     ClientConfig.baseUrl c = Some (b ++ String ch "")) /\
  (forall r, AnchorConfig.region options = Some r -> r <> "" ->
     unset (AnchorConfig.baseUrl options) ->
     ClientConfig.baseUrl c = Some ("https://" ++ r ++ ".api.getanchor.dev")) /\
  (forall r b, AnchorConfig.region options = Some r -> r <> "" ->
     AnchorConfig.baseUrl options = Some b -> b <> "" ->
     includes "api.getanchor.dev" (strip_trailing_slash b) = false ->
     ClientConfig.baseUrl c = Some (strip_trailing_slash b)) /\
  (AnchorConfig.baseUrl options = Some "/" ->
     unset (AnchorConfig.region options) ->
     ClientConfig.baseUrl c = Some "" /\
     effective_baseUrl (http_config c) = "https://api.getanchor.dev").
Proof.
  intros c. unfold c, normalizeConfig. cbn [ClientConfig.baseUrl].
  change (AnchorConfig.region DEFAULT_CONFIG) with (@None string).
  change (string_or (AnchorConfig.baseUrl DEFAULT_CONFIG)
            "https://api.getanchor.dev") with "https://api.getanchor.dev".
  split; [|split; [|split; [|split]]].
  - intros b Hb Hr. rewrite (string_or_undefined_unset _ Hr).
    rewrite (string_or_set _ (b ++ "/") _ Hb)
      by (destruct b; discriminate).
    rewrite append_nonempty. cbn [negb].
    rewrite strip_trailing_slash_app. reflexivity.
  - intros b ch Hb Hch Hr. rewrite (string_or_undefined_unset _ Hr).
    rewrite (string_or_set _ (b ++ String ch "") _ Hb)
      by (destruct b; discriminate).
    rewrite append_nonempty. cbn [negb].
    rewrite strip_trailing_slash_other by exact Hch. reflexivity.
  - intros r Hr Hne Hb. rewrite (string_or_undefined_set _ r Hr Hne).
    rewrite (string_or_unset _ _ Hb).
    destruct (String.eqb_spec r ""); [contradiction|]. reflexivity.
  - intros r b Hr Hne Hb Hbne Hinc.
    rewrite (string_or_undefined_set _ r Hr Hne).
    rewrite (string_or_set _ b _ Hb Hbne).
    destruct (String.eqb_spec b ""); [contradiction|]. cbn [negb].
    rewrite Hinc, andb_false_r. reflexivity.
  - intros Hb Hr. rewrite (string_or_undefined_unset _ Hr).
    rewrite (string_or_set _ "/" _ Hb) by discriminate.
    split; reflexivity.
Qed.

Lemma base_url_normalization_witness :
  let regional :=
    {| AnchorConfig.apiKey := None; AnchorConfig.baseUrl := None;
       AnchorConfig.region := Some "eu"; AnchorConfig.timeout := None;
       AnchorConfig.retryAttempts := None; AnchorConfig.retryDelay := None;
       AnchorConfig.batchSize := None; AnchorConfig.cachePolicies := None;
       AnchorConfig.verifySsl := None; AnchorConfig.logLevel := None |} in
  let local :=
    {| AnchorConfig.apiKey := None;
       AnchorConfig.baseUrl := Some "http://localhost:5050/";
       AnchorConfig.region := None; AnchorConfig.timeout := None;
       AnchorConfig.retryAttempts := None; AnchorConfig.retryDelay := None;
       AnchorConfig.batchSize := None; AnchorConfig.cachePolicies := None;
       AnchorConfig.verifySsl := None; AnchorConfig.logLevel := None |} in
  ClientConfig.baseUrl (normalizeConfig None regional)
  = Some "https://eu.api.getanchor.dev" /\
  ClientConfig.baseUrl (normalizeConfig None local)
  = Some "http://localhost:5050".
Proof.
  intros regional local. split.
  - apply (proj1 (proj2 (proj2 (base_url_normalization None regional)))
             "eu"); [reflexivity|discriminate|left; reflexivity].
  - apply (proj1 (base_url_normalization None local)
             "http://localhost:5050"); [reflexivity|left; reflexivity].
Defined.

(** ** Namespace facades, on success *)

Section FacadeResults.

Context {RT : Runtime}.

Lemma map_result_returns {A B : Type} (f : A -> Result B) (items : list A) :
  forall out,
    map_result f items = Return out <->
    Forall2 (fun x y => f x = Return y) items out.
Proof.
  induction items as [|x items IH]; intros out; cbn [map_result].
  - split; intros H.
    + injection H as <-. constructor.
    + inversion H. reflexivity.
  - split; intros H.
    + destruct (f x) as [y|e] eqn:Hx; cbn [bind] in H; [|discriminate].
      destruct (map_result f items) as [ys|e] eqn:Hr; cbn [bind] in H;
        [|discriminate].
      injection H as <-. constructor; [exact Hx|]. apply IH. reflexivity.
    + inversion H as [|x' y items' ys Hx Hrest]; subst.
      rewrite Hx. cbn [bind]. apply IH in Hrest. rewrite Hrest. reflexivity.
Qed.

Lemma map_result_throws {A B : Type} (f : A -> Result B) (items : list A)
  (e : Error) :
  map_result f items = Throw e -> exists x, In x items /\ f x = Throw e.
Proof.
  induction items as [|x items IH]; cbn [map_result]; [discriminate|].
  destruct (f x) as [y|e'] eqn:Hx; cbn [bind].
  - destruct (map_result f items) as [ys|e'] eqn:Hr; cbn [bind];
      [discriminate|].
    intros H. injection H as ->.
    destruct (IH eq_refl) as (x' & Hin & Hx').
    exists x'. split; [right; exact Hin|exact Hx'].
  - intros H. injection H as ->. exists x. split; [left; reflexivity|exact Hx].
Qed.

Lemma map_result_fails {A B : Type} (f : A -> Result B) (items : list A)
  (x : A) (e : Error) :
  In x items -> f x = Throw e -> exists e', map_result f items = Throw e'.
Proof.
  intros Hin Hx. induction items as [|x0 items IH]; [destruct Hin|].
  cbn [map_result]. destruct Hin as [->|Hin].
  - rewrite Hx. eexists. reflexivity.
  - destruct (f x0); cbn [bind]; [|eexists; reflexivity].
    destruct (IH Hin) as (e' & ->). eexists. reflexivity.
Qed.

(** [items.map(f)], for an [f] that throws on [null] and throws nothing
    but [TypeError]s. *)
Lemma map_result_elementwise {A : Type} (f : json -> Result A)
  (items : list json) :
  (forall v e, f v = Throw e -> is_TypeError e) ->
  (exists e, f JNull = Throw e) ->
  elementwise f items (map_result f items).
Proof.
  intros Herr (e0 & Hnull). split.
  - apply map_result_returns.
  - intros Hin. destruct (map_result_fails f items JNull e0 Hin Hnull)
      as (e & He).
    exists e. split; [exact He|].
    destruct (map_result_throws f items e He) as (x & _ & Hx).
    exact (Herr x e Hx).
Qed.

Lemma map_prop_missing {B : Type} (response : json) (k : string)
  (f : json -> Result B) :
  response <> JNull ->
  truthy_opt (prop response k) = false ->
  map_prop response k f = Return [].
Proof.
  intros Hn Hk. unfold map_prop, read_prop.
  destruct response; try contradiction; cbn [bind];
    destruct (prop _ k) as [v|]; try reflexivity;
    cbn in Hk; rewrite Hk; reflexivity.
Qed.

Lemma map_prop_array {B : Type} (response : json) (k : string)
  (f : json -> Result B) (items : list json) :
  prop response k = Some (JArr items) ->
  map_prop response k f = map_result f items.
Proof.
  intros Hk. unfold map_prop, read_prop.
  destruct response; try discriminate. cbn [bind]. rewrite Hk. reflexivity.
Qed.

(** The only exception of [x ? new Date(x) : undefined]. *)
Lemma date_of_error (wire : option json) (e : Error) :
  date_of wire = Throw e -> e = TypeError_primitive.
Proof.
  intros H. destruct (convertible_opt wire) eqn:Hc.
  - destruct (date_of_returns wire Hc) as (d & Hd). congruence.
  - rewrite (date_of_throws wire Hc) in H. congruence.
Qed.

End FacadeResults.

(** What a normalizer threw: the [TypeError] of a timestamp. *)
Ltac thrown H :=
  unfold parseAgent, parseConfig, parseConfigVersion, parseWriteResult,
    parseDataEntry, parseCheckpoint, parseRestoreResult, parseAuditEvent,
    parseVerification in H;
  repeat match type of H with
         | context [bind (date_of ?x) _] =>
             let d := fresh "d" in
             let Hd := fresh "Hd" in
             destruct (date_of x) as [d|?] eqn:Hd; cbn [bind] in H;
             [|injection H as <-; exact (date_of_error _ _ Hd)]
         end;
  discriminate H.

Section NormalizerErrors.

Context {RT : Runtime}.

Lemma parseAgent_error (data : Record) (e : Error) :
  parseAgent data = Throw e -> e = TypeError_primitive.
Proof. intros H. thrown H. Qed.

Lemma parseConfig_error (data : Record) (e : Error) :
  parseConfig data = Throw e -> e = TypeError_primitive.
Proof. intros H. thrown H. Qed.

Lemma parseConfigVersion_error (data : Record) (e : Error) :
  parseConfigVersion data = Throw e -> e = TypeError_primitive.
Proof. intros H. thrown H. Qed.

Lemma parseWriteResult_error (data : Record) (e : Error) :
  parseWriteResult data = Throw e -> e = TypeError_primitive.
Proof. intros H. thrown H. Qed.

Lemma parseDataEntry_error (data : Record) (e : Error) :
  parseDataEntry data = Throw e -> e = TypeError_primitive.
Proof. intros H. thrown H. Qed.

Lemma parseCheckpoint_error (data : Record) (e : Error) :
  parseCheckpoint data = Throw e -> e = TypeError_primitive.
Proof. intros H. thrown H. Qed.

Lemma parseRestoreResult_error (data : Record) (e : Error) :
  parseRestoreResult data = Throw e -> e = TypeError_primitive.
Proof. intros H. thrown H. Qed.

Lemma parseAuditEvent_error (data : Record) (e : Error) :
  parseAuditEvent data = Throw e -> e = TypeError_primitive.
Proof. intros H. thrown H. Qed.

Lemma parseVerification_error (data : Record) (e : Error) :
  parseVerification data = Throw e -> e = TypeError_primitive.
Proof. intros H. thrown H. Qed.

Lemma verification_of_error (wire : option json) (e : Error) :
  verification_of wire = Throw e -> e = TypeError_primitive.
Proof.
  unfold verification_of. destruct wire as [v|]; [|discriminate].
  destruct (truthy v); [|discriminate].
  destruct (parseVerification (props_of v)) as [n|e'] eqn:Hp; cbn [bind];
    [discriminate|].
  intros H. injection H as <-. exact (parseVerification_error _ _ Hp).
Qed.

Lemma parseExportResult_error (data : Record) (e : Error) :
  parseExportResult data = Throw e -> e = TypeError_primitive.
Proof.
  unfold parseExportResult. intros H.
  destruct (date_of (lookup "expires_at" data)) as [d|e'] eqn:Hd;
    cbn [bind] in H; [|injection H as <-; exact (date_of_error _ _ Hd)].
  destruct (verification_of (lookup "verification" data)) as [n|e'] eqn:Hn;
    cbn [bind] in H; [discriminate|].
  injection H as <-. exact (verification_of_error _ _ Hn).
Qed.

(** A normalizer applied to an element throws nothing but [TypeError]s. *)
Lemma normalize_error {A : Type} (parse : Record -> Result A) :
  (forall data e, parse data = Throw e -> e = TypeError_primitive) ->
  forall v e, normalize parse v = Throw e -> is_TypeError e.
Proof.
  intros Hparse v e H. destruct v; cbn [normalize] in H;
    try (rewrite (Hparse _ _ H); eexists; reflexivity).
  injection H as <-. eexists. reflexivity.
Qed.

Lemma total_error {A : Type} (parse : Record -> A) (data : Record) (e : Error) :
  total parse data = Throw e -> e = TypeError_primitive.
Proof. discriminate. Qed.

Lemma key_of_error (k : json) (e : Error) :
  key_of k = Throw e -> is_TypeError e.
Proof.
  unfold key_of, read_prop. destruct k; cbn [bind]; try discriminate.
  intros H. injection H as <-. eexists. reflexivity.
Qed.

End NormalizerErrors.

Ltac facade_returns H :=
  intros;
  repeat match goal with
         | U : usable_date (Some {| time_value := None |}) |- _ =>
             exfalso; exact (U _ eq_refl eq_refl)
         | d : option Date |- _ => destruct d as [[[?|]]|]
         end;
  cbv beta delta
    [AgentsNamespace_create AgentsNamespace_get AgentsNamespace_list
     AgentsNamespace_update AgentsNamespace_delete AgentsNamespace_suspend
     AgentsNamespace_activate ConfigNamespace_get ConfigNamespace_update
     ConfigNamespace_versions ConfigNamespace_getVersion
     ConfigNamespace_rollback DataNamespace_write DataNamespace_writeBatch
     DataNamespace_read DataNamespace_readFull DataNamespace_delete
     DataNamespace_deletePrefix DataNamespace_list DataNamespace_search
     CheckpointsNamespace_create CheckpointsNamespace_list
     CheckpointsNamespace_get CheckpointsNamespace_restore
     CheckpointsNamespace_delete AuditNamespace_query AuditNamespace_get
     AuditNamespace_verify AuditNamespace_export
     http_get http_post http_put http_patch http_delete];
  cbn [iso_field toISOString time_value bind];
  rewrite H; cbn [bind null_if_not_found].

(** X13: a collection facade returns the empty list, not [null] and not
    an error, when the response has no such collection (the field is
    missing or falsy), as for the empty body [{}].  For [data.list] the
    response must not be an array: the [keys] of an array is the method of
    that name, and the facade throws a [TypeError]. *)
Theorem collections_default_to_empty {RT : Runtime} (http : HttpClient)
  (response : json) :
  (forall meth endpoint data params,
      http meth endpoint data params = Return response) ->
  response <> JNull ->
  (truthy_opt (prop response "agents") = false ->
   forall status limit offset,
     AgentsNamespace_list http status limit offset = Return []) /\
  (truthy_opt (prop response "versions") = false ->
   forall agentId limit,
     ConfigNamespace_versions http agentId limit = Return []) /\
  (truthy_opt (prop response "results") = false ->
   forall agentId items,
     DataNamespace_writeBatch http agentId items = Return []) /\
  (truthy_opt (prop response "keys") = false ->
   (forall items, response <> JArr items) ->
   forall agentId prefix limit,
     DataNamespace_list http agentId prefix limit = Return []) /\
  (forall items, response = JArr items ->
   forall agentId prefix limit,
     DataNamespace_list http agentId prefix limit = Throw TypeError_map) /\
  (truthy_opt (prop response "results") = false ->
   forall agentId query limit prefix minSimilarity,
     DataNamespace_search http agentId query limit prefix minSimilarity
     = Return []) /\
  (truthy_opt (prop response "checkpoints") = false ->
   forall agentId limit,
     CheckpointsNamespace_list http agentId limit = Return []) /\
  (truthy_opt (prop response "events") = false ->
   forall agentId operations startTime endTime limit,
     usable_date startTime -> usable_date endTime ->
     AuditNamespace_query http agentId operations startTime endTime limit
     = Return []).
Proof.
  intros H Hn. repeat apply conj; intros Hk; facade_returns H;
    try (apply map_prop_missing; assumption).
  - destruct response; try (apply map_prop_missing; assumption).
    exfalso. eapply H0. reflexivity.
  - subst response. reflexivity.
Qed.

Lemma collections_default_to_empty_witness :
  AgentsNamespace_list (replying empty_object) None None None = Return [] /\
  DataNamespace_list (replying empty_object) "agent_123" (Some "chat:") None
  = Return [] /\
  DataNamespace_list (replying (JArr [])) "agent_123" (Some "chat:") None
  = Throw TypeError_map.
Proof.
  destruct (collections_default_to_empty (replying empty_object) empty_object
              ltac:(reflexivity) ltac:(discriminate))
    as (Hagents & _ & _ & Hkeys & _).
  destruct (collections_default_to_empty (replying (JArr [])) (JArr [])
              ltac:(reflexivity) ltac:(discriminate))
    as (_ & _ & _ & _ & Harray & _).
  split; [|split].
  - apply Hagents. reflexivity.
  - apply Hkeys; [reflexivity|discriminate].
  - apply (Harray []). reflexivity.
Defined.

(** X14: a collection facade normalizes the elements of the response's
    array one by one, in order: it returns a list exactly when every
    element normalizes, with the normalized elements one for one, and a
    [null] element makes it throw a [TypeError]. *)
Theorem collections_keep_order {RT : Runtime} (http : HttpClient)
  (response : json) (items : list json) :
  (forall meth endpoint data params,
      http meth endpoint data params = Return response) ->
  (prop response "agents" = Some (JArr items) ->
   forall status limit offset,
     elementwise (normalize parseAgent) items
       (AgentsNamespace_list http status limit offset)) /\
  (prop response "versions" = Some (JArr items) ->
   forall agentId limit,
     elementwise (normalize parseConfigVersion) items
       (ConfigNamespace_versions http agentId limit)) /\
  (prop response "results" = Some (JArr items) ->
   forall agentId entries,
     elementwise (normalize parseWriteResult) items
       (DataNamespace_writeBatch http agentId entries)) /\
  (prop response "results" = Some (JArr items) ->
   forall agentId query limit prefix minSimilarity,
     elementwise (normalize (total parseSearchResult)) items
       (DataNamespace_search http agentId query limit prefix minSimilarity)) /\
  (prop response "checkpoints" = Some (JArr items) ->
   forall agentId limit,
     elementwise (normalize parseCheckpoint) items
       (CheckpointsNamespace_list http agentId limit)) /\
  (prop response "events" = Some (JArr items) ->
   forall agentId operations startTime endTime limit,
     usable_date startTime -> usable_date endTime ->
     elementwise (normalize parseAuditEvent) items
       (AuditNamespace_query http agentId operations startTime endTime
          limit)) /\
  (prop response "keys" = Some (JArr items) ->
   forall agentId prefix limit,
     elementwise key_of items
       (DataNamespace_list http agentId prefix limit)).
Proof.
  intros H. repeat apply conj; intros Hk; facade_returns H.
  all: try (rewrite (map_prop_array _ _ _ _ Hk);
            apply map_result_elementwise;
            [apply normalize_error;
             first [exact parseAgent_error | exact parseConfigVersion_error
                   | exact parseWriteResult_error | exact parseCheckpoint_error
                   | exact parseAuditEvent_error | apply total_error]
            |eexists; reflexivity]).
  destruct response; try discriminate.
  rewrite (map_prop_array _ _ _ _ Hk). apply map_result_elementwise.
  - exact key_of_error.
  - eexists. reflexivity.
Qed.

Lemma collections_keep_order_witness :
  let response :=
    JObj [("results", JArr [JObj sample_search_result; JObj []])] in
  DataNamespace_search (replying response) "agent_123" "language"
    None None None
  = Return [parseSearchResult sample_search_result; parseSearchResult []] /\
  exists e,
    DataNamespace_list (replying (JObj [("keys", JArr [JNull])])) "agent_123"
      None None = Throw e /\ is_TypeError e.
Proof.
  intros response. split.
  - destruct (collections_keep_order (replying response) response
                [JObj sample_search_result; JObj []] ltac:(reflexivity))
      as (_ & _ & _ & Hsearch & _).
    apply (proj1 (Hsearch eq_refl "agent_123" "language" None None None)).
    repeat constructor.
  - destruct (collections_keep_order
                (replying (JObj [("keys", JArr [JNull])]))
                (JObj [("keys", JArr [JNull])]) [JNull] ltac:(reflexivity))
      as (_ & _ & _ & _ & _ & _ & Hkeys).
    apply (proj2 (Hkeys eq_refl "agent_123" None None)). left. reflexivity.
Defined.

(** X15: a delete facade returns [true] for every successful response,
    whatever its body; [deletePrefix] returns the [deleted_count] of the
    body, and [0] when that is missing or falsy. *)
Theorem deletes_report_success {RT : Runtime} (http : HttpClient)
  (response : json) :
  (forall meth endpoint data params,
      http meth endpoint data params = Return response) ->
  (forall agentId, AgentsNamespace_delete http agentId = Return true) /\
  (forall agentId key, DataNamespace_delete http agentId key = Return true) /\
  (forall agentId checkpointId,
      CheckpointsNamespace_delete http agentId checkpointId = Return true) /\
  (forall n agentId prefix,
      prop response "deleted_count" = Some n -> truthy n = true ->
      DataNamespace_deletePrefix http agentId prefix = Return n) /\
  (forall agentId prefix,
      response <> JNull ->
      truthy_opt (prop response "deleted_count") = false ->
      DataNamespace_deletePrefix http agentId prefix = Return (JNum 0)).
Proof.
  intros H. repeat apply conj; facade_returns H; try reflexivity.
  - unfold read_prop. destruct response; try discriminate.
    cbn [bind]. rewrite H0. cbn. rewrite H1. reflexivity.
  - unfold read_prop. destruct response; try contradiction; cbn [bind];
      destruct (prop _ "deleted_count") as [v|]; try reflexivity;
      cbn in *; rewrite H1; reflexivity.
Qed.

Lemma deletes_report_success_witness :
  DataNamespace_deletePrefix (replying (JObj [("deleted_count", JNum 3)]))
    "agent_123" "chat:" = Return (JNum 3) /\
  DataNamespace_deletePrefix (replying empty_object) "agent_123" "chat:"
  = Return (JNum 0).
Proof.
  split.
  - apply (proj1 (proj2 (proj2 (proj2
             (deletes_report_success
                (replying (JObj [("deleted_count", JNum 3)])) _
                ltac:(reflexivity)))))
             (JNum 3)); reflexivity.
  - apply (proj2 (proj2 (proj2 (proj2
             (deletes_report_success (replying empty_object) empty_object
                ltac:(reflexivity))))));
      [discriminate|reflexivity].
Defined.

(** X16: [data.read] returns the [value] of the response as it is, the
    empty string included, and [null] when the response has no [value] or
    a [null] one. *)
Theorem read_returns_value_or_null {RT : Runtime} (http : HttpClient)
  (response : json) (agentId key : string) :
  (forall meth endpoint data params,
      http meth endpoint data params = Return response) ->
  response <> JNull ->
  (forall v, prop response "value" = Some v ->
             DataNamespace_read http agentId key = Return v) /\
  (prop response "value" = None ->
   DataNamespace_read http agentId key = Return JNull).
Proof.
  intros H Hn. split; [intros v Hv|intros Hv]; facade_returns H;
    unfold read_prop; destruct response; try contradiction;
      cbn [bind]; rewrite Hv; reflexivity.
Qed.

Lemma read_returns_value_or_null_witness :
  DataNamespace_read (replying (JObj [("value", JStr "")])) "agent_123"
    "user:1:note" = Return (JStr "") /\
  DataNamespace_read (replying empty_object) "agent_123" "user:1:note"
  = Return JNull.
Proof.
  split.
  - apply (proj1 (read_returns_value_or_null
                    (replying (JObj [("value", JStr "")])) _ "agent_123"
                    "user:1:note" ltac:(reflexivity) ltac:(discriminate)));
      reflexivity.
  - apply (proj2 (read_returns_value_or_null (replying empty_object)
                    empty_object "agent_123" "user:1:note"
                    ltac:(reflexivity) ltac:(discriminate)));
      reflexivity.
Defined.

(** Through the pipeline: an empty 200 gives an empty collection, a zero
    count and a [null] value. *)
Example empty_bodies_through_the_pipeline :
  let http := client (answering 200 "") sample_config in
  AgentsNamespace_list http None None None = Return [] /\
  DataNamespace_list http "agent_123" (Some "chat:") None = Return [] /\
  DataNamespace_deletePrefix http "agent_123" "chat:" = Return (JNum 0) /\
  DataNamespace_read http "agent_123" "user:1:note" = Return JNull.
Proof. repeat split; reflexivity. Qed.

Section Envelope.

Context {RT : Runtime}.

Lemma agent_of_response_enveloped (response : json) (fields : Record) :
  prop response "agent" = Some (JObj fields) ->
  agent_of_response response = parseAgent fields.
Proof.
  intros H. unfold agent_of_response, read_prop, js_or.
  destruct response; try discriminate. cbn [bind]. rewrite H. reflexivity.
Qed.

Lemma agent_of_response_bare (fields : Record) :
  truthy_opt (lookup "agent" fields) = false ->
  agent_of_response (JObj fields) = parseAgent fields.
Proof.
  intros H. unfold agent_of_response, read_prop, js_or. cbn [bind prop].
  rewrite H. reflexivity.
Qed.

End Envelope.

(** X17: the agent facades accept both wire shapes: a response that has
    an [agent] object, wherever in the response, gives the normalization
    of that object, and a response without a truthy [agent] gives the
    normalization of the response itself; the [TypeError] of a timestamp
    passes through, also through [get]. *)
Theorem agent_envelope_is_optional {RT : Runtime} (http : HttpClient)
  (response : json) (fields : Record) :
  (forall meth endpoint data params,
      http meth endpoint data params = Return response) ->
  prop response "agent" = Some (JObj fields) \/
  (response = JObj fields /\ truthy_opt (lookup "agent" fields) = false) ->
  (forall name metadata,
      AgentsNamespace_create http name metadata = parseAgent fields) /\
  (forall agentId,
      AgentsNamespace_get http agentId
      = let* agent := parseAgent fields in Return (Some agent)) /\
  (forall agentId metadata,
      AgentsNamespace_update http agentId metadata = parseAgent fields) /\
  (forall agentId, AgentsNamespace_suspend http agentId = parseAgent fields) /\
  (forall agentId, AgentsNamespace_activate http agentId = parseAgent fields).
Proof.
  intros H Hshape.
  assert (Ha : agent_of_response response = parseAgent fields).
  { destruct Hshape as [Hp|(-> & Hb)].
    - apply agent_of_response_enveloped. exact Hp.
    - apply agent_of_response_bare. exact Hb. }
  repeat apply conj; facade_returns H; rewrite Ha; try reflexivity.
  destruct (parseAgent fields) as [agent|e] eqn:Hp; [reflexivity|].
  rewrite (parseAgent_error _ _ Hp). reflexivity.
Qed.

Lemma agent_envelope_is_optional_witness :
  let enveloped :=
    JObj [("request_id", JStr "req_1"); ("agent", JObj sample_agent)] in
  AgentsNamespace_get (replying enveloped) "agent_123"
  = AgentsNamespace_get (replying (JObj sample_agent)) "agent_123" /\
  AgentsNamespace_create (replying enveloped) "test-agent" None
  = parseAgent sample_agent.
Proof.
  intros enveloped.
  destruct (agent_envelope_is_optional (replying enveloped) enveloped
              sample_agent ltac:(reflexivity) (or_introl eq_refl))
    as (Hcreate & Hget & _).
  destruct (agent_envelope_is_optional (replying (JObj sample_agent))
              (JObj sample_agent) sample_agent ltac:(reflexivity)
              (or_intror (conj eq_refl eq_refl)))
    as (_ & Hget' & _).
  split.
  - rewrite (Hget "agent_123"), (Hget' "agent_123"). reflexivity.
  - exact (Hcreate "test-agent" None).
Defined.

(** ** Domain normalizers, continued *)

Lemma or_else_settled (wire : option json) (zero : json) :
  settled (or_else wire zero) zero.
Proof.
  unfold settled, or_else. destruct wire as [v|]; [|right; reflexivity].
  destruct (truthy v) eqn:E; [left; exact E|right; reflexivity].
Qed.

Lemma settled_not_null (v zero : json) :
  settled v zero -> zero <> JNull -> v <> JNull.
Proof. intros [H|H] Hz ->; [discriminate|auto]. Qed.

Ltac settled_fields :=
  let r := fresh "r" in
  let H := fresh "H" in
  intros r H; returned H; cbn; repeat apply conj; apply or_else_settled.

(** X18: whatever the payload, every field that a normalizer gives a
    default holds, in the entity it returns, either a truthy value of the
    payload or that default: never [null], and no falsy value other than
    the default. *)
Theorem defaulted_fields_are_settled {RT : Runtime} (data : Record) :
  (forall r, parseAgent data = Return r ->
     settled (Agent.id r) (JStr "") /\
     settled (Agent.name r) (JStr "") /\
     settled (Agent.status r) (JStr "active") /\
     settled (Agent.metadata r) (empty_object)) /\
  (forall r, parseConfig data = Return r ->
     settled (AgentConfig.agentId r) (JStr "") /\
     settled (AgentConfig.version r) (JStr "") /\
     settled (AgentConfig.config r) (empty_object)) /\
  (forall r, parseConfigVersion data = Return r ->
     settled (ConfigVersion.version r) (JStr "")) /\
  (forall r, parseWriteResult data = Return r ->
     settled (WriteResult.key r) (JStr "") /\
     settled (WriteResult.auditId r) (JStr "")) /\
  (forall r, parseDataEntry data = Return r ->
     settled (DataEntry.key r) (JStr "") /\
     settled (DataEntry.value r) (JStr "") /\
     settled (DataEntry.metadata r) (empty_object) /\
     settled (DataEntry.auditId r) (JStr "")) /\
  (settled (SearchResult.key (parseSearchResult data)) (JStr "") /\
   settled (SearchResult.value (parseSearchResult data)) (JStr "") /\
   settled (SearchResult.similarity (parseSearchResult data)) (JNum 0) /\
   settled (SearchResult.metadata (parseSearchResult data)) (empty_object)) /\
  (settled (DataSnapshot.keyCount (parseDataSnapshot data)) (JNum 0) /\
   settled (DataSnapshot.totalSizeBytes (parseDataSnapshot data)) (JNum 0)) /\
  (forall r, parseCheckpoint data = Return r ->
     settled (Checkpoint.id r) (JStr "") /\
     settled (Checkpoint.agentId r) (JStr "") /\
     settled (Checkpoint.configVersion r) (JStr "") /\
     settled (DataSnapshot.keyCount (Checkpoint.dataSnapshot r)) (JNum 0) /\
     settled (DataSnapshot.totalSizeBytes (Checkpoint.dataSnapshot r))
       (JNum 0)) /\
  (forall r, parseRestoreResult data = Return r ->
     settled (RestoreResult.restoredFrom r) (JStr "") /\
     settled (RestoreResult.configRestored r) (JBool false) /\
     settled (RestoreResult.dataRestored r) (JBool false) /\
     settled (RestoreResult.dataKeysRestored r) (JNum 0) /\
     settled (RestoreResult.dataKeysRemoved r) (JNum 0) /\
     settled (RestoreResult.auditId r) (JStr "")) /\
  (forall r, parseAuditEvent data = Return r ->
     settled (AuditEvent.id r) (JStr "") /\
     settled (AuditEvent.agentId r) (JStr "") /\
     settled (AuditEvent.operation r) (JStr "") /\
     settled (AuditEvent.resource r) (JStr "") /\
     settled (AuditEvent.result r) (JStr "allowed") /\
     settled (AuditEvent.hash r) (JStr "") /\
     settled (AuditEvent.metadata r) (empty_object)) /\
  (forall r, parseVerification data = Return r ->
     settled (Verification.valid r) (JBool false) /\
     settled (Verification.eventsChecked r) (JNum 0)) /\
  (forall r, parseExportResult data = Return r ->
     settled (ExportResult.exportId r) (JStr "") /\
     settled (ExportResult.format r) (JStr "json") /\
     settled (ExportResult.downloadUrl r) (JStr "") /\
     settled (ExportResult.eventCount r) (JNum 0)).
Proof.
  repeat apply conj; try apply or_else_settled; settled_fields.
Qed.

Lemma defaulted_fields_are_settled_witness :
  exists r,
    parseAgent [("id", JNull); ("name", JNum 0); ("status", JStr "suspended")]
    = Return r /\
    settled (Agent.id r) (JStr "") /\ settled (Agent.status r) (JStr "active").
Proof.
  eexists. split; [reflexivity|].
  destruct (proj1 (defaulted_fields_are_settled
                     [("id", JNull); ("name", JNum 0);
                      ("status", JStr "suspended")]) _ eq_refl)
    as (Hid & _ & Hstatus & _).
  split; [exact Hid|exact Hstatus].
Defined.

(** X19: a checkpoint always has a data snapshot, with zero counts when
    the payload's [data_snapshot] is missing, falsy or not an object; an
    export result has a verification exactly when the payload's
    [verification] is truthy. *)
Theorem nested_objects_default {RT : Runtime} (data : Record) :
  (forall r, parseCheckpoint data = Return r ->
     (truthy_opt (lookup "data_snapshot" data) = false \/
      (exists v, lookup "data_snapshot" data = Some v /\ props_of v = []) ->
      Checkpoint.dataSnapshot r
      = {| DataSnapshot.keyCount := JNum 0;
           DataSnapshot.totalSizeBytes := JNum 0 |}) /\
     (forall snapshot, lookup "data_snapshot" data = Some (JObj snapshot) ->
      Checkpoint.dataSnapshot r = parseDataSnapshot snapshot)) /\
  (forall r, parseExportResult data = Return r ->
     (ExportResult.verification r = None <->
      truthy_opt (lookup "verification" data) = false) /\
     (forall v, lookup "verification" data = Some v -> truthy v = true ->
      exists n, parseVerification (props_of v) = Return n /\
                ExportResult.verification r = Some n)).
Proof.
  split.
  - intros r H. returned H. cbn [Checkpoint.dataSnapshot]. split.
    + intros [H|(v & Hv & Hp)].
      * destruct (lookup "data_snapshot" data) as [v|]; [|reflexivity].
        cbn in H. cbn [or_else]. rewrite H. reflexivity.
      * rewrite Hv. cbn [or_else]. destruct (truthy v); [|reflexivity].
        rewrite Hp. reflexivity.
    + intros snapshot ->. reflexivity.
  - intros r H. returned H. cbn [ExportResult.verification].
    unfold verification_of in Hn.
    destruct (lookup "verification" data) as [v|]; cbn [truthy_opt].
    + destruct (truthy v) eqn:Hv.
      * destruct (parseVerification (props_of v)) as [n'|e] eqn:Hp;
          cbn [bind] in Hn; [|discriminate].
        injection Hn as <-. split; [split; discriminate|].
        intros v' Hv' _. injection Hv' as <-. exists n'. split; [exact Hp|].
        reflexivity.
      * injection Hn as <-. split; [split; reflexivity|].
        intros v' Hv' Ht. injection Hv' as <-. congruence.
    + injection Hn as <-. split; [split; reflexivity|]. discriminate.
Qed.

Lemma nested_objects_default_witness :
  exists r,
    parseCheckpoint [("id", JStr "cp_1"); ("data_snapshot", JNum 7)]
    = Return r /\
    Checkpoint.dataSnapshot r
    = {| DataSnapshot.keyCount := JNum 0;
         DataSnapshot.totalSizeBytes := JNum 0 |}.
Proof.
  eexists. split; [reflexivity|].
  apply (proj1 (proj1 (nested_objects_default
                         [("id", JStr "cp_1"); ("data_snapshot", JNum 7)])
                  _ eq_refl)).
  right. exists (JNum 7). split; reflexivity.
Defined.

(** ** Facades over the pipeline *)

Section OverThePipeline.

Context {RT : Runtime}.
Variable transport : Transport.
Variable cfg : Config.

Lemma request_client_error (meth endpoint : string) (data : option Record)
  (params : option Params) (query : list (string * string)) (r : Response) :
  URL_valid (effective_baseUrl cfg ++ endpoint) = true ->
  query_of params = Return query ->
  0 <= effective_retryAttempts cfg ->
  transport 0 = Responds r ->
  400 <= status r < 500 ->
  status r <> 429 ->
  convertible (error_message (status r) (parseBody (text r))) = true ->
  request transport cfg meth endpoint data params
  = ([{| fetched := Some (fetch_call cfg meth endpoint data query);
         slept := None |}],
     Throw (handleError (status r) (parseBody (text r)))).
Proof.
  intros HU HQ HR Ht Hs H429 Hm.
  rewrite (request_attempts _ _ _ _ _ _ _ HU HQ).
  replace (Z.to_nat (effective_retryAttempts cfg + 1))
    with (S (Z.to_nat (effective_retryAttempts cfg))) by lia.
  rewrite (attempts_client_error transport cfg _ _ 0 None r Ht Hs H429 Hm).
  reflexivity.
Qed.

(** A server that keeps answering with an error that cannot be built:
    the budget is spent and the failure of the conversion is what is
    thrown. *)
Lemma request_unclassifiable (meth endpoint : string) (data : option Record)
  (params : option Params) (query : list (string * string)) (r : Response) :
  URL_valid (effective_baseUrl cfg ++ endpoint) = true ->
  query_of params = Return query ->
  0 <= effective_retryAttempts cfg ->
  (forall k, transport k = Responds r) ->
  ok r = false ->
  classifiable r = false ->
  map slept (trace (request transport cfg meth endpoint data params))
  = (schedule (effective_retryDelay cfg)
       (Z.to_nat (effective_retryAttempts cfg)) ++ [None])%list /\
  outcome (request transport cfg meth endpoint data params)
  = Throw (NetworkError
             "Request failed: Cannot convert object to primitive value").
Proof.
  intros HU HQ HR Ht Hok Hc.
  rewrite (request_attempts _ _ _ _ _ _ _ HU HQ).
  replace (Z.to_nat (effective_retryAttempts cfg + 1))
    with (S (Z.to_nat (effective_retryAttempts cfg))) by lia.
  destruct (attempts_run_shape transport cfg
              (fetch_call cfg meth endpoint data query)
              (Z.to_nat (effective_retryAttempts cfg))
              (Z.to_nat (effective_retryAttempts cfg)) 0 None ltac:(lia))
    as (Hm & Ho).
  - intros i Hi. rewrite Ht. cbn [retryable]. rewrite Hok, Hc.
    apply orb_true_r.
  - right. lia.
  - split; [exact Hm|]. rewrite Ho, Ht. cbn [settle]. rewrite Hok.
    unfold classifiable in Hc.
    rewrite (surfaced_unclassified cfg _ _ Hc). reflexivity.
Qed.

End OverThePipeline.

(** X20: against a server whose first answer is a 404 whose error can be
    built, the lookups [agents.get], [data.read] and [data.readFull]
    return [null], unless the body carries a policy indicator, in which
    case they throw the [PolicyViolationError] instead.  Against a server
    that keeps answering 404 with a message that has no primitive
    conversion they throw a [NetworkError]. *)
Theorem lookups_of_missing_entities {RT : Runtime} (transport : Transport)
  (cfg : Config) (r : Response) (agentId key : string) :
  let http := client transport cfg in
  let body := parseBody (text r) in
  let violation :=
    PolicyViolationError (error_message 404 body)
      (or_else (js_or (prop body "blocked_by") (prop body "policy_name"))
               (JStr "unknown"))
      404 body in
  let failure :=
    NetworkError "Request failed: Cannot convert object to primitive value" in
  0 <= effective_retryAttempts cfg ->
  status r = 404 ->
  (transport 0 = Responds r ->
   convertible (error_message 404 body) = true ->
   (URL_valid (effective_baseUrl cfg ++ "/agents/" ++ agentId) = true ->
    AgentsNamespace_get http agentId
    = if policy_indicator body then Throw violation else Return None) /\
   (URL_valid (effective_baseUrl cfg ++ "/agents/" ++ agentId ++ "/data/"
                 ++ key) = true ->
    DataNamespace_read http agentId key
    = (if policy_indicator body then Throw violation else Return JNull) /\
    DataNamespace_readFull http agentId key
    = if policy_indicator body then Throw violation else Return None)) /\
  ((forall k, transport k = Responds r) ->
   convertible (error_message 404 body) = false ->
   (URL_valid (effective_baseUrl cfg ++ "/agents/" ++ agentId) = true ->
    AgentsNamespace_get http agentId = Throw failure) /\
   (URL_valid (effective_baseUrl cfg ++ "/agents/" ++ agentId ++ "/data/"
                 ++ key) = true ->
    DataNamespace_read http agentId key = Throw failure /\
    DataNamespace_readFull http agentId key = Throw failure)).
Proof.
  intros http body violation failure HR Hs. split.
  - intros Ht Hm.
    assert (Hthrow : forall endpoint,
               URL_valid (effective_baseUrl cfg ++ endpoint) = true ->
               http "GET" endpoint None None
               = if policy_indicator body then Throw violation
                 else Throw (NotFoundError (error_message 404 body) 404 body)).
    { intros endpoint HU. unfold http, client.
      rewrite (request_client_error transport cfg "GET" endpoint None None []
                 r HU eq_refl HR Ht) by (rewrite ?Hs; (lia || exact Hm)).
      cbn [outcome snd]. rewrite Hs. fold body.
      destruct (policy_indicator body) eqn:Hp.
      - rewrite (handleError_policy 404 body Hm Hp). reflexivity.
      - rewrite (handleError_by_status 404 body Hm Hp). reflexivity. }
    split.
    + intros HU. unfold AgentsNamespace_get, http_get.
      rewrite (Hthrow _ HU). destruct (policy_indicator body); reflexivity.
    + intros HU. unfold DataNamespace_read, DataNamespace_readFull, http_get.
      rewrite (Hthrow _ HU).
      destruct (policy_indicator body); split; reflexivity.
  - intros Ht Hm.
    assert (Hok : ok r = false) by (unfold ok; rewrite Hs; reflexivity).
    assert (Hc : classifiable r = false).
    { unfold classifiable, status_or_500. rewrite Hs. exact Hm. }
    assert (Hthrow : forall endpoint,
               URL_valid (effective_baseUrl cfg ++ endpoint) = true ->
               http "GET" endpoint None None = Throw failure).
    { intros endpoint HU. unfold http, client.
      exact (proj2 (request_unclassifiable transport cfg "GET" endpoint None
                      None [] r HU eq_refl HR Ht Hok Hc)). }
    split.
    + intros HU. unfold AgentsNamespace_get, http_get.
      rewrite (Hthrow _ HU). reflexivity.
    + intros HU. unfold DataNamespace_read, DataNamespace_readFull, http_get.
      rewrite (Hthrow _ HU). split; reflexivity.
Qed.

Lemma lookups_of_missing_entities_witness :
  AgentsNamespace_get (client (answering 404 "{}") sample_config) "agent_404"
  = Return None /\
  DataNamespace_read (client (answering 404 "") sample_config)
    "agent_123" "no:such:key" = Return JNull /\
  AgentsNamespace_get
    (client (answering 404 unprintable_message_text) sample_config)
    "agent_404"
  = Throw (NetworkError
             "Request failed: Cannot convert object to primitive value").
Proof.
  assert (HR : 0 <= effective_retryAttempts sample_config)
    by (vm_compute; discriminate).
  assert (H1 : convertible (error_message 404 (parseBody (Some "{}"))) = true)
    by reflexivity.
  assert (H2 : convertible (error_message 404 (parseBody (Some ""))) = true)
    by reflexivity.
  assert (H3 : convertible
                 (error_message 404
                    (parseBody (Some unprintable_message_text))) = false)
    by reflexivity.
  split; [|split].
  - apply (proj1 (proj1 (lookups_of_missing_entities (answering 404 "{}")
                    sample_config {| status := 404; text := Some "{}" |}
                    "agent_404" "k" HR eq_refl) eq_refl H1)).
    reflexivity.
  - apply (proj2 (proj1 (lookups_of_missing_entities (answering 404 "")
                    sample_config {| status := 404; text := Some "" |}
                    "agent_123" "no:such:key" HR eq_refl) eq_refl H2)).
    reflexivity.
  - apply (proj1 (proj2 (lookups_of_missing_entities
                    (answering 404 unprintable_message_text) sample_config
                    {| status := 404;
                       text := Some unprintable_message_text |}
                    "agent_404" "k" HR eq_refl)
                    (fun _ => eq_refl) H3)).
    reflexivity.
Defined.

(** ** The Mem0 wrapper *)

Section Mem0Properties.

Context {RT : Runtime}.
Variable http : HttpClient.

Lemma lookup_props_of (response : json) (k : string) :
  lookup k (props_of response) = prop response k.
Proof. destruct response; reflexivity. Qed.

Lemma write_returns (response : json) (agentId key value : string)
  (metadata : option Record) :
  (forall meth endpoint data params,
      http meth endpoint data params = Return response) ->
  response <> JNull ->
  DataNamespace_write http agentId key value metadata
  = parseWriteResult (props_of response).
Proof.
  intros H Hn. unfold DataNamespace_write, http_post. rewrite H.
  destruct response; try reflexivity. contradiction.
Qed.

Lemma write_throws (e : Error) (agentId key value : string)
  (metadata : option Record) :
  (forall meth endpoint data params, http meth endpoint data params = Throw e) ->
  DataNamespace_write http agentId key value metadata = Throw e.
Proof.
  intros H. unfold DataNamespace_write, http_post. rewrite H. reflexivity.
Qed.

Lemma write_null (agentId key value : string) (metadata : option Record) :
  (forall meth endpoint data params,
      http meth endpoint data params = Return JNull) ->
  DataNamespace_write http agentId key value metadata = Throw TypeError_null.
Proof.
  intros H. unfold DataNamespace_write, http_post. rewrite H. reflexivity.
Qed.

(** The policy check of a response, once normalized. *)
Lemma policy_check_of_response (response : json) (policyCheck : WriteResult.t) :
  parseWriteResult (props_of response) = Return policyCheck ->
  WriteResult.allowed policyCheck = not_false (prop response "allowed") /\
  WriteResult.blockedBy policyCheck = prop response "blocked_by" /\
  WriteResult.reason policyCheck = prop response "reason" /\
  date_of (prop response "expires_at")
  = Return (WriteResult.expiresAt policyCheck).
Proof.
  intros H. returned H. cbn. rewrite !lookup_props_of in *.
  repeat split. assumption.
Qed.

Lemma not_false_false (x : option json) :
  not_false x = false <-> x = Some (JBool false).
Proof.
  split; [|intros ->; reflexivity].
  destruct x as [[| [|] | | | |]|]; cbn; intros H; try discriminate.
  reflexivity.
Qed.

Lemma not_false_true (x : option json) :
  x <> Some (JBool false) -> not_false x = true.
Proof.
  intros Hx. destruct (not_false x) eqn:E; [reflexivity|].
  apply not_false_false in E. contradiction.
Qed.

End Mem0Properties.

(** X21: [add] hands the data to the Mem0 client exactly when the policy
    check came back and did not say [allowed: false].  When the check
    throws (a policy violation answered as an error, the network down, an
    answer that cannot be normalized) the error is thrown and Mem0 is not
    called; when it is blocked the result reports the blocking policy and
    Mem0 is not called; any other answer, one without an [allowed] field
    included, counts as allowed, and Mem0 is called once with the data and
    options as given. *)
Theorem mem0_add_is_gated {RT : Runtime} (http : HttpClient)
  (agentId : string) (mem0 : Mem0Client) (now : Z) (data : string)
  (options : option AddOptions.t) :
  (forall e,
      (forall meth endpoint body params,
          http meth endpoint body params = Throw e) ->
      AnchorMem0_add http agentId mem0 now data options = ([], Throw e)) /\
  (forall response,
      (forall meth endpoint body params,
          http meth endpoint body params = Return response) ->
      response <> JNull ->
      (forall e, parseWriteResult (props_of response) = Throw e ->
       AnchorMem0_add http agentId mem0 now data options = ([], Throw e)) /\
      (forall policyCheck,
          parseWriteResult (props_of response) = Return policyCheck ->
          (prop response "allowed" = Some (JBool false) ->
           AnchorMem0_add http agentId mem0 now data options
           = ([], Return {| PolicyResult.allowed := false;
                            PolicyResult.blockedBy :=
                              prop response "blocked_by";
                            PolicyResult.reason := prop response "reason";
                            PolicyResult.mem0Result := None;
                            PolicyResult.expiresAt := None |})) /\
          (prop response "allowed" <> Some (JBool false) ->
           AnchorMem0_add http agentId mem0 now data options
           = ([Mem0Add data options],
              let* mem0Result := mem0_add mem0 data options in
              Return {| PolicyResult.allowed := true;
                        PolicyResult.blockedBy := None;
                        PolicyResult.reason := None;
                        PolicyResult.mem0Result := Some mem0Result;
                        PolicyResult.expiresAt :=
                          WriteResult.expiresAt policyCheck |}) /\
           date_of (prop response "expires_at")
           = Return (WriteResult.expiresAt policyCheck)))).
Proof.
  split.
  - intros e H. unfold AnchorMem0_add. rewrite (write_throws http e _ _ _ _ H).
    reflexivity.
  - intros response H Hn. unfold AnchorMem0_add.
    rewrite (write_returns http response _ _ _ _ H Hn). split.
    + intros e ->. reflexivity.
    + intros policyCheck Hp. rewrite Hp.
      destruct (policy_check_of_response response policyCheck Hp)
        as (Hallowed & Hblocked & Hreason & Hexpires).
      rewrite Hallowed, Hblocked, Hreason. split; intros Ha.
      * rewrite Ha. reflexivity.
      * rewrite (not_false_true _ Ha). split; [reflexivity|exact Hexpires].
Qed.

(** X22: [update] is gated in the same way as [add]. *)
Theorem mem0_update_is_gated {RT : Runtime} (http : HttpClient)
  (agentId : string) (mem0 : Mem0Client) (now : Z) (memoryId data : string)
  (options : option Record) :
  (forall e,
      (forall meth endpoint body params,
          http meth endpoint body params = Throw e) ->
      AnchorMem0_update http agentId mem0 now memoryId data options
      = ([], Throw e)) /\
  (forall response,
      (forall meth endpoint body params,
          http meth endpoint body params = Return response) ->
      response <> JNull ->
      (forall e, parseWriteResult (props_of response) = Throw e ->
       AnchorMem0_update http agentId mem0 now memoryId data options
       = ([], Throw e)) /\
      (forall policyCheck,
          parseWriteResult (props_of response) = Return policyCheck ->
          (prop response "allowed" = Some (JBool false) ->
           AnchorMem0_update http agentId mem0 now memoryId data options
           = ([], Return {| PolicyResult.allowed := false;
                            PolicyResult.blockedBy :=
                              prop response "blocked_by";
                            PolicyResult.reason := prop response "reason";
                            PolicyResult.mem0Result := None;
                            PolicyResult.expiresAt := None |})) /\
          (prop response "allowed" <> Some (JBool false) ->
           AnchorMem0_update http agentId mem0 now memoryId data options
           = ([Mem0Update memoryId data options],
              let* mem0Result := mem0_update mem0 memoryId data options in
              Return {| PolicyResult.allowed := true;
                        PolicyResult.blockedBy := None;
                        PolicyResult.reason := None;
                        PolicyResult.mem0Result := Some mem0Result;
                        PolicyResult.expiresAt := None |})))).
Proof.
  split.
  - intros e H. unfold AnchorMem0_update.
    rewrite (write_throws http e _ _ _ _ H). reflexivity.
  - intros response H Hn. unfold AnchorMem0_update.
    rewrite (write_returns http response _ _ _ _ H Hn). split.
    + intros e ->. reflexivity.
    + intros policyCheck Hp. rewrite Hp.
      destruct (policy_check_of_response response policyCheck Hp)
        as (Hallowed & Hblocked & Hreason & _).
      rewrite Hallowed, Hblocked, Hreason. split; intros Ha.
      * rewrite Ha. reflexivity.
      * rewrite (not_false_true _ Ha). reflexivity.
Qed.

(** X23: [search] is audited but not gated: the Mem0 client is searched
    once the audit write has returned, a blocked one included, and is not
    searched when the write throws. *)
Theorem mem0_search_is_audited {RT : Runtime} (http : HttpClient)
  (agentId : string) (mem0 : Mem0Client) (now : Z) (query : string)
  (options : option SearchOptions.t) :
  (forall e,
      (forall meth endpoint body params,
          http meth endpoint body params = Throw e) ->
      AnchorMem0_search http agentId mem0 now query options = ([], Throw e)) /\
  (forall response,
      (forall meth endpoint body params,
          http meth endpoint body params = Return response) ->
      response <> JNull ->
      (forall policyCheck,
          parseWriteResult (props_of response) = Return policyCheck ->
          AnchorMem0_search http agentId mem0 now query options
          = ([Mem0Search query options], mem0_search mem0 query options)) /\
      (forall e, parseWriteResult (props_of response) = Throw e ->
       AnchorMem0_search http agentId mem0 now query options
       = ([], Throw e))) /\
  ((forall meth endpoint body params,
       http meth endpoint body params = Return JNull) ->
   AnchorMem0_search http agentId mem0 now query options
   = ([], Throw TypeError_null)).
Proof.
  split; [|split].
  - intros e H. unfold AnchorMem0_search.
    rewrite (write_throws http e _ _ _ _ H). reflexivity.
  - intros response H Hn. unfold AnchorMem0_search.
    rewrite (write_returns http response _ _ _ _ H Hn).
    split; [intros policyCheck ->|intros e ->]; reflexivity.
  - intros H. unfold AnchorMem0_search. rewrite (write_null http _ _ _ _ H).
    reflexivity.
Qed.

Lemma mem0_add_is_gated_witness :
  fst (AnchorMem0_add blocking "agent_123" echo_mem0 1700000000000
         "my SSN is 123-45-6789" None) = [] /\
  fst (AnchorMem0_add
         (failing (ServerError (JStr "HTTP 503") 503 empty_object))
         "agent_123" echo_mem0 1700000000000 "hello" None) = [] /\
  fst (AnchorMem0_add (replying empty_object) "agent_123"
         echo_mem0 1700000000000 "hello" None) = [Mem0Add "hello" None].
Proof.
  split; [|split].
  - destruct (proj2 (proj2 (mem0_add_is_gated blocking "agent_123" echo_mem0
                              1700000000000 "my SSN is 123-45-6789" None)
                       (JObj sample_write_result) ltac:(reflexivity)
                       ltac:(discriminate)) _ eq_refl) as (Hblocked & _).
    rewrite (Hblocked eq_refl). reflexivity.
  - rewrite (proj1 (mem0_add_is_gated
                      (failing (ServerError (JStr "HTTP 503") 503
                                  empty_object))
                      "agent_123" echo_mem0 1700000000000 "hello" None)
               (ServerError (JStr "HTTP 503") 503 empty_object)
               ltac:(reflexivity)).
    reflexivity.
  - destruct (proj2 (proj2 (mem0_add_is_gated (replying empty_object)
                              "agent_123" echo_mem0 1700000000000 "hello"
                              None)
                       empty_object ltac:(reflexivity) ltac:(discriminate))
                _ eq_refl) as (_ & Hallowed).
    rewrite (proj1 (Hallowed ltac:(discriminate))). reflexivity.
Defined.

Lemma mem0_update_is_gated_witness :
  fst (AnchorMem0_update blocking "agent_123" echo_mem0 1700000000000
         "mem_1" "my SSN is 123-45-6789" None) = [].
Proof.
  destruct (proj2 (proj2 (mem0_update_is_gated blocking "agent_123" echo_mem0
                            1700000000000 "mem_1" "my SSN is 123-45-6789"
                            None)
                     (JObj sample_write_result) ltac:(reflexivity)
                     ltac:(discriminate)) _ eq_refl) as (Hblocked & _).
  rewrite (Hblocked eq_refl). reflexivity.
Defined.

Lemma mem0_search_is_audited_witness :
  AnchorMem0_search blocking "agent_123" echo_mem0 1700000000000
    "preferences" None
  = ([Mem0Search "preferences" None], Return (JArr [JStr "preferences"])).
Proof.
  apply (proj1 (proj1 (proj2 (mem0_search_is_audited blocking "agent_123"
                                echo_mem0 1700000000000 "preferences" None))
                  (JObj sample_write_result) ltac:(reflexivity)
                  ltac:(discriminate)) _ eq_refl).
Defined.

Section Literals.

Lemma get_assign_same (k : string) (v : option json) (o : Literal) :
  get k (assign k v o) = Some v.
Proof.
  induction o as [|[k' v'] o IH]; cbn.
  - rewrite String.eqb_refl. reflexivity.
  - destruct (String.eqb_spec k k') as [->|Hne]; cbn.
    + rewrite String.eqb_refl. reflexivity.
    + destruct (String.eqb_spec k k'); [contradiction|]. exact IH.
Qed.

Lemma get_assign_other (k k' : string) (v : option json) (o : Literal) :
  k <> k' -> get k (assign k' v o) = get k o.
Proof.
  intros Hne. induction o as [|[k1 v1] o IH]; cbn.
  - destruct (String.eqb_spec k k'); [contradiction|]. reflexivity.
  - destruct (String.eqb_spec k' k1) as [->|Hne1]; cbn.
    + destruct (String.eqb_spec k k1); [contradiction|]. reflexivity.
    + destruct (String.eqb_spec k k1); [reflexivity|]. exact IH.
Qed.

Lemma keys_assign (k : string) (v : option json) (o : Literal) :
  map fst (assign k v o)
  = if in_dec string_dec k (map fst o) then map fst o
    else (map fst o ++ [k])%list.
Proof.
  induction o as [|[k' v'] o IH]; [reflexivity|].
  cbn [assign map fst]. destruct (String.eqb_spec k k') as [->|Hne].
  - cbn [map fst].
    destruct (in_dec string_dec k' (k' :: map fst o)) as [_|Hn];
      [reflexivity|].
    contradiction Hn. left. reflexivity.
  - cbn [map fst]. rewrite IH.
    destruct (in_dec string_dec k (map fst o)) as [Hi|Hi];
      destruct (in_dec string_dec k (k' :: map fst o)) as [Hj|Hj];
      try reflexivity.
    + contradiction Hj. right. exact Hi.
    + destruct Hj as [Hj|Hj]; [congruence|contradiction].
Qed.

Lemma NoDup_assign (k : string) (v : option json) (o : Literal) :
  NoDup (map fst o) -> NoDup (map fst (assign k v o)).
Proof.
  intros H. rewrite keys_assign.
  destruct (in_dec string_dec k (map fst o)) as [Hi|Hi]; [exact H|].
  apply NoDup_app; [exact H|repeat constructor; intros []|].
  intros x Hx [<-|[]]. contradiction.
Qed.

Lemma NoDup_spread (fields : Record) :
  forall o : Literal,
    NoDup (map fst o) ->
    NoDup (map fst (fold_left
                      (fun acc kv => assign (fst kv) (Some (snd kv)) acc)
                      fields o)).
Proof.
  induction fields as [|[k v] fields IH]; intros o H; [exact H|].
  cbn [fold_left]. apply IH. apply NoDup_assign. exact H.
Qed.

Lemma get_spread_other (k : string) (fields : Record) :
  forall o : Literal,
    ~ In k (map fst fields) ->
    get k (fold_left (fun acc kv => assign (fst kv) (Some (snd kv)) acc)
                     fields o) = get k o.
Proof.
  induction fields as [|[k1 v1] fields IH]; intros o Hn; [reflexivity|].
  cbn [fold_left fst snd]. rewrite IH.
  - apply get_assign_other. intros ->. apply Hn. left. reflexivity.
  - intros Hi. apply Hn. right. exact Hi.
Qed.

Lemma get_spread_field (k : string) (v : json) (fields : Record) :
  forall o : Literal,
    NoDup (map fst fields) ->
    In (k, v) fields ->
    get k (fold_left (fun acc kv => assign (fst kv) (Some (snd kv)) acc)
                     fields o) = Some (Some v).
Proof.
  induction fields as [|[k1 v1] fields IH]; intros o Hd Hin; [destruct Hin|].
  cbn [fold_left fst snd]. cbn [map fst] in Hd.
  apply NoDup_cons_iff in Hd. destruct Hd as [Hk1 Hd].
  destruct Hin as [Heq|Hin].
  - injection Heq as -> ->. rewrite get_spread_other by exact Hk1.
    apply get_assign_same.
  - apply IH; assumption.
Qed.

Lemma lookup_stringified_absent (k : string) (o : Literal) :
  ~ In k (map fst o) -> lookup k (stringified o) = None.
Proof.
  induction o as [|[k' v'] o IH]; intros Hn; [reflexivity|].
  cbn [stringified flat_map fst snd].
  assert (Hne : k <> k') by (intros ->; apply Hn; left; reflexivity).
  assert (Hrest : lookup k (stringified o) = None)
    by (apply IH; intros Hi; apply Hn; right; exact Hi).
  destruct v' as [v|]; cbn [app lookup]; [|exact Hrest].
  destruct (String.eqb_spec k k'); [contradiction|]. exact Hrest.
Qed.

(** Reading a key of what is serialized: the defined value the literal
    has for it. *)
Lemma lookup_stringified (k : string) (o : Literal) :
  NoDup (map fst o) ->
  lookup k (stringified o)
  = match get k o with
    | Some (Some v) => Some v
    | _ => None
    end.
Proof.
  induction o as [|[k' v'] o IH]; intros Hd; [reflexivity|].
  cbn [map fst] in Hd. apply NoDup_cons_iff in Hd. destruct Hd as [Hk' Hd].
  cbn [stringified flat_map fst snd get].
  destruct (String.eqb_spec k k') as [->|Hne].
  - destruct v' as [v|]; cbn [app lookup].
    + rewrite String.eqb_refl. reflexivity.
    + apply lookup_stringified_absent. exact Hk'.
  - destruct v' as [v|]; cbn [app lookup].
    + destruct (String.eqb_spec k k'); [contradiction|]. apply IH. exact Hd.
    + apply IH. exact Hd.
Qed.

Lemma lookup_absent_key (k : string) (fields : Record) :
  lookup k fields = None -> ~ In k (map fst fields).
Proof.
  induction fields as [|[k' v'] fields IH]; cbn; [tauto|].
  destruct (String.eqb_spec k k') as [->|Hne]; [discriminate|].
  intros H [Heq|Hin]; [congruence|]. exact (IH H Hin).
Qed.

End Literals.

(** X24: the metadata [add] writes with its policy check holds every key
    of the caller's metadata with the caller's value, which therefore
    replaces the wrapper's own [operation], [user_id], [agent_id] and
    [run_id] when the caller uses those names; the entry is tagged
    [operation: "mem0.add"] exactly when the caller's metadata has no
    [operation] of its own. *)
Theorem caller_metadata_wins (options : AddOptions.t) (metadata : Record) :
  AddOptions.metadata options = Some metadata ->
  NoDup (map fst metadata) ->
  (forall k v, In (k, v) metadata ->
     lookup k (add_metadata (Some options)) = Some v) /\
  (lookup "operation" metadata = None ->
   lookup "operation" (add_metadata (Some options))
   = Some (JStr "mem0.add")).
Proof.
  intros Hm Hd. unfold add_metadata, spread. cbn [optional]. rewrite Hm.
  set (base := [("operation", Some (JStr "mem0.add"));
                ("user_id", option_map JStr (AddOptions.userId options));
                ("agent_id", option_map JStr (AddOptions.agentId options));
                ("run_id", option_map JStr (AddOptions.runId options))]).
  assert (Hbase : NoDup (map fst base)).
  { cbn. repeat constructor; cbn; intuition discriminate. }
  split.
  - intros k v Hin.
    rewrite lookup_stringified by (apply NoDup_spread; exact Hbase).
    rewrite (get_spread_field k v metadata base Hd Hin). reflexivity.
  - intros Hop.
    rewrite lookup_stringified by (apply NoDup_spread; exact Hbase).
    rewrite get_spread_other by (apply lookup_absent_key; exact Hop).
    reflexivity.
Qed.

Lemma caller_metadata_wins_witness :
  let options :=
    {| AddOptions.userId := Some "user_1"; AddOptions.agentId := None;
       AddOptions.runId := None;
       AddOptions.metadata :=
         Some [("operation", JStr "import"); ("source", JStr "crm")] |} in
  lookup "operation" (add_metadata (Some options)) = Some (JStr "import") /\
  lookup "source" (add_metadata (Some options)) = Some (JStr "crm").
Proof.
  intros options.
  assert (Hd : NoDup (map fst [("operation", JStr "import");
                               ("source", JStr "crm")])).
  { cbn. repeat constructor; cbn; intuition discriminate. }
  split.
  - apply (proj1 (caller_metadata_wins options _ eq_refl Hd)).
    left. reflexivity.
  - apply (proj1 (caller_metadata_wins options _ eq_refl Hd)).
    right. left. reflexivity.
Defined.

(** ** Facade arguments and odd bodies *)

Lemma Qmin_below (a b : Q) : (a <= b)%Q -> Qmin a b = a.
Proof.
  intros H. unfold Qmin, GenericMinMax.gmin.
  destruct (a ?= b)%Q eqn:E; try reflexivity.
  apply Qgt_alt in E. exfalso. exact (Qlt_not_le _ _ E H).
Qed.

Lemma Qmin_above (a b : Q) : (b < a)%Q -> Qmin a b = b.
Proof.
  intros H. unfold Qmin, GenericMinMax.gmin.
  apply Qgt_alt in H. rewrite H. reflexivity.
Qed.

Lemma Q_or_nonzero (n d : Q) : ~ (n == 0)%Q -> Q_or (Some n) d = n.
Proof.
  intros H. cbn. destruct (Z.eqb_spec (Qnum n) 0) as [E|E]; [|reflexivity].
  exfalso. apply H. unfold Qeq. cbn. rewrite E. reflexivity.
Qed.

Lemma Q_or_zero (n d : Q) : (n == 0)%Q -> Q_or (Some n) d = d.
Proof.
  intros H. cbn. destruct (Z.eqb_spec (Qnum n) 0) as [E|E]; [reflexivity|].
  exfalso. apply E. unfold Qeq in H. cbn in H. lia.
Qed.

(** [Math.min(limit || d, cap)] by the limit that is asked for. *)
Lemma capped (limit : option Q) (d cap : Q) :
  (d <= cap)%Q -> (0 <= cap)%Q ->
  (Qmin (Q_or limit d) cap <= cap)%Q /\
  (forall n, limit = Some n -> ~ (n == 0)%Q -> (n <= cap)%Q ->
             Qmin (Q_or limit d) cap = n) /\
  (forall n, limit = Some n -> (cap < n)%Q -> Qmin (Q_or limit d) cap = cap) /\
  (limit = None \/ (exists n, limit = Some n /\ (n == 0)%Q) ->
   Qmin (Q_or limit d) cap = d).
Proof.
  intros Hd Hcap. split; [apply Q.le_min_r|]. split; [|split].
  - intros n -> Hn Hle. rewrite (Q_or_nonzero n d Hn).
    apply Qmin_below. exact Hle.
  - intros n -> Hlt. rewrite Q_or_nonzero.
    + apply Qmin_above. exact Hlt.
    + intros H0. rewrite H0 in Hlt. exact (Qlt_not_le _ _ Hlt Hcap).
  - intros [->|(n & -> & Hn)].
    + cbn. apply Qmin_below. exact Hd.
    + rewrite (Q_or_zero n d Hn). apply Qmin_below. exact Hd.
Qed.

(** X25: the limit a listing facade sends is capped.  The request of
    [agents.list] carries one [limit], which is the limit asked for when
    that is not zero and at most 100, 100 when more is asked for, and 50
    when none or zero is; the request of [audit.query] likewise with a
    cap of 1000 and a default of 100. *)
Theorem limits_are_capped {RT : Runtime} (limit : option Q) :
  let agents_limit := Qmin (Q_or limit 50) 100 in
  let events_limit := Qmin (Q_or limit 100) 1000 in
  (forall status offset,
      exists rest,
        ~ In "limit" (map fst rest) /\
        forall http,
          AgentsNamespace_list http status limit offset
          = let* response :=
              http "GET" "/agents" None
                (Some (("limit", Some (JNum agents_limit)) :: rest)) in
            map_prop response "agents" (normalize parseAgent)) /\
  (forall agentId operations startTime endTime,
      usable_date startTime -> usable_date endTime ->
      exists rest,
        ~ In "limit" (map fst rest) /\
        forall http,
          AuditNamespace_query http agentId operations startTime endTime limit
          = let* response :=
              http "GET" ("/agents/" ++ agentId ++ "/audit") None
                (Some (("limit", Some (JNum events_limit)) :: rest)) in
            map_prop response "events" (normalize parseAuditEvent)) /\
  ((agents_limit <= 100)%Q /\
   (forall n, limit = Some n -> ~ (n == 0)%Q -> (n <= 100)%Q ->
              agents_limit = n) /\
   (forall n, limit = Some n -> (100 < n)%Q -> agents_limit = 100%Q) /\
   (limit = None \/ (exists n, limit = Some n /\ (n == 0)%Q) ->
    agents_limit = 50%Q)) /\
  ((events_limit <= 1000)%Q /\
   (forall n, limit = Some n -> ~ (n == 0)%Q -> (n <= 1000)%Q ->
              events_limit = n) /\
   (forall n, limit = Some n -> (1000 < n)%Q -> events_limit = 1000%Q) /\
   (limit = None \/ (exists n, limit = Some n /\ (n == 0)%Q) ->
    events_limit = 100%Q)).
Proof.
  intros agents_limit events_limit.
  split; [|split; [|split]].
  - intros status offset.
    exists ([("offset", Some (JNum (Q_or offset 0)))]
            ++ when_string "status" status)%list.
    split; [|intros http; reflexivity].
    unfold when_string. destruct status as [s|]; [destruct (s =? "")%string|];
      cbn; intuition discriminate.
  - intros agentId operations startTime endTime Hs He.
    destruct startTime as [[[t1|]]|];
      try (exfalso; exact (Hs _ eq_refl eq_refl));
      destruct endTime as [[[t2|]]|];
      try (exfalso; exact (He _ eq_refl eq_refl));
      (eexists; split; [|intros http; reflexivity]);
      destruct operations; cbn; intuition discriminate.
  - apply capped; discriminate.
  - apply capped; discriminate.
Qed.

Lemma limits_are_capped_witness :
  Qmin (Q_or (Some 500%Q) 50) 100 = 100%Q /\
  Qmin (Q_or (Some 20%Q) 100) 1000 = 20%Q /\
  Qmin (Q_or (Some 0%Q) 50) 100 = 50%Q.
Proof.
  split; [|split].
  - apply (proj1 (proj2 (proj2 (proj1 (proj2 (proj2
             (limits_are_capped (Some 500%Q)))))))) with (n := 500%Q);
      reflexivity.
  - apply (proj1 (proj2 (proj2 (proj2 (proj2
             (limits_are_capped (Some 20%Q))))))) with (n := 20%Q);
      [reflexivity|discriminate|discriminate].
  - apply (proj2 (proj2 (proj2 (proj1 (proj2 (proj2
             (limits_are_capped (Some 0%Q)))))))).
    right. exists 0%Q. split; reflexivity.
Defined.

(** X26: an audit facade given an Invalid Date throws the [RangeError] of
    [toISOString] whatever the client would have answered: the request is
    never made. *)
Theorem invalid_dates_fail_before_the_request {RT : Runtime}
  (http : HttpClient) (agentId : string) :
  let invalid := Some {| time_value := None |} in
  let range_error := JsException "RangeError" "Invalid time value" in
  (forall operations endTime limit,
      AuditNamespace_query http agentId operations invalid endTime limit
      = Throw range_error) /\
  (forall operations startTime limit,
      usable_date startTime ->
      AuditNamespace_query http agentId operations startTime invalid limit
      = Throw range_error) /\
  AuditNamespace_verify http agentId invalid = Throw range_error /\
  (forall format endTime includeVerification,
      AuditNamespace_export http agentId format invalid endTime
        includeVerification = Throw range_error) /\
  (forall format startTime includeVerification,
      usable_date startTime ->
      AuditNamespace_export http agentId format startTime invalid
        includeVerification = Throw range_error).
Proof.
  intros invalid range_error. repeat apply conj; intros;
    try reflexivity;
    match goal with
    | U : usable_date ?d |- _ =>
        destruct d as [[[t|]]|];
        [reflexivity|exfalso; exact (U _ eq_refl eq_refl)|reflexivity]
    end.
Qed.

Lemma invalid_dates_fail_before_the_request_witness :
  AuditNamespace_query blocking "agent_123" None
    (Some {| time_value := Some 1704067200000 |})
    (Some {| time_value := None |}) None
  = Throw (JsException "RangeError" "Invalid time value").
Proof.
  apply (proj1 (proj2 (invalid_dates_fail_before_the_request blocking
                         "agent_123"))).
  intros x Hx. injection Hx as <-. discriminate.
Defined.

(** X27: a successful response whose body is the JSON value [null] makes
    every facade that reads the body throw a [TypeError]; the lookups
    rethrow it, since it is not a [NotFoundError]. *)
Theorem null_body_is_a_type_error {RT : Runtime} (http : HttpClient) :
  (forall meth endpoint data params,
      http meth endpoint data params = Return JNull) ->
  (forall name metadata,
      AgentsNamespace_create http name metadata = Throw TypeError_null) /\
  (forall agentId,
      AgentsNamespace_get http agentId = Throw TypeError_null) /\
  (forall status limit offset,
      AgentsNamespace_list http status limit offset = Throw TypeError_null) /\
  (forall agentId metadata,
      AgentsNamespace_update http agentId metadata = Throw TypeError_null) /\
  (forall agentId,
      AgentsNamespace_suspend http agentId = Throw TypeError_null) /\
  (forall agentId,
      AgentsNamespace_activate http agentId = Throw TypeError_null) /\
  (forall agentId,
      ConfigNamespace_get http agentId = Throw TypeError_null) /\
  (forall agentId config,
      ConfigNamespace_update http agentId config = Throw TypeError_null) /\
  (forall agentId limit,
      ConfigNamespace_versions http agentId limit = Throw TypeError_null) /\
  (forall agentId version,
      ConfigNamespace_getVersion http agentId version = Throw TypeError_null) /\
  (forall agentId targetVersion,
      ConfigNamespace_rollback http agentId targetVersion = Throw TypeError_null) /\
  (forall agentId key value metadata,
      DataNamespace_write http agentId key value metadata = Throw TypeError_null) /\
  (forall agentId entries,
      DataNamespace_writeBatch http agentId entries = Throw TypeError_null) /\
  (forall agentId key,
      DataNamespace_read http agentId key = Throw TypeError_null) /\
  (forall agentId key,
      DataNamespace_readFull http agentId key = Throw TypeError_null) /\
  (forall agentId prefix,
      DataNamespace_deletePrefix http agentId prefix = Throw TypeError_null) /\
  (forall agentId prefix limit,
      DataNamespace_list http agentId prefix limit = Throw TypeError_null) /\
  (forall agentId query limit prefix minSimilarity,
      DataNamespace_search http agentId query limit prefix minSimilarity = Throw TypeError_null) /\
  (forall agentId label description,
      CheckpointsNamespace_create http agentId label description = Throw TypeError_null) /\
  (forall agentId limit,
      CheckpointsNamespace_list http agentId limit = Throw TypeError_null) /\
  (forall agentId checkpointId,
      CheckpointsNamespace_get http agentId checkpointId = Throw TypeError_null) /\
  (forall agentId checkpointId restoreConfig restoreData,
      CheckpointsNamespace_restore http agentId checkpointId restoreConfig restoreData = Throw TypeError_null) /\
  (forall agentId operations startTime endTime limit,
      usable_date startTime -> usable_date endTime -> AuditNamespace_query http agentId operations startTime endTime limit = Throw TypeError_null) /\
  (forall agentId auditId,
      AuditNamespace_get http agentId auditId = Throw TypeError_null) /\
  (forall agentId startTime,
      usable_date startTime -> AuditNamespace_verify http agentId startTime = Throw TypeError_null) /\
  (forall agentId format startTime endTime includeVerification,
      usable_date startTime -> usable_date endTime -> AuditNamespace_export http agentId format startTime endTime includeVerification = Throw TypeError_null).
Proof.
  intros H. repeat apply conj; facade_returns H; reflexivity.
Qed.

Lemma null_body_is_a_type_error_witness :
  AgentsNamespace_get (replying JNull) "agent_123" = Throw TypeError_null.
Proof.
  exact (proj1 (proj2 (null_body_is_a_type_error (replying JNull)
                         ltac:(reflexivity))) "agent_123").
Defined.

(** Through the pipeline: a 200 whose body is [null]. *)
Example null_body_through_the_pipeline :
  AgentsNamespace_get (client (answering 200 "null") sample_config)
    "agent_123" = Throw TypeError_null.
Proof. reflexivity. Qed.

(** ** Errors that can and cannot be built *)

(** X28: a response whose status is in 400..499 and is not 429, and whose
    error can be built (its message has a primitive conversion), ends the
    call where it arrives: after [k] retryable failures the call has
    slept [retryDelay * 2 ^ i] after iteration [i < k], sleeps no more,
    and throws the classification of that response, which is an API error
    carrying its status.  As a first answer it makes the call one request
    long. *)
Theorem client_error_ends_call {RT : Runtime} (transport : Transport)
  (cfg : Config) (meth endpoint : string) (data : option Record)
  (params : option Params) (query : list (string * string)) (k : nat)
  (r : Response) :
  let run := request transport cfg meth endpoint data params in
  let error := handleError (status r) (parseBody (text r)) in
  URL_valid (effective_baseUrl cfg ++ endpoint) = true ->
  query_of params = Return query ->
  Z.of_nat k <= effective_retryAttempts cfg ->
  (forall i : nat, (i < k)%nat -> retryable (transport (Z.of_nat i)) = true) ->
  transport (Z.of_nat k) = Responds r ->
  400 <= status r < 500 ->
  status r <> 429 ->
  convertible (error_message (status r) (parseBody (text r))) = true ->
  map slept (trace run)
  = (schedule (effective_retryDelay cfg) k ++ [None])%list /\
  outcome run = Throw error /\
  instanceof_AnchorAPIError error = true /\
  statusCode_of error = Some (status r) /\
  (k = O ->
   trace run = [{| fetched := Some (fetch_call cfg meth endpoint data query);
                   slept := None |}]).
Proof.
  intros run error HU HQ Hk Hretry Ht Hs H429 Hm.
  destruct (handleError_carries _ _ Hm) as (Hapi & Hcode & _).
  assert (Hok : ok r = false).
  { unfold ok. apply andb_false_iff. right. lia. }
  assert (H0 : status_or_500 r = status r).
  { unfold status_or_500. destruct (Z.eqb_spec (status r) 0); [lia|].
    reflexivity. }
  assert (Hterminal : retryable (Responds r) = false).
  { cbn [retryable]. unfold classifiable. rewrite Hok, H0, Hm.
    unfold terminal_status.
    replace ((status r >=? 400) && (status r <? 500)
             && negb (status r =? 429)) with true; [reflexivity|].
    symmetry. rewrite !andb_true_iff, negb_true_iff. lia. }
  split; [|split; [|split; [exact Hapi|split; [exact Hcode|]]]].
  - unfold run. rewrite (request_attempts _ _ _ _ _ _ _ HU HQ).
    replace (Z.to_nat (effective_retryAttempts cfg + 1))
      with (S (Z.to_nat (effective_retryAttempts cfg))) by lia.
    apply (attempts_run_shape transport cfg _ k
             (Z.to_nat (effective_retryAttempts cfg)) 0 None); [lia| |].
    + intros i Hi. rewrite Z.add_0_l. auto.
    + left. rewrite Z.add_0_l, Ht. split; [exact Hterminal|lia].
  - unfold run. rewrite (request_attempts _ _ _ _ _ _ _ HU HQ).
    replace (Z.to_nat (effective_retryAttempts cfg + 1))
      with (S (Z.to_nat (effective_retryAttempts cfg))) by lia.
    destruct (attempts_run_shape transport cfg
                (fetch_call cfg meth endpoint data query) k
                (Z.to_nat (effective_retryAttempts cfg)) 0 None ltac:(lia))
      as (_ & Ho).
    + intros i Hi. rewrite Z.add_0_l. auto.
    + left. rewrite Z.add_0_l, Ht. split; [exact Hterminal|lia].
    + rewrite Ho, Z.add_0_l, Ht. cbn [settle]. rewrite Hok, H0.
      rewrite (surfaced_classified cfg _ _ Hm). reflexivity.
  - intros ->. unfold run.
    rewrite (request_client_error transport cfg meth endpoint data params
               query r HU HQ ltac:(lia) Ht Hs H429 Hm).
    reflexivity.
Qed.

Lemma client_error_ends_call_witness :
  request (answering 400 "Bad Request") sample_config "GET" "/agents" None None
  = ([{| fetched := Some (fetch_call sample_config "GET" "/agents" None []);
         slept := None |}],
     Throw (ValidationError (JStr "Bad Request") 400
              (JObj [("error", JStr "Bad Request")]) None)).
Proof.
  assert (HR : Z.of_nat 0 <= effective_retryAttempts sample_config)
    by (vm_compute; discriminate).
  assert (Hm : convertible
                 (error_message 400 (parseBody (Some "Bad Request"))) = true)
    by reflexivity.
  assert (HU : URL_valid (effective_baseUrl sample_config ++ "/agents")
                = true) by reflexivity.
  destruct (client_error_ends_call (answering 400 "Bad Request")
              sample_config "GET" "/agents" None None [] 0
              {| status := 400; text := Some "Bad Request" |}
              HU eq_refl HR)
    as (_ & Ho & _ & _ & Htrace).
  - intros i Hi. lia.
  - reflexivity.
  - cbn. lia.
  - cbn. lia.
  - exact Hm.
  - apply injective_projections; [exact (Htrace eq_refl)|exact Ho].
Defined.

Section Unconvertible.

Context {RT : Runtime}.

Lemma date_of_throws_first {A : Type} (wire : option json)
  (k : option Date -> Result A) :
  convertible_opt wire = false ->
  (let* d := date_of wire in k d) = Throw TypeError_primitive.
Proof. intros H. rewrite (date_of_throws wire H). reflexivity. Qed.

Lemma date_of_throws_later {A : Type} (wire : option json)
  (k : option Date -> Result A) :
  (forall d, k d = Throw TypeError_primitive) ->
  (let* d := date_of wire in k d) = Throw TypeError_primitive.
Proof.
  intros H. destruct (convertible_opt wire) eqn:Hc.
  - destruct (date_of_returns wire Hc) as (d & ->). apply H.
  - apply date_of_throws_first. exact Hc.
Qed.

End Unconvertible.

Ltac timestamp_throws :=
  repeat match goal with
         | H : _ \/ _ |- _ => destruct H as [H|H]
         end;
  repeat first
    [ apply date_of_throws_first; assumption
    | apply date_of_throws_later; intros ? ].

(** X29: a normalizer throws the [TypeError] of [new Date] when one of
    its timestamp fields holds an object or array without a primitive
    conversion, whatever the rest of the payload; a facade lets it
    through, and a lookup does not turn it into [null]. *)
Theorem unconvertible_timestamp_throws {RT : Runtime} (data : Record) :
  (convertible_opt (lookup "created_at" data) = false \/
   convertible_opt (lookup "updated_at" data) = false ->
   parseAgent data = Throw TypeError_primitive) /\
  (convertible_opt (lookup "created_at" data) = false ->
   parseConfig data = Throw TypeError_primitive /\
   parseConfigVersion data = Throw TypeError_primitive /\
   parseCheckpoint data = Throw TypeError_primitive) /\
  (convertible_opt (lookup "expires_at" data) = false \/
   convertible_opt (lookup "created_at" data) = false ->
   parseWriteResult data = Throw TypeError_primitive) /\
  (convertible_opt (lookup "created_at" data) = false \/
   convertible_opt (lookup "updated_at" data) = false \/
   convertible_opt (lookup "expires_at" data) = false ->
   parseDataEntry data = Throw TypeError_primitive) /\
  (convertible_opt (lookup "restored_at" data) = false ->
   parseRestoreResult data = Throw TypeError_primitive) /\
  (convertible_opt (lookup "timestamp" data) = false ->
   parseAuditEvent data = Throw TypeError_primitive) /\
  (convertible_opt (lookup "verified_at" data) = false ->
   parseVerification data = Throw TypeError_primitive) /\
  (convertible_opt (lookup "expires_at" data) = false \/
   (exists v, lookup "verification" data = Some (JObj v) /\
              convertible_opt (lookup "verified_at" v) = false) ->
   parseExportResult data = Throw TypeError_primitive) /\
  (forall http agentId key,
      (forall meth endpoint body params,
          http meth endpoint body params = Return (JObj data)) ->
      convertible_opt (lookup "created_at" data) = false ->
      truthy_opt (lookup "agent" data) = false ->
      AgentsNamespace_get http agentId = Throw TypeError_primitive /\
      DataNamespace_readFull http agentId key = Throw TypeError_primitive /\
      ConfigNamespace_get http agentId = Throw TypeError_primitive).
Proof.
  repeat apply conj.
  - intros H. unfold parseAgent. timestamp_throws.
  - intros H. repeat apply conj;
      unfold parseConfig, parseConfigVersion, parseCheckpoint;
      timestamp_throws.
  - intros H. unfold parseWriteResult. timestamp_throws.
  - intros H. unfold parseDataEntry. timestamp_throws.
  - intros H. unfold parseRestoreResult. timestamp_throws.
  - intros H. unfold parseAuditEvent. timestamp_throws.
  - intros H. unfold parseVerification. timestamp_throws.
  - intros [H|(v & Hv & H)]; unfold parseExportResult.
    + timestamp_throws.
    + apply date_of_throws_later. intros d. rewrite Hv.
      cbn [verification_of truthy props_of]. unfold parseVerification.
      rewrite (date_of_throws _ H). reflexivity.
  - intros http agentId key H Hc Ha.
    assert (Hagent : parseAgent data = Throw TypeError_primitive)
      by (unfold parseAgent; timestamp_throws).
    assert (Hentry : parseDataEntry data = Throw TypeError_primitive)
      by (unfold parseDataEntry; timestamp_throws).
    assert (Hconfig : parseConfig data = Throw TypeError_primitive)
      by (unfold parseConfig; timestamp_throws).
    unfold AgentsNamespace_get, DataNamespace_readFull, ConfigNamespace_get,
      http_get.
    rewrite !H. cbn [bind]. rewrite (agent_of_response_bare data Ha).
    cbn [normalize props_of]. rewrite Hagent, Hentry, Hconfig.
    repeat split.
Qed.

Lemma unconvertible_timestamp_throws_witness :
  let entry :=
    [("key", JStr "user:1:note"); ("value", JStr "hello");
     ("created_at", JObj [("toString", JNull)])] in
  parseDataEntry entry = Throw TypeError_primitive /\
  DataNamespace_readFull (replying (JObj entry)) "agent_123" "user:1:note"
  = Throw TypeError_primitive.
Proof.
  intros entry.
  destruct (unconvertible_timestamp_throws entry)
    as (_ & _ & _ & Hentry & _ & _ & _ & _ & Hfacade).
  split.
  - apply Hentry. left. reflexivity.
  - apply (Hfacade (replying (JObj entry)) "agent_123" "user:1:note");
      reflexivity.
Defined.
